(** * Product catalog, order ledger and sales reports

    A shallow embedding of the Express handlers of the e-commerce backend
    ([routes/products.js], [routes/orders.js], [routes/reports.js]) and of
    the SQLite schema of [database.js].  The single shared database handle
    becomes an explicit [DB] value threaded through every handler; a handler
    is a function from the store and the request to the new store and the
    JSON response.

    Numbers: a JavaScript number is either [NaN] or a finite value, and a
    finite value is idealised as an exact rational of [Q] (infinities,
    signed zero and the rounding of binary64 products are outside the
    model).  A field of a request body is a JSON scalar (arrays and objects
    are outside the model).  Timestamps are clock readings in [Z]: [now] is
    SQLite's CURRENT_TIMESTAMP when a row is inserted, [js_now] the
    handler's own [new Date()].  A [:id] route parameter is the rowid it
    denotes. *)

From Stdlib Require Import ZArith QArith Qround Qabs List String Ascii Bool Lia.
From Stdlib Require Import Permutation Sorted DecimalString Lqa.
Import ListNotations.

Local Open Scope Z_scope.

(* ================================================================= *)
(** ** The JavaScript values the handlers inspect *)

Module Js.

(** A JavaScript number. *)
Inductive number : Type :=
| NaN
| Fin (q : Q).

(** A field of a JSON request body ([undefined] when the field is absent). *)
Inductive value : Type :=
| undefined
| null
| boolean (b : bool)
| num (q : Q)
| str (s : string).

(** The conversions between strings and numbers belong to the language
    runtime and, for a bound parameter, to the SQLite engine, not to the
    repository: the handlers are verified against any implementation of
    them. *)
Class Runtime : Type := {
  StringToNumber : string -> number;     (* ToNumber applied to a string *)
  parseFloatString : string -> number;   (* parseFloat applied to a string *)
  parseIntString : string -> number;     (* parseInt applied to a string *)
  NumberToString : Q -> string;          (* ToString applied to a number *)
  (* SQLite: the number a text is read as by a numeric column or comparison
     when it is a well-formed numeric literal, [None] when it is not *)
  SqliteTextToNumber : string -> option Q;
  (* SQLite: the number an aggregate reads a text as when it is not a
     well-formed literal (its longest numeric prefix, else 0) *)
  SqliteTextToDouble : string -> Q;
  (* SQLite: the text a bound number is stored as in a TEXT column *)
  SqliteNumberToText : Q -> string
}.

(** ToBoolean: [!v] is [negb (truthy v)]. *)
Definition truthy (v : value) : bool :=
  match v with
  | undefined | null => false
  | boolean b => b
  | num q => negb (Qeq_bool q 0)
  | str s => negb (String.eqb s "")
  end.

Definition not (v : value) : bool := negb (truthy v).

(** [x.toFixed(2)] read back by [parseFloat]: the integer [n] for which
    [n / 100 - x] is closest to zero, the larger one on a tie, after the
    sign has been set aside. *)
Definition toFixed2_nonneg (x : Q) : Q :=
  Qred (inject_Z (Qfloor (x * 100 + (1 # 2))) / 100).

Definition toFixed2 (x : Q) : Q :=
  if Qle_bool 0 x then toFixed2_nonneg x else Qred (- toFixed2_nonneg (- x)).

Definition roundTo2 (n : number) : number :=
  match n with
  | NaN => NaN
  | Fin q => Fin (toFixed2 q)
  end.

(** [a * b] on numbers. *)
Definition mul (a b : number) : number :=
  match a, b with
  | Fin x, Fin y => Fin (x * y)
  | _, _ => NaN
  end.

(** [Math.trunc] on a finite number. *)
Definition trunc (q : Q) : Q :=
  if Qle_bool 0 q then inject_Z (Qfloor q) else inject_Z (- Qfloor (- q)).

Section Conversions.
Context {rt : Runtime}.

Definition ToNumber (v : value) : number :=
  match v with
  | undefined => NaN
  | null => Fin 0
  | boolean true => Fin 1
  | boolean false => Fin 0
  | num q => Fin q
  | str s => StringToNumber s
  end.

(** The global [isNaN(v)]. *)
Definition isNaN (v : value) : bool :=
  match ToNumber v with
  | NaN => true
  | Fin _ => false
  end.

(** [v <= 0]: false when [v] converts to NaN. *)
Definition le0 (v : value) : bool :=
  match ToNumber v with
  | NaN => false
  | Fin q => Qle_bool q 0
  end.

(** [parseFloat(v)]: [v] is rendered as a string and its longest numeric
    prefix is read; a finite number survives the round trip. *)
Definition parseFloat (v : value) : number :=
  match v with
  | num q => Fin q
  | str s => parseFloatString s
  | undefined | null | boolean _ => NaN
  end.

(** [parseInt(v)]: [v] is rendered as a string and its integer prefix is
    read; for a number that is the prefix of its rendering, which is not
    its integer part when the rendering uses an exponent. *)
Definition parseInt (v : value) : number :=
  match v with
  | num q => parseIntString (NumberToString q)
  | str s => parseIntString s
  | undefined | null | boolean _ => NaN
  end.
End Conversions.

End Js.

(* ================================================================= *)
(** ** What SQLite stores and how it sums *)

Module Sql.

(** A value stored in a NOT NULL column of INTEGER affinity: a number, or a
    text that is not a well-formed numeric literal and so was left as
    text. *)
Inductive cell : Type :=
| Num (q : Q)
| Text (s : string).

Definition min_int64 : Z := - 2 ^ 63.
Definition max_int64 : Z := 2 ^ 63 - 1.

Definition in_int64 (z : Z) : bool := (min_int64 <=? z) && (z <=? max_int64).

(** The storage class of a number in such a column: INTEGER when it is a
    whole number of 64 bits, REAL otherwise.  (A number is told by its
    value alone: the double -2^63, which SQLite keeps REAL while it reads
    the text of that integer as an INTEGER, is not told apart.) *)
Definition as_int64 (q : Q) : option Z :=
  if Qeq_bool q (inject_Z (Qfloor q)) && in_int64 (Qfloor q)
  then Some (Qfloor q) else None.

(** The outcome of a statement. *)
Inductive result (A : Type) : Type :=
| Ok (a : A)
| Error (message : string).
Arguments Ok {A} a.
Arguments Error {A} message.

(** The accumulator of SUM: an exact 64-bit integer while every value so
    far was an INTEGER, a floating sum after the first other value, and the
    overflow flag, raised when the exact sum leaves 64 bits. *)
Inductive sum_state : Type :=
| Exact (i : Z)
| Approx (r : Q)
| Overflowed.

Definition integer_overflow : string := "SQLITE_ERROR: integer overflow".

Section Aggregates.
Context {rt : Js.Runtime}.

(** The number SQLite reads a stored value as. *)
Definition value (c : cell) : Q :=
  match c with
  | Num q => q
  | Text s => Js.SqliteTextToDouble s
  end.

Definition sum_add (st : sum_state) (c : cell) : sum_state :=
  match st with
  | Overflowed => Overflowed
  | Approx r => Approx (r + value c)
  | Exact i =>
      match c with
      | Num q =>
          match as_int64 q with
          | Some z => if in_int64 (i + z) then Exact (i + z) else Overflowed
          | None => Approx (inject_Z i + q)
          end
      | Text _ => Approx (inject_Z i + value c)
      end
  end.

(** One row of the group: NULL is skipped, the first value starts from 0. *)
Definition sum_step (st : option sum_state) (v : option cell)
    : option sum_state :=
  match v, st with
  | None, _ => st
  | Some c, None => Some (sum_add (Exact 0) c)
  | Some c, Some a => Some (sum_add a c)
  end.

(** [SUM(column)] over the rows in the order they are visited: NULL when no
    row has a value, an error when the overflow flag was raised. *)
Definition sum (l : list (option cell)) : result (option Q) :=
  match fold_left sum_step l None with
  | None => Ok None
  | Some (Exact i) => Ok (Some (inject_Z i))
  | Some (Approx r) => Ok (Some r)
  | Some Overflowed => Error integer_overflow
  end.
End Aggregates.

(** Every statement of a list succeeded, or the first error. *)
Fixpoint all_ok {A : Type} (l : list (result A)) : result (list A) :=
  match l with
  | [] => Ok []
  | Error m :: _ => Error m
  | Ok a :: l' =>
      match all_ok l' with
      | Ok l'' => Ok (a :: l'')
      | Error m => Error m
      end
  end.

End Sql.

(* ================================================================= *)
(** ** The SQLite store *)

(** [CREATE TABLE Products (id INTEGER PRIMARY KEY AUTOINCREMENT,
    name TEXT NOT NULL, price REAL NOT NULL, created_at DATETIME)]. *)
Module Products.
Record row : Type := {
  id : Z;
  name : string;
  price : Q;
  created_at : Z
}.
End Products.

(** [CREATE TABLE Orders (order_id INTEGER PRIMARY KEY AUTOINCREMENT,
    product_id INTEGER NOT NULL, quantity INTEGER NOT NULL,
    total_price REAL NOT NULL, order_date DATETIME,
    FOREIGN KEY (product_id) REFERENCES Products(id))].  No handler turns the
    foreign-key pragma on, so the reference is not enforced.  The two
    INTEGER columns that receive bound request values hold whatever was
    bound: a number, or a text that SQLite could not read as one. *)
Module Orders.
Record row : Type := {
  order_id : Z;
  product_id : Sql.cell;
  quantity : Sql.cell;
  total_price : Q;
  order_date : Z
}.
End Orders.

(** The database: both tables in rowid order, and for each the largest rowid
    ever handed out (the [sqlite_sequence] entry of AUTOINCREMENT). *)
Record DB : Type := {
  products : list Products.row;
  orders : list Orders.row;
  products_seq : Z;
  orders_seq : Z
}.

Definition empty_db : DB :=
  {| products := []; orders := []; products_seq := 0; orders_seq := 0 |}.

(** The rowid AUTOINCREMENT assigns: one more than every rowid in the table
    and every rowid used before. *)
Definition next_rowid (seq : Z) (ids : list Z) : Z :=
  fold_right Z.max seq ids + 1.

(** [ORDER BY ... DESC]: a stable insertion sort; [geb x y] says that [x] may
    come before [y].  SQLite leaves the order of ties open; the model keeps
    them in the order of the rows it was given. *)
Section OrderBy.
Context {A : Type} (geb : A -> A -> bool).

Fixpoint insert_desc (x : A) (l : list A) : list A :=
  match l with
  | [] => [x]
  | y :: l' => if geb x y then x :: l else y :: insert_desc x l'
  end.

Definition order_by_desc (l : list A) : list A :=
  fold_right insert_desc [] l.
End OrderBy.

(** A JSON response.  [Json] is a [success: true] body, [Rejected] a
    [success: false] body with its message (status 400 is the validation
    error, 404 is not-found), [StorageFailure] the bare [{error}] body of
    status 500, [ReportFailure] the [success: false] body with the [error]
    of a failed report query, also status 500, and [Uncaught] an exception
    thrown inside the handler, which sends no body at all. *)
Inductive Response (A : Type) : Type :=
| Json (status : Z) (message : option string) (data : A)
| Rejected (status : Z) (message : string)
| StorageFailure (error : string)
| ReportFailure (error : string)
| Uncaught (exception : string).
Arguments Json {A} status message data.
Arguments Rejected {A} status message.
Arguments StorageFailure {A} error.
Arguments ReportFailure {A} error.
Arguments Uncaught {A} exception.

(** The body of a list endpoint: [data] and [count: rows.length]. *)
Record Listing (A : Type) : Type := {
  rows : list A;
  count : nat
}.
Arguments rows {A} _.
Arguments count {A} _.

Definition listing {A : Type} (l : list A) : Listing A :=
  {| rows := l; count := List.length l |}.

(** The error of an INSERT or UPDATE that leaves a NOT NULL column NULL. *)
Definition not_null_failed (column : string) : string :=
  "SQLITE_CONSTRAINT: NOT NULL constraint failed: " ++ column.

(** What SQLite stores for a bound parameter; [None] is SQL NULL. *)
Section Binding.
Context {rt : Js.Runtime}.

(** A value bound for a column or a comparison of INTEGER affinity: a
    number is bound as a number and a boolean as 1 or 0; a string is bound
    as text, which SQLite turns into a number when it is a well-formed
    numeric literal and leaves as text otherwise. *)
Definition bind_numeric (v : Js.value) : option Sql.cell :=
  match v with
  | Js.undefined | Js.null => None
  | Js.boolean b => Some (Sql.Num (if b then 1%Q else 0%Q))
  | Js.num q => Some (Sql.Num q)
  | Js.str s =>
      match Js.SqliteTextToNumber s with
      | Some q => Some (Sql.Num q)
      | None => Some (Sql.Text s)
      end
  end.

(** A computed number bound for a REAL column: NaN is stored as NULL. *)
Definition bind_number (n : Js.number) : option Q :=
  match n with
  | Js.Fin q => Some q
  | Js.NaN => None
  end.

(** A value bound for a TEXT column: a bound number is stored as the text
    SQLite renders it as. *)
Definition bind_text (v : Js.value) : option string :=
  match v with
  | Js.undefined | Js.null => None
  | Js.boolean b => Some (if b then "1" else "0")%string
  | Js.num q => Some (Js.SqliteNumberToText q)
  | Js.str s => Some s
  end.
End Binding.

(** [WHERE id = ?] with a bound parameter: a text that is not a number
    equals no id. *)
Definition id_matches (k : option Sql.cell) (i : Z) : bool :=
  match k with
  | Some (Sql.Num q) => Qeq_bool (inject_Z i) q
  | Some (Sql.Text _) | None => false
  end.

(* ================================================================= *)
(** ** Catalog store: routes/products.js *)

Module ProductData.
(** The [data] of a create or update response. *)
Record t : Type := {
  id : Z;
  name : Js.value;
  price : Js.number
}.
End ProductData.

Section Catalog.
Context {rt : Js.Runtime}.

Definition product_geb (p1 p2 : Products.row) : bool :=
  Products.id p2 <=? Products.id p1.

(** GET /products *)
Definition listProducts (db : DB) : DB * Response (Listing Products.row) :=
  (db, Json 200 None (listing (order_by_desc product_geb (products db)))).

(** GET /products/:id *)
Definition getProduct (db : DB) (id : Z) : DB * Response Products.row :=
  match find (fun p => Products.id p =? id) (products db) with
  | None => (db, Rejected 404 "Product not found")
  | Some row => (db, Json 200 None row)
  end.

(** [INSERT INTO Products (name, price) VALUES (?, ?)] *)
Definition insert_product (db : DB) (now : Z) (name : option string)
    (price : option Q) : Sql.result (DB * Z) :=
  match name, price with
  | Some n, Some p =>
      let lastID := next_rowid (products_seq db) (map Products.id (products db)) in
      Sql.Ok ({| products := products db ++
                   [{| Products.id := lastID; Products.name := n;
                       Products.price := p; Products.created_at := now |}];
                 orders := orders db;
                 products_seq := lastID;
                 orders_seq := orders_seq db |}, lastID)
  | None, _ => Sql.Error (not_null_failed "Products.name")
  | Some _, None => Sql.Error (not_null_failed "Products.price")
  end.

(** POST /products *)
Definition createProduct (db : DB) (now : Z) (name price : Js.value)
    : DB * Response ProductData.t :=
  if Js.not name || Js.not price then
    (db, Rejected 400 "Name and price are required")
  else if Js.isNaN price || Js.le0 price then
    (db, Rejected 400 "Price must be a positive number")
  else
    match insert_product db now (bind_text name)
            (bind_number (Js.parseFloat price)) with
    | Sql.Error e => (db, StorageFailure e)
    | Sql.Ok (db', lastID) =>
        (db', Json 201 (Some "Product created successfully"%string)
                {| ProductData.id := lastID;
                   ProductData.name := name;
                   ProductData.price := Js.parseFloat price |})
    end.

(** [UPDATE Products SET name = ?, price = ? WHERE id = ?]: the new table
    and the number of rows changed, or the constraint failure. *)
Definition update_product (db : DB) (id : Z) (name : option string)
    (price : option Q) : Sql.result (DB * nat) :=
  let hit := filter (fun p => Products.id p =? id) (products db) in
  match hit, name, price with
  | [], _, _ => Sql.Ok (db, 0%nat)
  | _ :: _, Some n, Some p =>
      Sql.Ok ({| products :=
                 map (fun r =>
                        if Products.id r =? id then
                          {| Products.id := Products.id r;
                             Products.name := n;
                             Products.price := p;
                             Products.created_at := Products.created_at r |}
                        else r) (products db);
               orders := orders db;
               products_seq := products_seq db;
               orders_seq := orders_seq db |}, List.length hit)
  | _ :: _, None, _ => Sql.Error (not_null_failed "Products.name")
  | _ :: _, Some _, None => Sql.Error (not_null_failed "Products.price")
  end.

(** PUT /products/:id *)
Definition updateProduct (db : DB) (id : Z) (name price : Js.value)
    : DB * Response ProductData.t :=
  if Js.not name || Js.not price then
    (db, Rejected 400 "Name and price are required")
  else if Js.isNaN price || Js.le0 price then
    (db, Rejected 400 "Price must be a positive number")
  else
    match update_product db id (bind_text name)
            (bind_number (Js.parseFloat price)) with
    | Sql.Error e => (db, StorageFailure e)
    | Sql.Ok (_, O) => (db, Rejected 404 "Product not found")
    | Sql.Ok (db', S _) =>
        (db', Json 200 (Some "Product updated successfully"%string)
                {| ProductData.id := id;
                   ProductData.name := name;
                   ProductData.price := Js.parseFloat price |})
    end.

(** DELETE /products/:id *)
Definition deleteProduct (db : DB) (id : Z) : DB * Response unit :=
  if existsb (fun p => Products.id p =? id) (products db) then
    ({| products := filter (fun p => negb (Products.id p =? id)) (products db);
        orders := orders db;
        products_seq := products_seq db;
        orders_seq := orders_seq db |},
     Json 200 (Some "Product deleted successfully"%string) tt)
  else (db, Rejected 404 "Product not found").
End Catalog.

(* ================================================================= *)
(** ** Order ledger: routes/orders.js *)

Module OrderCreated.
(** The [data] of POST /orders. *)
Record t : Type := {
  order_id : Z;
  product_id : Js.value;
  product_name : string;
  quantity : Js.value;
  total_price : Js.number;
  order_date : Z
}.
End OrderCreated.

Module OrderListed.
(** A row of GET /orders. *)
Record t : Type := {
  order_id : Z;
  product_id : Sql.cell;
  product_name : string;
  quantity : Sql.cell;
  total_price : Q;
  order_date : Z
}.
End OrderListed.

Module OrderDetail.
(** The row of GET /orders/:id. *)
Record t : Type := {
  order_id : Z;
  product_id : Sql.cell;
  product_name : string;
  unit_price : Q;
  quantity : Sql.cell;
  total_price : Q;
  order_date : Z
}.
End OrderDetail.

Module OrderUpdated.
(** The [data] of PUT /orders/:id. *)
Record t : Type := {
  order_id : Z;
  product_id : Sql.cell;
  quantity : Js.number;
  total_price : Js.number
}.
End OrderUpdated.

(** [FROM Orders o JOIN Products p ON o.product_id = p.id] *)
Definition on_product (o : Orders.row) (p : Products.row) : bool :=
  match Orders.product_id o with
  | Sql.Num q => Qeq_bool q (inject_Z (Products.id p))
  | Sql.Text _ => false
  end.

Definition orders_join_products (db : DB) : list (Orders.row * Products.row) :=
  flat_map (fun o => map (pair o) (filter (on_product o) (products db)))
           (orders db).

Definition joined_geb (r1 r2 : Orders.row * Products.row) : bool :=
  Orders.order_id (fst r2) <=? Orders.order_id (fst r1).

Definition listed (r : Orders.row * Products.row) : OrderListed.t :=
  let (o, p) := r in
  {| OrderListed.order_id := Orders.order_id o;
     OrderListed.product_id := Orders.product_id o;
     OrderListed.product_name := Products.name p;
     OrderListed.quantity := Orders.quantity o;
     OrderListed.total_price := Orders.total_price o;
     OrderListed.order_date := Orders.order_date o |}.

Definition detail (r : Orders.row * Products.row) : OrderDetail.t :=
  let (o, p) := r in
  {| OrderDetail.order_id := Orders.order_id o;
     OrderDetail.product_id := Orders.product_id o;
     OrderDetail.product_name := Products.name p;
     OrderDetail.unit_price := Products.price p;
     OrderDetail.quantity := Orders.quantity o;
     OrderDetail.total_price := Orders.total_price o;
     OrderDetail.order_date := Orders.order_date o |}.

(** [... JOIN Products p ON o.product_id = p.id WHERE o.order_id = ?], read
    with [db.get]: the first row, if any. *)
Definition select_order_joined (db : DB) (id : Z)
    : option (Orders.row * Products.row) :=
  hd_error (filter (fun r => Orders.order_id (fst r) =? id)
                   (orders_join_products db)).

Section Ledger.
Context {rt : Js.Runtime}.

(** [SELECT * FROM Products WHERE id = ?] with the request's product_id. *)
Definition select_product (db : DB) (product_id : Js.value)
    : option Products.row :=
  find (fun p => id_matches (bind_numeric product_id) (Products.id p))
       (products db).

(** [INSERT INTO Orders (product_id, quantity, total_price) VALUES (?,?,?)] *)
Definition insert_order (db : DB) (now : Z)
    (product_id quantity : option Sql.cell) (total_price : option Q)
    : Sql.result (DB * Z) :=
  match product_id, quantity, total_price with
  | Some pid, Some qty, Some total =>
      let lastID := next_rowid (orders_seq db) (map Orders.order_id (orders db)) in
      Sql.Ok ({| products := products db;
               orders := orders db ++
                 [{| Orders.order_id := lastID;
                     Orders.product_id := pid;
                     Orders.quantity := qty;
                     Orders.total_price := total;
                     Orders.order_date := now |}];
               products_seq := products_seq db;
               orders_seq := lastID |}, lastID)
  | None, _, _ => Sql.Error (not_null_failed "Orders.product_id")
  | Some _, None, _ => Sql.Error (not_null_failed "Orders.quantity")
  | Some _, Some _, None => Sql.Error (not_null_failed "Orders.total_price")
  end.

(** POST /orders *)
Definition createOrder (db : DB) (now js_now : Z)
    (product_id quantity : Js.value) : DB * Response OrderCreated.t :=
  if Js.not product_id || Js.not quantity then
    (db, Rejected 400 "Product ID and quantity are required")
  else if Js.isNaN quantity || Js.le0 quantity then
    (db, Rejected 400 "Quantity must be greater than 0")
  else
    match select_product db product_id with
    | None => (db, Rejected 404 "Product not found")
    | Some product =>
        let total_price :=
          Js.mul (Js.Fin (Products.price product)) (Js.ToNumber quantity) in
        match insert_order db now (bind_numeric product_id)
                (bind_numeric quantity) (bind_number total_price) with
        | Sql.Error e => (db, StorageFailure e)
        | Sql.Ok (db', lastID) =>
            (db', Json 201 (Some "Order created successfully"%string)
                    {| OrderCreated.order_id := lastID;
                       OrderCreated.product_id := product_id;
                       OrderCreated.product_name := Products.name product;
                       OrderCreated.quantity := quantity;
                       OrderCreated.total_price := Js.roundTo2 total_price;
                       OrderCreated.order_date := js_now |})
        end
    end.

(** GET /orders *)
Definition listOrders (db : DB) : DB * Response (Listing OrderListed.t) :=
  (db, Json 200 None
         (listing (map listed (order_by_desc joined_geb (orders_join_products db))))).

(** GET /orders/:id *)
Definition getOrder (db : DB) (id : Z) : DB * Response OrderDetail.t :=
  match select_order_joined db id with
  | None => (db, Rejected 404 "Order not found")
  | Some row => (db, Json 200 None (detail row))
  end.

(** [UPDATE Orders SET quantity = ?, total_price = ? WHERE order_id = ?] *)
Definition update_order (db : DB) (id : Z) (quantity : option Sql.cell)
    (total_price : option Q) : Sql.result DB :=
  match filter (fun o => Orders.order_id o =? id) (orders db),
        quantity, total_price with
  | [], _, _ => Sql.Ok db
  | _ :: _, Some qty, Some total =>
      Sql.Ok {| products := products db;
              orders :=
                map (fun o =>
                       if Orders.order_id o =? id then
                         {| Orders.order_id := Orders.order_id o;
                            Orders.product_id := Orders.product_id o;
                            Orders.quantity := qty;
                            Orders.total_price := total;
                            Orders.order_date := Orders.order_date o |}
                       else o) (orders db);
              products_seq := products_seq db;
              orders_seq := orders_seq db |}
  | _ :: _, None, _ => Sql.Error (not_null_failed "Orders.quantity")
  | _ :: _, Some _, None => Sql.Error (not_null_failed "Orders.total_price")
  end.

(** PUT /orders/:id *)
Definition updateOrder (db : DB) (id : Z) (quantity : Js.value)
    : DB * Response OrderUpdated.t :=
  if Js.not quantity then
    (db, Rejected 400 "Quantity is required")
  else if Js.isNaN quantity || Js.le0 quantity then
    (db, Rejected 400 "Quantity must be greater than 0")
  else
    match select_order_joined db id with
    | None => (db, Rejected 404 "Order not found")
    | Some (order, product) =>
        let new_total_price :=
          Js.mul (Js.Fin (Products.price product)) (Js.ToNumber quantity) in
        match update_order db id (bind_numeric quantity)
                (bind_number new_total_price) with
        | Sql.Error e => (db, StorageFailure e)
        | Sql.Ok db' =>
            (db', Json 200 (Some "Order updated successfully"%string)
                    {| OrderUpdated.order_id := id;
                       OrderUpdated.product_id := Orders.product_id order;
                       OrderUpdated.quantity := Js.parseInt quantity;
                       OrderUpdated.total_price := Js.roundTo2 new_total_price |})
        end
    end.

(** DELETE /orders/:id *)
Definition deleteOrder (db : DB) (id : Z) : DB * Response unit :=
  if existsb (fun o => Orders.order_id o =? id) (orders db) then
    ({| products := products db;
        orders := filter (fun o => negb (Orders.order_id o =? id)) (orders db);
        products_seq := products_seq db;
        orders_seq := orders_seq db |},
     Json 200 (Some "Order deleted successfully"%string) tt)
  else (db, Rejected 404 "Order not found").

(** The decimal digits of a row count, as a template literal prints it. *)
Definition count_digits (n : nat) : string :=
  NilZero.string_of_uint (Nat.to_uint n).

(** DELETE /orders : [DELETE FROM Orders], answering with [this.changes]. *)
Definition deleteAllOrders (db : DB) : DB * Response unit :=
  ({| products := products db;
      orders := [];
      products_seq := products_seq db;
      orders_seq := orders_seq db |},
   Json 200
     (Some ("All orders deleted successfully ("
              ++ count_digits (List.length (orders db))
              ++ " records removed)")%string) tt).
End Ledger.

(* ================================================================= *)
(** ** Reporting engine: routes/reports.js *)

(** [SUM] and [AVG] over a REAL column that may hold NULL: a floating
    sum, which raises no overflow. *)
Fixpoint sql_sum_real (l : list (option Q)) : option Q :=
  match l with
  | [] => None
  | None :: l' => sql_sum_real l'
  | Some x :: l' =>
      match sql_sum_real l' with
      | None => Some x
      | Some s => Some (x + s)%Q
      end
  end.

Fixpoint sql_count {A : Type} (l : list (option A)) : Z :=
  match l with
  | [] => 0
  | None :: l' => sql_count l'
  | Some _ :: l' => 1 + sql_count l'
  end.

Definition sql_avg (l : list (option Q)) : option Q :=
  match sql_sum_real l with
  | None => None
  | Some s => Some (s / inject_Z (sql_count l))%Q
  end.

Fixpoint sql_min (l : list (option Z)) : option Z :=
  match l with
  | [] => None
  | None :: l' => sql_min l'
  | Some x :: l' =>
      match sql_min l' with
      | None => Some x
      | Some m => Some (Z.min x m)
      end
  end.

Fixpoint sql_max (l : list (option Z)) : option Z :=
  match l with
  | [] => None
  | None :: l' => sql_max l'
  | Some x :: l' =>
      match sql_max l' with
      | None => Some x
      | Some m => Some (Z.max x m)
      end
  end.

Definition coalesce0 (x : option Q) : Q :=
  match x with
  | Some q => q
  | None => 0%Q
  end.

(** [x > 0] on a nullable number: NULL is not greater than anything. *)
Definition sql_gt0 (x : option Q) : bool :=
  match x with
  | Some q => negb (Qle_bool q 0)
  | None => false
  end.

(** The order of a nullable column: NULL sorts below every number. *)
Definition sql_leb (x y : option Q) : bool :=
  match x, y with
  | None, _ => true
  | Some _, None => false
  | Some a, Some b => Qle_bool a b
  end.

(** [FROM Products p LEFT JOIN Orders o ON p.id = o.product_id] *)
Definition products_left_join_orders (db : DB)
    : list (Products.row * option Orders.row) :=
  flat_map (fun p =>
              match filter (fun o => on_product o p) (orders db) with
              | [] => [(p, None)]
              | os => map (fun o => (p, Some o)) os
              end) (products db).

(** [GROUP BY p.id, p.name, p.price] *)
Definition same_group (p1 p2 : Products.row) : bool :=
  (Products.id p1 =? Products.id p2)
  && String.eqb (Products.name p1) (Products.name p2)
  && Qeq_bool (Products.price p1) (Products.price p2).

Fixpoint group_keys (l : list Products.row) : list Products.row :=
  match l with
  | [] => []
  | p :: l' => p :: filter (fun p' => negb (same_group p p')) (group_keys l')
  end.

Definition group_by_product (j : list (Products.row * option Orders.row))
    : list (Products.row * list (option Orders.row)) :=
  map (fun p => (p, map snd (filter (fun r => same_group p (fst r)) j)))
      (group_keys (map fst j)).

(** The columns [o.quantity], [o.total_price], [o.order_id] of a joined row:
    NULL on the row of a product without orders. *)
Definition o_quantity (o : option Orders.row) : option Sql.cell :=
  option_map Orders.quantity o.
Definition o_total_price (o : option Orders.row) : option Q :=
  option_map Orders.total_price o.
Definition o_order_id (o : option Orders.row) : option Z :=
  option_map Orders.order_id o.

Module TopSellerRow.
(** A row of the top-sellers query. *)
Record t : Type := {
  id : Z;
  name : string;
  price : Q;
  total_quantity_sold : option Q;
  number_of_orders : Z;
  total_revenue : option Q
}.
End TopSellerRow.

Module TopSeller.
(** A row of the top-sellers response. *)
Record t : Type := {
  id : Z;
  name : string;
  price : Q;
  total_quantity_sold : option Q;
  number_of_orders : Z;
  total_revenue : Q
}.
End TopSeller.

Definition top_seller_geb (r1 r2 : TopSellerRow.t) : bool :=
  sql_leb (TopSellerRow.total_quantity_sold r2)
          (TopSellerRow.total_quantity_sold r1).

(** The [rows.map] of the handler; [row.total_revenue.toFixed] throws on
    null. *)
Definition top_seller (row : TopSellerRow.t) : option TopSeller.t :=
  match TopSellerRow.total_revenue row with
  | None => None
  | Some revenue =>
      Some {| TopSeller.id := TopSellerRow.id row;
              TopSeller.name := TopSellerRow.name row;
              TopSeller.price := Js.toFixed2 (TopSellerRow.price row);
              TopSeller.total_quantity_sold := TopSellerRow.total_quantity_sold row;
              TopSeller.number_of_orders := TopSellerRow.number_of_orders row;
              TopSeller.total_revenue := Js.toFixed2 revenue |}
  end.

Fixpoint map_throwing {A B : Type} (f : A -> option B) (l : list A)
    : option (list B) :=
  match l with
  | [] => Some []
  | x :: l' =>
      match f x with
      | None => None
      | Some y =>
          match map_throwing f l' with
          | None => None
          | Some ys => Some (y :: ys)
          end
      end
  end.

Module SalesSummary.
(** The [data] of the sales summary; a date is [None] when it is null. *)
Record t : Type := {
  total_orders : Z;
  total_items_sold : Q;
  total_revenue : Q;
  average_order_value : Q;
  first_order_date : option Z;
  last_order_date : option Z
}.
End SalesSummary.

Module SalesSummaryRow.
(** The single row of the sales-summary query. *)
Record t : Type := {
  total_orders : Z;
  total_items_sold : option Q;
  total_revenue : option Q;
  average_order_value : option Q;
  first_order_date : option Z;
  last_order_date : option Z
}.
End SalesSummaryRow.

(** [COUNT(DISTINCT order_id)] *)
Definition count_distinct (l : list Z) : Z :=
  Z.of_nat (List.length (nodup Z.eq_dec l)).

(** [x || 0] on a nullable number: null and 0 are both falsy. *)
Definition or0 (x : option Q) : Q :=
  match x with
  | Some q => if Qeq_bool q 0 then 0%Q else q
  | None => 0%Q
  end.

(** [x ? parseFloat(x.toFixed(2)) : 0] *)
Definition fixed2_or0 (x : option Q) : Q :=
  match x with
  | Some q => if Qeq_bool q 0 then 0%Q else Js.toFixed2 q
  | None => 0%Q
  end.

Module PerformanceRow.
(** A row of the product-performance query. *)
Record t : Type := {
  id : Z;
  name : string;
  price : Q;
  total_sold : Q;
  order_count : Z;
  revenue : Q
}.
End PerformanceRow.

Module ProductPerformance.
(** A row of the product-performance response. *)
Record t : Type := {
  id : Z;
  name : string;
  price : Q;
  total_sold : Q;
  order_count : Z;
  revenue : Q
}.
End ProductPerformance.

Definition performance_geb (r1 r2 : PerformanceRow.t) : bool :=
  Qle_bool (PerformanceRow.total_sold r2) (PerformanceRow.total_sold r1).

Definition product_performance (row : PerformanceRow.t) : ProductPerformance.t :=
  {| ProductPerformance.id := PerformanceRow.id row;
     ProductPerformance.name := PerformanceRow.name row;
     ProductPerformance.price := Js.toFixed2 (PerformanceRow.price row);
     ProductPerformance.total_sold := PerformanceRow.total_sold row;
     ProductPerformance.order_count := PerformanceRow.order_count row;
     ProductPerformance.revenue := Js.toFixed2 (PerformanceRow.revenue row) |}.

Section Reports.
Context {rt : Js.Runtime}.

(** The aggregates of one group of the top-sellers query; [SUM(o.quantity)]
    runs over an INTEGER column and can fail. *)
Definition top_seller_row (g : Products.row * list (option Orders.row))
    : Sql.result TopSellerRow.t :=
  let (p, os) := g in
  match Sql.sum (map o_quantity os) with
  | Sql.Error e => Sql.Error e
  | Sql.Ok sold =>
      Sql.Ok {| TopSellerRow.id := Products.id p;
                TopSellerRow.name := Products.name p;
                TopSellerRow.price := Products.price p;
                TopSellerRow.total_quantity_sold := sold;
                TopSellerRow.number_of_orders := sql_count (map o_order_id os);
                TopSellerRow.total_revenue :=
                  sql_sum_real (map o_total_price os) |}
  end.

(** The top-sellers query: aggregate, HAVING, ORDER BY, LIMIT 5. *)
Definition top_sellers_query (db : DB) : Sql.result (list TopSellerRow.t) :=
  match Sql.all_ok (map top_seller_row
                        (group_by_product (products_left_join_orders db))) with
  | Sql.Error e => Sql.Error e
  | Sql.Ok rows =>
      Sql.Ok (firstn 5
                (order_by_desc top_seller_geb
                   (filter (fun r => sql_gt0 (TopSellerRow.total_quantity_sold r))
                           rows)))
  end.

(** GET /report/top-sellers *)
Definition topSellers (db : DB) : DB * Response (Listing TopSeller.t) :=
  match top_sellers_query db with
  | Sql.Error e => (db, ReportFailure e)
  | Sql.Ok rows =>
      match map_throwing top_seller rows with
      | None => (db, Uncaught "TypeError")
      | Some data =>
          (db, Json 200
                 (Some "Top 5 best-selling products retrieved successfully"%string)
                 (listing data))
      end
  end.

Definition sales_summary_query (db : DB) : Sql.result SalesSummaryRow.t :=
  let os := orders db in
  match Sql.sum (map (fun o => Some (Orders.quantity o)) os) with
  | Sql.Error e => Sql.Error e
  | Sql.Ok items =>
      Sql.Ok
        {| SalesSummaryRow.total_orders :=
             count_distinct (map Orders.order_id os);
           SalesSummaryRow.total_items_sold := items;
           SalesSummaryRow.total_revenue :=
             sql_sum_real (map (fun o => Some (Orders.total_price o)) os);
           SalesSummaryRow.average_order_value :=
             sql_avg (map (fun o => Some (Orders.total_price o)) os);
           SalesSummaryRow.first_order_date :=
             sql_min (map (fun o => Some (Orders.order_date o)) os);
           SalesSummaryRow.last_order_date :=
             sql_max (map (fun o => Some (Orders.order_date o)) os) |}
  end.

(** GET /report/sales-summary *)
Definition salesSummary (db : DB) : DB * Response SalesSummary.t :=
  match sales_summary_query db with
  | Sql.Error e => (db, ReportFailure e)
  | Sql.Ok row =>
      (db, Json 200 (Some "Sales summary retrieved successfully"%string)
             {| SalesSummary.total_orders :=
                  (if SalesSummaryRow.total_orders row =? 0 then 0
                   else SalesSummaryRow.total_orders row);
                SalesSummary.total_items_sold :=
                  or0 (SalesSummaryRow.total_items_sold row);
                SalesSummary.total_revenue :=
                  fixed2_or0 (SalesSummaryRow.total_revenue row);
                SalesSummary.average_order_value :=
                  fixed2_or0 (SalesSummaryRow.average_order_value row);
                SalesSummary.first_order_date :=
                  SalesSummaryRow.first_order_date row;
                SalesSummary.last_order_date :=
                  SalesSummaryRow.last_order_date row |})
  end.

Definition performance_row (g : Products.row * list (option Orders.row))
    : Sql.result PerformanceRow.t :=
  let (p, os) := g in
  match Sql.sum (map o_quantity os) with
  | Sql.Error e => Sql.Error e
  | Sql.Ok sold =>
      Sql.Ok {| PerformanceRow.id := Products.id p;
                PerformanceRow.name := Products.name p;
                PerformanceRow.price := Products.price p;
                PerformanceRow.total_sold := coalesce0 sold;
                PerformanceRow.order_count := sql_count (map o_order_id os);
                PerformanceRow.revenue :=
                  coalesce0 (sql_sum_real (map o_total_price os)) |}
  end.

(** The product-performance query: aggregate and ORDER BY, no HAVING and no
    LIMIT. *)
Definition product_performance_query (db : DB)
    : Sql.result (list PerformanceRow.t) :=
  match Sql.all_ok (map performance_row
                        (group_by_product (products_left_join_orders db))) with
  | Sql.Error e => Sql.Error e
  | Sql.Ok rows => Sql.Ok (order_by_desc performance_geb rows)
  end.

(** GET /report/product-performance *)
Definition productPerformance (db : DB)
    : DB * Response (Listing ProductPerformance.t) :=
  match product_performance_query db with
  | Sql.Error e => (db, ReportFailure e)
  | Sql.Ok rows =>
      (db, Json 200
             (Some "Product performance data retrieved successfully"%string)
             (listing (map product_performance rows)))
  end.
End Reports.

(* ================================================================= *)
(** ** A decimal runtime

    An instance of the conversions on plain decimal literals (an optional
    sign, digits, an optional fraction), where JavaScript and SQLite read a
    text alike, enough to run the handlers on concrete requests. *)

Module DecimalRuntime.

Definition digit (c : ascii) : option Z :=
  let n := Z.of_nat (nat_of_ascii c) in
  if (48 <=? n) && (n <=? 57) then Some (n - 48) else None.

(** Reads digits: the value so far, how many were read, and the rest. *)
Fixpoint digits (s : string) (acc : Z) (n : nat) : Z * nat * string :=
  match s with
  | EmptyString => (acc, n, s)
  | String c s' =>
      match digit c with
      | Some d => digits s' (10 * acc + d) (S n)
      | None => (acc, n, s)
      end
  end.

Definition unsigned_prefix (s : string) : option (Q * string) :=
  let '(i, n, rest) := digits s 0 0%nat in
  match rest with
  | String "."%char rest' =>
      let '(f, m, rest'') := digits rest' 0 0%nat in
      if (n + m =? 0)%nat then None
      else Some ((inject_Z i + inject_Z f / inject_Z (10 ^ Z.of_nat m))%Q, rest'')
  | _ => if (n =? 0)%nat then None else Some (inject_Z i, rest)
  end.

Definition signed_prefix (s : string) : option (Q * string) :=
  match s with
  | String "-"%char s' =>
      match unsigned_prefix s' with
      | Some (q, rest) => Some ((- q)%Q, rest)
      | None => None
      end
  | _ => unsigned_prefix s
  end.

Definition to_number (s : string) : Js.number :=
  match s with
  | EmptyString => Js.Fin 0
  | _ =>
      match signed_prefix s with
      | Some (q, EmptyString) => Js.Fin (Qred q)
      | _ => Js.NaN
      end
  end.

Definition parse_float (s : string) : Js.number :=
  match signed_prefix s with
  | Some (q, _) => Js.Fin (Qred q)
  | None => Js.NaN
  end.

Definition parse_int (s : string) : Js.number :=
  match signed_prefix s with
  | Some (q, _) => Js.Fin (Js.trunc q)
  | None => Js.NaN
  end.

(** The integer part in decimal, then the fraction digit by digit. *)
Fixpoint fraction (fuel : nat) (r : Z) (d : Z) : string :=
  match fuel with
  | O => EmptyString
  | S fuel' =>
      if r =? 0 then EmptyString
      else
        (NilZero.string_of_uint (N.to_uint (Z.to_N (10 * r / d)))
           ++ fraction fuel' (10 * r mod d) d)%string
  end.

Definition to_string (q : Q) : string :=
  let a := Qabs q in
  let i := Qfloor a in
  let r := Qnum a - i * Z.pos (Qden a) in
  ((if Qle_bool 0 q then "" else "-")
     ++ NilZero.string_of_uint (N.to_uint (Z.to_N i))
     ++ (if Z.eqb r 0 then "" else "." ++ fraction 17 r (Z.pos (Qden a))))%string.

Definition sqlite_number (s : string) : option Q :=
  match signed_prefix s with
  | Some (q, EmptyString) => Some (Qred q)
  | _ => None
  end.

Definition sqlite_double (s : string) : Q :=
  match signed_prefix s with
  | Some (q, _) => Qred q
  | None => 0%Q
  end.

(** A whole number of 32 bits is bound as an integer, any other number as a
    double, which a TEXT column renders with a fraction. *)
Definition sqlite_text (q : Q) : string :=
  if Qeq_bool q (inject_Z (Qfloor q)) then
    if (Z.abs (Qfloor q) <? 2 ^ 31) then to_string q
    else (to_string q ++ ".0")%string
  else to_string q.

#[export] Instance runtime : Js.Runtime := {
  Js.StringToNumber := to_number;
  Js.parseFloatString := parse_float;
  Js.parseIntString := parse_int;
  Js.NumberToString := to_string;
  Js.SqliteTextToNumber := sqlite_number;
  Js.SqliteTextToDouble := sqlite_double;
  Js.SqliteNumberToText := sqlite_text
}.

End DecimalRuntime.


(* ================================================================= *)
(** ** Sample stores

    Stores reached by running the handlers from the empty database with the
    decimal runtime; the concrete instances below are stated on them. *)

Module Sample.
Import DecimalRuntime.

(** One product, "Widget", priced 0.333. *)
Definition catalog : DB :=
  fst (createProduct empty_db 100 (Js.str "Widget") (Js.num (333 # 1000))).

(** ... and one order of 3 Widgets. *)
Definition ledger : DB :=
  fst (createOrder catalog 101 201 (Js.num 1) (Js.num 3)).

(** ... whose product is then deleted: the order is left dangling. *)
Definition dangling : DB :=
  fst (deleteProduct ledger 1).

(** A second product, "Gadget", that nobody ordered. *)
Definition two_products : DB :=
  fst (createProduct ledger 102 (Js.str "Gadget") (Js.num 2)).

(** ... then ordered once and deleted: the Widget order is listed, the
    Gadget order dangles. *)
Definition mixed : DB :=
  fst (deleteProduct
         (fst (createOrder two_products 103 203 (Js.num 2) (Js.num 1))) 2).

(** Two orders of 5 * 10^18 Widgets: each quantity is a 64-bit integer,
    their sum is not. *)
Definition overflowing : DB :=
  fst (createOrder
         (fst (createOrder catalog 101 201 (Js.num 1)
                 (Js.num 5000000000000000000)))
         102 202 (Js.num 1) (Js.num 5000000000000000000)).
End Sample.

(* ================================================================= *)
(** ** Properties of a store *)

(** The PRIMARY KEY constraints of the two tables. *)
Definition primary_keys (db : DB) : Prop :=
  NoDup (map Products.id (products db))
  /\ NoDup (map Orders.order_id (orders db)).

(** The sum of a column of numbers. *)
Definition total (l : list Q) : Q := fold_right Qplus 0%Q l.

(** The Orders of a product. *)
Definition orders_of (db : DB) (p : Products.row) : list Orders.row :=
  filter (fun o => on_product o p) (orders db).

(** The revenue of a product over all its Orders. *)
Definition revenue_of (db : DB) (p : Products.row) : Q :=
  total (map Orders.total_price (orders_of db p)).

(** The size of a stored quantity as a 64-bit integer; 0 for a value that
    is not one. *)
Definition magnitude (c : Sql.cell) : Z :=
  match c with
  | Sql.Num q =>
      match Sql.as_int64 q with
      | Some z => Z.abs z
      | None => 0
      end
  | Sql.Text _ => 0
  end.

(** The integer quantities of these orders add up within 64 bits, in
    whatever order they are summed. *)
Definition quantities_fit (os : list Orders.row) : Prop :=
  fold_right Z.add 0 (map (fun o => magnitude (Orders.quantity o)) os)
  <= Sql.max_int64.

Section Sold.
Context {rt : Js.Runtime}.

(** The quantities of a list of orders, as SQLite reads them. *)
Definition quantities (os : list Orders.row) : list Q :=
  map (fun o => Sql.value (Orders.quantity o)) os.

(** What a product sold over all its Orders. *)
Definition quantity_sold (db : DB) (p : Products.row) : Q :=
  total (quantities (orders_of db p)).

(** The product sold something: its quantities add up to more than 0. *)
Definition sold (db : DB) (p : Products.row) : bool :=
  negb (Qle_bool (quantity_sold db p) 0).
End Sold.

(** The rows the LEFT JOIN pairs with a product: its orders, or a single
    NULL order when it has none. *)
Definition left_rows (db : DB) (p : Products.row) : list (option Orders.row) :=
  match orders_of db p with
  | [] => [None]
  | os => map Some os
  end.

(** A join that pairs each product with the rows [rows_of] gives it. *)
Definition join_rows (rows_of : Products.row -> list (option Orders.row))
    (ps : list Products.row) : list (Products.row * option Orders.row) :=
  flat_map (fun p => map (pair p) (rows_of p)) ps.

(** An order whose product_id names no row of the catalog. *)
Definition dangling (db : DB) (o : Orders.row) : Prop :=
  forall p, In p (products db) -> on_product o p = false.

Definition has_product (db : DB) (o : Orders.row) : bool :=
  existsb (on_product o) (products db).

(** Every stored order has a quantity that is a number above 0. *)
Definition positive_quantities (db : DB) : Prop :=
  Forall (fun o => exists q, Orders.quantity o = Sql.Num q /\ (0 < q)%Q)
         (orders db).

(** Every stored product has a price above 0. *)
Definition positive_prices (db : DB) : Prop :=
  Forall (fun p => (0 < Products.price p)%Q) (products db).

(* ================================================================= *)
(** ** Validation *)

Section ValidationFacts.
Context {rt : Js.Runtime}.

Lemma not_undefined : Js.not Js.undefined = true.
Proof. reflexivity. Qed.

Lemma not_empty_string : Js.not (Js.str "") = true.
Proof. reflexivity. Qed.

(** The number 0 is falsy: [!0] holds. *)
Lemma not_zero (q : Q) : (q == 0)%Q -> Js.not (Js.num q) = true.
Proof.
  intros H. unfold Js.not, Js.truthy.
  apply Qeq_bool_iff in H. now rewrite H.
Qed.

Lemma not_positive (q : Q) : (0 < q)%Q -> Js.not (Js.num q) = false.
Proof.
  intros H. unfold Js.not, Js.truthy.
  destruct (Qeq_bool q 0) eqn:E; [|reflexivity].
  apply Qeq_bool_iff in E. rewrite E in H. now apply Qlt_irrefl in H.
Qed.

Lemma le0_positive (q : Q) : (0 < q)%Q -> Js.le0 (Js.num q) = false.
Proof.
  intros H. unfold Js.le0; simpl.
  destruct (Qle_bool q 0) eqn:E; [|reflexivity].
  apply Qle_bool_iff in E. exfalso. apply (Qlt_irrefl 0).
  eapply Qlt_le_trans; eauto.
Qed.

Lemma le0_nonpositive (v : Js.value) (q : Q) :
  Js.ToNumber v = Js.Fin q -> (q <= 0)%Q -> Js.le0 v = true.
Proof.
  intros E H. unfold Js.le0. rewrite E. now apply Qle_bool_iff.
Qed.

Lemma isNaN_num (q : Q) : Js.isNaN (Js.num q) = false.
Proof. reflexivity. Qed.
End ValidationFacts.

(** The part of C7 that holds: createProduct with a name that is missing,
    null or empty, or a price that is missing, null, not a number by the
    handler's own test ([isNaN]), or at most 0, answers 400 (a validation
    error) and leaves the store as it was: no Product row is persisted. *)
Lemma createProduct_invalid_rejected {rt : Js.Runtime} :
  forall (db : DB) (now : Z) (name price : Js.value),
    name = Js.undefined \/ name = Js.null \/ name = Js.str "" \/
    price = Js.undefined \/ price = Js.null \/ Js.isNaN price = true \/
    (exists q, Js.ToNumber price = Js.Fin q /\ (q <= 0)%Q) ->
    exists message,
      createProduct db now name price = (db, Rejected 400 message).
Proof.
  intros db now name price H. unfold createProduct.
  destruct (Js.not name || Js.not price) eqn:Hreq; [eauto|].
  apply orb_false_iff in Hreq. destruct Hreq as [Hn Hp].
  destruct H as [-> | [-> | [-> | [-> | [-> | [Hnan | (q & Hq & Hle)]]]]]];
    try discriminate.
  - rewrite Hnan. simpl. eauto.
  - rewrite (le0_nonpositive _ _ Hq Hle), orb_true_r. eauto.
Qed.

(** A price that is a string and not a number is rejected that way. *)
Example createProduct_price_not_a_number :
  exists message,
    createProduct (rt := DecimalRuntime.runtime) empty_db 0
      (Js.str "Product") (Js.str "not-a-number")
    = (empty_db, Rejected 400 message).
Proof.
  apply (createProduct_invalid_rejected (rt := DecimalRuntime.runtime)).
  do 5 right; left. reflexivity.
Qed.

(** C7 (the code at the price [true]): the boolean [true] is a price that is
    not a number, yet it passes both guards ([isNaN(true)] is false and
    [true <= 0] is false); [parseFloat(true)] is NaN, the INSERT breaks
    NOT NULL, and the answer is the 500 of a storage error, not the 400 of a
    validation error.  No row is persisted. *)
Theorem createProduct_boolean_price {rt : Js.Runtime} :
  forall (db : DB) (now : Z) (name : Js.value),
    Js.not name = false ->
    createProduct db now name (Js.boolean true)
    = (db, StorageFailure
             "SQLITE_CONSTRAINT: NOT NULL constraint failed: Products.price").
Proof.
  intros db now name Hn. unfold createProduct. rewrite Hn.
  destruct name as [| |b|q|s]; try discriminate Hn; reflexivity.
Qed.

Lemma createProduct_boolean_price_witness :
  createProduct (rt := DecimalRuntime.runtime) empty_db 0
    (Js.str "Product") (Js.boolean true)
  = (empty_db,
     StorageFailure
       "SQLITE_CONSTRAINT: NOT NULL constraint failed: Products.price").
Proof.
  apply (createProduct_boolean_price (rt := DecimalRuntime.runtime)).
  reflexivity.
Defined.

(** C3 (the code at quantity 0): a createOrder request whose quantity is the
    number 0 is answered by the presence check, with the message
    "Product ID and quantity are required", whatever the product id; the
    store is not touched. *)
Theorem createOrder_quantity_zero {rt : Js.Runtime} :
  forall (db : DB) (now js_now : Z) (product_id : Js.value),
    createOrder db now js_now product_id (Js.num 0)
    = (db, Rejected 400 "Product ID and quantity are required").
Proof.
  intros db now js_now product_id. unfold createOrder.
  rewrite (not_zero 0) by reflexivity.
  now rewrite orb_true_r.
Qed.

(** C5: with no Order rows the sales summary succeeds and reports
    total_orders, total_items_sold, total_revenue and average_order_value as
    the number 0, and both dates as null. *)
Theorem salesSummary_no_orders {rt : Js.Runtime} :
  forall db : DB,
    orders db = [] ->
    salesSummary db
    = (db, Json 200 (Some "Sales summary retrieved successfully"%string)
             {| SalesSummary.total_orders := 0;
                SalesSummary.total_items_sold := 0%Q;
                SalesSummary.total_revenue := 0%Q;
                SalesSummary.average_order_value := 0%Q;
                SalesSummary.first_order_date := None;
                SalesSummary.last_order_date := None |}).
Proof.
  intros db H. unfold salesSummary, sales_summary_query.
  rewrite H. reflexivity.
Qed.

Lemma salesSummary_no_orders_witness :
  salesSummary (rt := DecimalRuntime.runtime) empty_db
  = (empty_db, Json 200 (Some "Sales summary retrieved successfully"%string)
                 {| SalesSummary.total_orders := 0;
                    SalesSummary.total_items_sold := 0%Q;
                    SalesSummary.total_revenue := 0%Q;
                    SalesSummary.average_order_value := 0%Q;
                    SalesSummary.first_order_date := None;
                    SalesSummary.last_order_date := None |}).
Proof.
  apply (salesSummary_no_orders (rt := DecimalRuntime.runtime) empty_db).
  reflexivity.
Defined.

(* ================================================================= *)
(** ** The total price of an order *)

Section OrderTotals.
Context {rt : Js.Runtime}.

(** A successful POST /orders found the product, stored the exact product
    of price and quantity, and answered with its rounding. *)
Lemma createOrder_success (db db' : DB) (now js_now : Z)
    (product_id quantity : Js.value)
    (status : Z) (message : option string) (data : OrderCreated.t) :
  createOrder db now js_now product_id quantity
  = (db', Json status message data) ->
  exists p x o,
    select_product db product_id = Some p
    /\ Js.ToNumber quantity = Js.Fin x
    /\ OrderCreated.total_price data
       = Js.Fin (Js.toFixed2 (Products.price p * x))
    /\ orders db' = orders db ++ [o]
    /\ Orders.order_id o = OrderCreated.order_id data
    /\ Orders.total_price o = (Products.price p * x)%Q.
Proof.
  unfold createOrder.
  destruct (Js.not product_id || Js.not quantity); [discriminate|].
  destruct (Js.isNaN quantity || Js.le0 quantity) eqn:Hv; [discriminate|].
  apply orb_false_iff in Hv. destruct Hv as [Hnan _].
  destruct (select_product db product_id) as [p|]; [|discriminate].
  unfold Js.isNaN in Hnan.
  destruct (Js.ToNumber quantity) as [|x]; [discriminate|].
  unfold insert_order. simpl.
  destruct (bind_numeric product_id) as [pid|]; [|discriminate].
  destruct (bind_numeric quantity) as [qty|]; [|discriminate].
  intros H. inversion H; subst; clear H.
  eexists p, x, _. simpl. repeat split; reflexivity.
Qed.

Lemma update_order_rows (db db' : DB) (id : Z) (qty : option Sql.cell)
    (total : option Q) :
  update_order db id qty total = Sql.Ok db' ->
  forall o, In o (orders db') -> Orders.order_id o = id ->
            Some (Orders.total_price o) = total
            /\ Some (Orders.quantity o) = qty.
Proof.
  unfold update_order.
  destruct (filter (fun o => Orders.order_id o =? id) (orders db)) eqn:Hf.
  - intros H o Ho Hid. injection H as <-. exfalso.
    assert (In o (filter (fun o => Orders.order_id o =? id) (orders db))) as Hin
      by (apply filter_In; split; [assumption | now apply Z.eqb_eq]).
    rewrite Hf in Hin. exact Hin.
  - destruct qty as [q|]; [|discriminate].
    destruct total as [t|]; [|discriminate].
    intros H o Ho Hid. injection H as <-. simpl in Ho.
    apply in_map_iff in Ho. destruct Ho as (o' & Ho' & _).
    destruct (Orders.order_id o' =? id) eqn:E.
    + rewrite <- Ho'. simpl. split; reflexivity.
    + rewrite Ho' in E. apply Z.eqb_neq in E. contradiction.
Qed.

(** A successful PUT /orders/:id found the order joined with its product,
    stored the exact product of the current price and the new quantity,
    and answered with its rounding. *)
Lemma updateOrder_success (db db' : DB) (id : Z) (quantity : Js.value)
    (status : Z) (message : option string) (data : OrderUpdated.t) :
  updateOrder db id quantity = (db', Json status message data) ->
  exists o p x,
    select_order_joined db id = Some (o, p)
    /\ Js.ToNumber quantity = Js.Fin x
    /\ OrderUpdated.total_price data
       = Js.Fin (Js.toFixed2 (Products.price p * x))
    /\ forall o', In o' (orders db') -> Orders.order_id o' = id ->
                  Orders.total_price o' = (Products.price p * x)%Q.
Proof.
  unfold updateOrder.
  destruct (Js.not quantity); [discriminate|].
  destruct (Js.isNaN quantity || Js.le0 quantity) eqn:Hv; [discriminate|].
  apply orb_false_iff in Hv. destruct Hv as [Hnan _].
  destruct (select_order_joined db id) as [[o p]|]; [|discriminate].
  unfold Js.isNaN in Hnan.
  destruct (Js.ToNumber quantity) as [|x]; [discriminate|].
  simpl.
  destruct (update_order db id (bind_numeric quantity)
              (Some (Products.price p * x)%Q)) as [db''|e] eqn:Hu;
    [|discriminate].
  intros H. inversion H; subst; clear H.
  exists o, p, x. repeat split; try reflexivity.
  intros o' Ho' Hid.
  destruct (update_order_rows _ _ _ _ _ Hu o' Ho' Hid) as [Ht _].
  now inversion Ht.
Qed.
End OrderTotals.

(** C2 (as the code has it): for every successful createOrder and
    updateOrder the Order row stores the exact product of the product's
    price and the quantity, and the total_price of the success response is
    that product rounded to 2 decimal places. *)
Theorem order_response_total_rounded {rt : Js.Runtime} :
  forall db : DB,
    (forall now js_now product_id quantity db' status message data,
        createOrder db now js_now product_id quantity
        = (db', Json status message data) ->
        exists p x o,
          select_product db product_id = Some p
          /\ Js.ToNumber quantity = Js.Fin x
          /\ OrderCreated.total_price data
             = Js.Fin (Js.toFixed2 (Products.price p * x))
          /\ orders db' = orders db ++ [o]
          /\ Orders.order_id o = OrderCreated.order_id data
          /\ Orders.total_price o = (Products.price p * x)%Q)
    /\
    (forall id quantity db' status message data,
        updateOrder db id quantity = (db', Json status message data) ->
        exists o p x,
          select_order_joined db id = Some (o, p)
          /\ Js.ToNumber quantity = Js.Fin x
          /\ OrderUpdated.total_price data
             = Js.Fin (Js.toFixed2 (Products.price p * x))
          /\ forall o', In o' (orders db') -> Orders.order_id o' = id ->
                        Orders.total_price o' = (Products.price p * x)%Q).
Proof.
  intros db. split.
  - intros. eapply createOrder_success; eassumption.
  - intros. eapply updateOrder_success; eassumption.
Qed.

Lemma order_response_total_rounded_witness :
  exists p x o,
    select_product (rt := DecimalRuntime.runtime) Sample.catalog (Js.num 1)
    = Some p
    /\ Js.ToNumber (rt := DecimalRuntime.runtime) (Js.num 3) = Js.Fin x
    /\ Js.Fin 1 = Js.Fin (Js.toFixed2 (Products.price p * x))
    /\ orders Sample.ledger = orders Sample.catalog ++ [o]
    /\ Orders.order_id o = 1
    /\ Orders.total_price o = (Products.price p * x)%Q.
Proof.
  apply (proj1 (order_response_total_rounded (rt := DecimalRuntime.runtime)
                  Sample.catalog)
           101 201 (Js.num 1) (Js.num 3) Sample.ledger 201
           (Some "Order created successfully"%string)
           {| OrderCreated.order_id := 1;
              OrderCreated.product_id := Js.num 1;
              OrderCreated.product_name := "Widget";
              OrderCreated.quantity := Js.num 3;
              OrderCreated.total_price := Js.Fin 1;
              OrderCreated.order_date := 201 |}).
  reflexivity.
Defined.

(** C2 as stated fails: ordering 1 Widget priced 0.333 succeeds, and the
    total_price of the response is 0.33, not the product 0.333. *)
Lemma createOrder_response_not_full_precision :
  exists db' message data p,
    createOrder (rt := DecimalRuntime.runtime) Sample.catalog 101 201
      (Js.num 1) (Js.num 1)
    = (db', Json 201 message data)
    /\ select_product (rt := DecimalRuntime.runtime) Sample.catalog (Js.num 1)
       = Some p
    /\ OrderCreated.total_price data = Js.Fin (33 # 100)
    /\ ~ (33 # 100 == Products.price p * 1)%Q.
Proof.
  do 4 eexists. split; [reflexivity|]. split; [reflexivity|].
  split; [reflexivity|]. vm_compute. discriminate.
Qed.

(* ================================================================= *)
(** ** Looking an order up through the join *)

Lemma NoDup_map_eq {A B : Type} (f : A -> B) (l : list A) (a b : A) :
  NoDup (map f l) -> In a l -> In b l -> f a = f b -> a = b.
Proof.
  induction l as [|x l IH]; simpl; intros Hnd Ha Hb Hf; [contradiction|].
  inversion Hnd as [|? ? Hx Hl]; subst.
  destruct Ha as [<-|Ha], Hb as [<-|Hb]; auto.
  - exfalso. apply Hx. rewrite Hf. now apply in_map.
  - exfalso. apply Hx. rewrite <- Hf. now apply in_map.
Qed.

Lemma in_orders_join_products (db : DB) (o : Orders.row) (p : Products.row) :
  In (o, p) (orders_join_products db)
  <-> In o (orders db) /\ In p (products db) /\ on_product o p = true.
Proof.
  unfold orders_join_products. rewrite in_flat_map. split.
  - intros (o' & Ho' & Hin). apply in_map_iff in Hin.
    destruct Hin as (p' & Heq & Hp'). inversion Heq; subst.
    apply filter_In in Hp'. tauto.
  - intros (Ho & Hp & Hon). exists o. split; [assumption|].
    apply in_map. apply filter_In. tauto.
Qed.

Lemma on_product_same_id (o : Orders.row) (p p' : Products.row) :
  on_product o p = true -> on_product o p' = true ->
  Products.id p = Products.id p'.
Proof.
  unfold on_product. destruct (Orders.product_id o) as [q|s]; [|discriminate].
  intros H H'.
  apply Qeq_bool_iff in H. apply Qeq_bool_iff in H'.
  rewrite H in H'. unfold Qeq in H'. simpl in H'. lia.
Qed.

Lemma select_order_joined_dangling (db : DB) (o : Orders.row) :
  NoDup (map Orders.order_id (orders db)) ->
  In o (orders db) -> dangling db o ->
  select_order_joined db (Orders.order_id o) = None.
Proof.
  intros Hnd Ho Hd. unfold select_order_joined.
  destruct (filter _ (orders_join_products db)) as [|[o' p'] l] eqn:Hf;
    [reflexivity|].
  exfalso.
  assert (In (o', p') (filter (fun r => Orders.order_id (fst r) =? Orders.order_id o)
                              (orders_join_products db))) as Hin
    by (rewrite Hf; now left).
  apply filter_In in Hin. destruct Hin as [Hj Hid]. simpl in Hid.
  apply Z.eqb_eq in Hid. apply in_orders_join_products in Hj.
  destruct Hj as (Ho' & Hp' & Hon).
  assert (o' = o) by (eapply NoDup_map_eq; eauto). subst o'.
  rewrite (Hd p' Hp') in Hon. discriminate.
Qed.

Lemma select_order_joined_found (db : DB) (o : Orders.row) (p : Products.row) :
  primary_keys db ->
  In o (orders db) -> In p (products db) -> on_product o p = true ->
  select_order_joined db (Orders.order_id o) = Some (o, p).
Proof.
  intros [Hpk Hok] Ho Hp Hon. unfold select_order_joined.
  destruct (filter _ (orders_join_products db)) as [|[o' p'] l] eqn:Hf.
  - exfalso.
    assert (In (o, p) (filter (fun r => Orders.order_id (fst r) =? Orders.order_id o)
                              (orders_join_products db))) as Hin.
    { apply filter_In. split.
      - apply in_orders_join_products. tauto.
      - simpl. apply Z.eqb_refl. }
    rewrite Hf in Hin. exact Hin.
  - simpl.
    assert (In (o', p') (filter (fun r => Orders.order_id (fst r) =? Orders.order_id o)
                                (orders_join_products db))) as Hin
      by (rewrite Hf; now left).
    apply filter_In in Hin. destruct Hin as [Hj Hid]. simpl in Hid.
    apply Z.eqb_eq in Hid. apply in_orders_join_products in Hj.
    destruct Hj as (Ho' & Hp' & Hon').
    assert (o' = o) by (eapply NoDup_map_eq; eauto). subst o'.
    assert (p' = p).
    { eapply NoDup_map_eq; eauto. eapply on_product_same_id; eauto. }
    now subst p'.
Qed.

(** C10: when an Order row exists and no Product row has its product_id,
    getOrder answers 404 "Order not found", and so does updateOrder for every
    quantity that passes validation; the store that updateOrder returns is
    the one it was given, which still holds the order. *)
Theorem dangling_order_not_found {rt : Js.Runtime} :
  forall (db : DB) (o : Orders.row),
    NoDup (map Orders.order_id (orders db)) ->
    In o (orders db) ->
    dangling db o ->
    getOrder db (Orders.order_id o) = (db, Rejected 404 "Order not found")
    /\ (forall quantity,
           Js.not quantity = false ->
           Js.isNaN quantity || Js.le0 quantity = false ->
           updateOrder db (Orders.order_id o) quantity
           = (db, Rejected 404 "Order not found")
           /\ In o (orders (fst (updateOrder db (Orders.order_id o) quantity)))).
Proof.
  intros db o Hnd Ho Hd.
  pose proof (select_order_joined_dangling db o Hnd Ho Hd) as Hsel.
  split.
  - unfold getOrder. now rewrite Hsel.
  - intros quantity Hreq Hval.
    assert (updateOrder db (Orders.order_id o) quantity
            = (db, Rejected 404 "Order not found")) as Hup.
    { unfold updateOrder. now rewrite Hreq, Hval, Hsel. }
    split; [exact Hup|]. now rewrite Hup.
Qed.

Lemma dangling_order_not_found_witness :
  let o := {| Orders.order_id := 1; Orders.product_id := Sql.Num 1;
              Orders.quantity := Sql.Num 3;
              Orders.total_price := (999 # 1000)%Q;
              Orders.order_date := 101 |} in
  getOrder Sample.dangling 1 = (Sample.dangling, Rejected 404 "Order not found")
  /\ (forall quantity,
         Js.not quantity = false ->
         Js.isNaN (rt := DecimalRuntime.runtime) quantity
         || Js.le0 (rt := DecimalRuntime.runtime) quantity = false ->
         updateOrder (rt := DecimalRuntime.runtime) Sample.dangling 1 quantity
         = (Sample.dangling, Rejected 404 "Order not found")
         /\ In o (orders (fst (updateOrder (rt := DecimalRuntime.runtime)
                                 Sample.dangling 1 quantity)))).
Proof.
  intros o.
  apply (dangling_order_not_found (rt := DecimalRuntime.runtime)
           Sample.dangling o).
  - repeat constructor. simpl. tauto.
  - left. reflexivity.
  - intros p Hp. destruct Hp.
Defined.

(* ================================================================= *)
(** ** Updating an order *)

Lemma update_order_hit (db : DB) (o : Orders.row) (qty : Sql.cell) (total : Q) :
  In o (orders db) ->
  update_order db (Orders.order_id o) (Some qty) (Some total)
  = Sql.Ok {| products := products db;
            orders :=
              map (fun r => if Orders.order_id r =? Orders.order_id o
                            then {| Orders.order_id := Orders.order_id r;
                                    Orders.product_id := Orders.product_id r;
                                    Orders.quantity := qty;
                                    Orders.total_price := total;
                                    Orders.order_date := Orders.order_date r |}
                            else r) (orders db);
            products_seq := products_seq db;
            orders_seq := orders_seq db |}.
Proof.
  intros Ho. unfold update_order.
  destruct (filter _ (orders db)) eqn:Hf; [|reflexivity].
  exfalso.
  assert (In o (filter (fun r => Orders.order_id r =? Orders.order_id o)
                       (orders db))) as Hin
    by (apply filter_In; split; [assumption | apply Z.eqb_refl]).
  rewrite Hf in Hin. exact Hin.
Qed.

Lemma requantify_unique (l : list Orders.row) (o : Orders.row)
    (qty : Sql.cell) (total : Q) :
  NoDup (map Orders.order_id l) -> In o l ->
  map (fun r => if Orders.order_id r =? Orders.order_id o
                then {| Orders.order_id := Orders.order_id r;
                        Orders.product_id := Orders.product_id r;
                        Orders.quantity := qty;
                        Orders.total_price := total;
                        Orders.order_date := Orders.order_date r |}
                else r) l
  = map (fun r => if Orders.order_id r =? Orders.order_id o
                  then {| Orders.order_id := Orders.order_id o;
                          Orders.product_id := Orders.product_id o;
                          Orders.quantity := qty;
                          Orders.total_price := total;
                          Orders.order_date := Orders.order_date o |}
                  else r) l.
Proof.
  intros Hnd Ho. apply map_ext_in. intros r Hr.
  destruct (Orders.order_id r =? Orders.order_id o) eqn:E; [|reflexivity].
  apply Z.eqb_eq in E.
  now rewrite (NoDup_map_eq Orders.order_id l r o Hnd Hr Ho E).
Qed.

Lemma requantify_order_ids (l : list Orders.row) (id : Z) (o' : Orders.row) :
  Orders.order_id o' = id ->
  map Orders.order_id
      (map (fun r => if Orders.order_id r =? id then o' else r) l)
  = map Orders.order_id l.
Proof.
  intros Hid. rewrite map_map. apply map_ext. intros r.
  destruct (Orders.order_id r =? id) eqn:E; [|reflexivity].
  apply Z.eqb_eq in E. congruence.
Qed.

(** C1 (as the code has it): for an existing order whose product is still
    in the catalog and a quantity q2 > 0, updateOrder answers 200 with the
    order's id and product_id, parseInt of q2 (the integer prefix of its
    rendering) and the new total rounded to two decimals;
    it stores quantity = q2 and total_price = (the product's current
    price) * q2 on that order, keeps its order_id, product_id and
    order_date and every other row, and a following getOrder answers 200
    with exactly these stored values, the product's name and its price. *)
Theorem updateOrder_then_getOrder {rt : Js.Runtime} :
  forall (db : DB) (o : Orders.row) (p : Products.row) (q2 : Q),
    primary_keys db ->
    In o (orders db) ->
    In p (products db) ->
    on_product o p = true ->
    (0 < q2)%Q ->
    exists db',
      updateOrder db (Orders.order_id o) (Js.num q2)
      = (db', Json 200 (Some "Order updated successfully"%string)
                {| OrderUpdated.order_id := Orders.order_id o;
                   OrderUpdated.product_id := Orders.product_id o;
                   OrderUpdated.quantity :=
                     Js.parseIntString (Js.NumberToString q2);
                   OrderUpdated.total_price :=
                     Js.Fin (Js.toFixed2 (Products.price p * q2)) |})
      /\ products db' = products db
      /\ orders db'
         = map (fun r => if Orders.order_id r =? Orders.order_id o
                         then {| Orders.order_id := Orders.order_id o;
                                 Orders.product_id := Orders.product_id o;
                                 Orders.quantity := Sql.Num q2;
                                 Orders.total_price := Products.price p * q2;
                                 Orders.order_date := Orders.order_date o |}
                         else r) (orders db)
      /\ In {| Orders.order_id := Orders.order_id o;
               Orders.product_id := Orders.product_id o;
               Orders.quantity := Sql.Num q2;
               Orders.total_price := Products.price p * q2;
               Orders.order_date := Orders.order_date o |} (orders db')
      /\ getOrder db' (Orders.order_id o)
         = (db', Json 200 None
                   {| OrderDetail.order_id := Orders.order_id o;
                      OrderDetail.product_id := Orders.product_id o;
                      OrderDetail.product_name := Products.name p;
                      OrderDetail.unit_price := Products.price p;
                      OrderDetail.quantity := Sql.Num q2;
                      OrderDetail.total_price := Products.price p * q2;
                      OrderDetail.order_date := Orders.order_date o |}).
Proof.
  intros db o p q2 Hpk Ho Hp Hon Hq.
  pose proof (select_order_joined_found db o p Hpk Ho Hp Hon) as Hsel.
  destruct Hpk as [Hpk Hok].
  unfold updateOrder.
  rewrite (not_positive q2 Hq), isNaN_num, (le0_positive q2 Hq), Hsel.
  simpl. rewrite (update_order_hit db o _ _ Ho).
  rewrite (requantify_unique _ o _ _ Hok Ho).
  set (o' := {| Orders.order_id := Orders.order_id o;
                Orders.product_id := Orders.product_id o;
                Orders.quantity := Sql.Num q2;
                Orders.total_price := Products.price p * q2;
                Orders.order_date := Orders.order_date o |}).
  eexists. split; [reflexivity|]. simpl.
  assert (In o' (map (fun r => if Orders.order_id r =? Orders.order_id o
                               then o' else r) (orders db))) as Hin.
  { apply in_map_iff. exists o. now rewrite Z.eqb_refl. }
  split; [reflexivity|]. split; [reflexivity|]. split; [assumption|].
  unfold getOrder.
  change (Orders.order_id o) with (Orders.order_id o') at 2.
  rewrite (select_order_joined_found _ o' p); try assumption; try reflexivity.
  split; simpl; [assumption|].
  now rewrite requantify_order_ids.
Qed.

Lemma updateOrder_then_getOrder_witness :
  exists db',
    updateOrder (rt := DecimalRuntime.runtime) Sample.ledger 1 (Js.num 5)
    = (db', Json 200 (Some "Order updated successfully"%string)
              {| OrderUpdated.order_id := 1;
                 OrderUpdated.product_id := Sql.Num 1;
                 OrderUpdated.quantity :=
                   DecimalRuntime.parse_int (DecimalRuntime.to_string 5);
                 OrderUpdated.total_price :=
                   Js.Fin (Js.toFixed2 ((333 # 1000) * 5)) |})
    /\ products db' = products Sample.ledger
    /\ orders db'
       = map (fun r => if Orders.order_id r =? 1
                       then {| Orders.order_id := 1;
                               Orders.product_id := Sql.Num 1;
                               Orders.quantity := Sql.Num 5;
                               Orders.total_price := (333 # 1000) * 5;
                               Orders.order_date := 101 |}
                       else r) (orders Sample.ledger)
    /\ In {| Orders.order_id := 1;
             Orders.product_id := Sql.Num 1;
             Orders.quantity := Sql.Num 5;
             Orders.total_price := (333 # 1000) * 5;
             Orders.order_date := 101 |} (orders db')
    /\ getOrder db' 1
       = (db', Json 200 None
                 {| OrderDetail.order_id := 1;
                    OrderDetail.product_id := Sql.Num 1;
                    OrderDetail.product_name := "Widget";
                    OrderDetail.unit_price := (333 # 1000);
                    OrderDetail.quantity := Sql.Num 5;
                    OrderDetail.total_price := (333 # 1000) * 5;
                    OrderDetail.order_date := 101 |}).
Proof.
  apply (updateOrder_then_getOrder (rt := DecimalRuntime.runtime)
           Sample.ledger
           {| Orders.order_id := 1; Orders.product_id := Sql.Num 1;
              Orders.quantity := Sql.Num 3;
              Orders.total_price := (999 # 1000)%Q;
              Orders.order_date := 101 |}
           {| Products.id := 1; Products.name := "Widget";
              Products.price := (333 # 1000)%Q; Products.created_at := 100 |}
           5).
  - split; repeat constructor; simpl; tauto.
  - left. reflexivity.
  - left. reflexivity.
  - reflexivity.
  - reflexivity.
Defined.

(** C1, the case the claim leaves out: order 1 exists and 5 is a valid
    quantity, but its product has been deleted; updateOrder answers 404 and
    the order keeps its quantity 3. *)
Lemma updateOrder_dangling_order_not_updated :
  In {| Orders.order_id := 1; Orders.product_id := Sql.Num 1;
        Orders.quantity := Sql.Num 3;
        Orders.total_price := (999 # 1000)%Q;
        Orders.order_date := 101 |} (orders Sample.dangling)
  /\ updateOrder (rt := DecimalRuntime.runtime) Sample.dangling 1 (Js.num 5)
     = (Sample.dangling, Rejected 404 "Order not found").
Proof.
  split; [left|]; reflexivity.
Qed.

(* ================================================================= *)
(** ** Updating a product *)

Lemma Forall2_map_pointwise {A : Type} (R : A -> A -> Prop) (f : A -> A)
    (l : list A) :
  (forall x, In x l -> R x (f x)) -> Forall2 R l (map f l).
Proof.
  induction l as [|x l IH]; simpl; intros H; constructor.
  - apply H. now left.
  - apply IH. intros y Hy. apply H. now right.
Qed.

Lemma update_product_hit (db : DB) (id : Z) (n : string) (price : Q)
    (p : Products.row) :
  In p (products db) -> Products.id p = id ->
  exists changes,
    update_product db id (Some n) (Some price)
    = Sql.Ok ({| products :=
                 map (fun r =>
                        if Products.id r =? id then
                          {| Products.id := Products.id r;
                             Products.name := n;
                             Products.price := price;
                             Products.created_at := Products.created_at r |}
                        else r) (products db);
               orders := orders db;
               products_seq := products_seq db;
               orders_seq := orders_seq db |}, S changes).
Proof.
  intros Hp Hid. unfold update_product.
  destruct (filter _ (products db)) as [|r hit] eqn:Hf.
  - exfalso.
    assert (In p (filter (fun r => Products.id r =? id) (products db))) as Hin
      by (apply filter_In; split; [assumption | now apply Z.eqb_eq]).
    rewrite Hf in Hin. exact Hin.
  - exists (List.length hit). reflexivity.
Qed.

(** C8: for an existing Product and an input that passes validation,
    updateProduct succeeds and changes only the name and the price of the
    rows with that id: every row keeps its id and created_at, rows with
    another id are untouched, and so are the Orders. *)
Theorem updateProduct_changes_name_and_price_only {rt : Js.Runtime} :
  forall (db : DB) (id : Z) (name price : Js.value) (p : Products.row)
         (s : string) (q : Q),
    In p (products db) ->
    Products.id p = id ->
    Js.not name || Js.not price = false ->
    Js.isNaN price || Js.le0 price = false ->
    bind_text name = Some s ->
    Js.parseFloat price = Js.Fin q ->
    exists db',
      updateProduct db id name price
      = (db', Json 200 (Some "Product updated successfully"%string)
                {| ProductData.id := id;
                   ProductData.name := name;
                   ProductData.price := Js.Fin q |})
      /\ orders db' = orders db
      /\ Forall2 (fun old new =>
                    Products.id new = Products.id old
                    /\ Products.created_at new = Products.created_at old
                    /\ (Products.id old <> id -> new = old)
                    /\ (Products.id old = id ->
                        Products.name new = s /\ Products.price new = q))
                 (products db) (products db').
Proof.
  intros db id name price p s q Hp Hid Hreq Hval Hname Hprice.
  unfold updateProduct. rewrite Hreq, Hval, Hname, Hprice. simpl.
  destruct (update_product_hit db id s q p Hp Hid) as [changes ->].
  eexists. split; [reflexivity|]. split; [reflexivity|]. simpl.
  apply Forall2_map_pointwise. intros r _.
  destruct (Products.id r =? id) eqn:E.
  - apply Z.eqb_eq in E. simpl. repeat split; try reflexivity.
    intros Hne. contradiction.
  - apply Z.eqb_neq in E. repeat split; try reflexivity; contradiction.
Qed.

Lemma updateProduct_changes_name_and_price_only_witness :
  exists db',
    updateProduct (rt := DecimalRuntime.runtime) Sample.two_products 1
      (Js.str "Widget v2") (Js.str "12.50")
    = (db', Json 200 (Some "Product updated successfully"%string)
              {| ProductData.id := 1;
                 ProductData.name := Js.str "Widget v2";
                 ProductData.price := Js.Fin (25 # 2) |})
    /\ orders db' = orders Sample.two_products
    /\ Forall2 (fun old new =>
                  Products.id new = Products.id old
                  /\ Products.created_at new = Products.created_at old
                  /\ (Products.id old <> 1 -> new = old)
                  /\ (Products.id old = 1 ->
                      Products.name new = "Widget v2"%string
                      /\ Products.price new = (25 # 2)%Q))
               (products Sample.two_products) (products db').
Proof.
  apply (updateProduct_changes_name_and_price_only
           (rt := DecimalRuntime.runtime) Sample.two_products 1
           (Js.str "Widget v2") (Js.str "12.50")
           {| Products.id := 1; Products.name := "Widget";
              Products.price := (333 # 1000)%Q; Products.created_at := 100 |}
           "Widget v2" (25 # 2)).
  - left. reflexivity.
  - reflexivity.
  - reflexivity.
  - reflexivity.
  - reflexivity.
  - reflexivity.
Defined.

(* ================================================================= *)
(** ** ORDER BY returns the same rows, in descending order *)

Section OrderByFacts.
Context {A : Type} (geb : A -> A -> bool).

Lemma insert_desc_perm (x : A) (l : list A) :
  Permutation (x :: l) (insert_desc geb x l).
Proof.
  induction l as [|y l IH]; simpl; [reflexivity|].
  destruct (geb x y); [reflexivity|].
  rewrite perm_swap. now constructor.
Qed.

Lemma order_by_desc_perm (l : list A) :
  Permutation l (order_by_desc geb l).
Proof.
  induction l as [|x l IH]; simpl; [constructor|].
  rewrite <- insert_desc_perm. now constructor.
Qed.

Hypothesis geb_total : forall x y, geb x y = true \/ geb y x = true.
Hypothesis geb_trans :
  forall x y z, geb x y = true -> geb y z = true -> geb x z = true.

Lemma insert_desc_sorted (x : A) (l : list A) :
  StronglySorted (fun a b => geb a b = true) l ->
  StronglySorted (fun a b => geb a b = true) (insert_desc geb x l).
Proof.
  induction 1 as [|y l Hl IH Hy]; simpl.
  - repeat constructor.
  - destruct (geb x y) eqn:E.
    + constructor; [now constructor|].
      constructor; [exact E|].
      eapply Forall_impl; [|exact Hy].
      intros z Hz. eapply geb_trans; eassumption.
    + constructor; [exact IH|].
      eapply Permutation_Forall; [apply insert_desc_perm|].
      constructor; [|exact Hy].
      destruct (geb_total x y) as [H|H]; [congruence|exact H].
Qed.

Lemma order_by_desc_sorted (l : list A) :
  StronglySorted (fun a b => geb a b = true) (order_by_desc geb l).
Proof.
  induction l as [|x l IH]; simpl; [constructor|].
  now apply insert_desc_sorted.
Qed.
End OrderByFacts.

Lemma StronglySorted_map {A B : Type} (R : B -> B -> Prop) (f : A -> B)
    (l : list A) :
  StronglySorted (fun x y => R (f x) (f y)) l -> StronglySorted R (map f l).
Proof.
  induction 1 as [|x l Hl IH Hx]; simpl; constructor; [assumption|].
  apply Forall_map. exact Hx.
Qed.

Lemma StronglySorted_unmap {A B : Type} (R : B -> B -> Prop) (f : A -> B)
    (R' : A -> A -> Prop) (l : list A) :
  (forall a b, R (f a) (f b) -> R' a b) ->
  StronglySorted R (map f l) -> StronglySorted R' l.
Proof.
  intros HR. induction l as [|x l IH]; simpl; intros H; [constructor|].
  inversion H as [|? ? Hl Hx]; subst. constructor; [now apply IH|].
  rewrite Forall_map in Hx. revert Hx. apply Forall_impl. intros a. apply HR.
Qed.

Lemma StronglySorted_weaken {A : Type} (R R' : A -> A -> Prop) (l : list A) :
  (forall x y, R x y -> R' x y) -> StronglySorted R l -> StronglySorted R' l.
Proof.
  intros HR. induction 1 as [|x l Hl IH Hx]; constructor; [assumption|].
  eapply Forall_impl; [|exact Hx]. intros y. apply HR.
Qed.

Lemma StronglySorted_firstn {A : Type} (R : A -> A -> Prop) (n : nat)
    (l : list A) :
  StronglySorted R l -> StronglySorted R (firstn n l).
Proof.
  intros H. revert n.
  induction H as [|x l Hl IH Hx]; intros [|n]; simpl; try constructor.
  - apply IH.
  - rewrite Forall_forall in *. intros y Hy. apply Hx.
    rewrite <- (firstn_skipn n l). apply in_or_app. now left.
Qed.

Lemma filter_none {A : Type} (f : A -> bool) (l : list A) :
  (forall x, In x l -> f x = false) -> filter f l = [].
Proof.
  induction l as [|x l IH]; simpl; intros H; [reflexivity|].
  rewrite (H x) by now left. apply IH. intros y Hy. apply H. now right.
Qed.

Lemma filter_all {A : Type} (f : A -> bool) (l : list A) :
  (forall x, In x l -> f x = true) -> filter f l = l.
Proof.
  induction l as [|x l IH]; simpl; intros H; [reflexivity|].
  rewrite (H x) by now left. f_equal. apply IH. intros y Hy. apply H. now right.
Qed.

Lemma filter_idem {A : Type} (f : A -> bool) (l : list A) :
  filter f (filter f l) = filter f l.
Proof.
  apply filter_all. intros x Hx. now apply filter_In in Hx.
Qed.

(* ================================================================= *)
(** ** Listing the orders *)

Lemma joined_geb_total (r1 r2 : Orders.row * Products.row) :
  joined_geb r1 r2 = true \/ joined_geb r2 r1 = true.
Proof. unfold joined_geb. rewrite !Z.leb_le. lia. Qed.

Lemma joined_geb_trans (r1 r2 r3 : Orders.row * Products.row) :
  joined_geb r1 r2 = true -> joined_geb r2 r3 = true -> joined_geb r1 r3 = true.
Proof. unfold joined_geb. rewrite !Z.leb_le. lia. Qed.

(** With unique product ids an order joins at most one product. *)
Lemma filter_on_product_unique (o : Orders.row) (ps : list Products.row) :
  NoDup (map Products.id ps) ->
  List.length (filter (on_product o) ps)
  = if existsb (on_product o) ps then 1%nat else 0%nat.
Proof.
  induction ps as [|p ps IH]; simpl; intros Hnd; [reflexivity|].
  inversion Hnd as [|? ? Hp Hps]; subst.
  destruct (on_product o p) eqn:E; simpl.
  - rewrite filter_none; [reflexivity|].
    intros p' Hp'. destruct (on_product o p') eqn:E'; [|reflexivity].
    exfalso. apply Hp. rewrite (on_product_same_id o p p' E E').
    now apply in_map.
  - now apply IH.
Qed.

Lemma joined_order_ids (db : DB) :
  NoDup (map Products.id (products db)) ->
  map (fun r => Orders.order_id (fst r)) (orders_join_products db)
  = map Orders.order_id (filter (has_product db) (orders db)).
Proof.
  intros Hnd. unfold orders_join_products, has_product.
  induction (orders db) as [|o os IH]; simpl; [reflexivity|].
  rewrite map_app, IH.
  pose proof (filter_on_product_unique o (products db) Hnd) as Hlen.
  destruct (existsb (on_product o) (products db)).
  - destruct (filter (on_product o) (products db)) as [|p [|p' l]];
      try discriminate. reflexivity.
  - destruct (filter (on_product o) (products db)); [reflexivity|discriminate].
Qed.

(** C9: listOrders answers 200 with exactly the rows of the inner join of
    Orders with Products: a row is listed if and only if it carries the
    order_id, product_id, quantity, total_price and order_date of an Order
    of the ledger together with the current name of the Product of the
    catalog that the Order references; the orders listed are those whose
    Product exists, in descending order of order_id, and an Order whose
    Product is gone is not listed. *)
Theorem listOrders_inner_join :
  forall db : DB,
    primary_keys db ->
    exists l,
      listOrders db = (db, Json 200 None {| rows := l; count := List.length l |})
      /\ (forall r, In r l <->
                    exists o p, In o (orders db) /\ In p (products db)
                                /\ on_product o p = true
                                /\ r = {| OrderListed.order_id := Orders.order_id o;
                                          OrderListed.product_id := Orders.product_id o;
                                          OrderListed.product_name := Products.name p;
                                          OrderListed.quantity := Orders.quantity o;
                                          OrderListed.total_price := Orders.total_price o;
                                          OrderListed.order_date := Orders.order_date o |})
      /\ Permutation (map OrderListed.order_id l)
                     (map Orders.order_id (filter (has_product db) (orders db)))
      /\ StronglySorted (fun i j => j <= i) (map OrderListed.order_id l)
      /\ (forall o, In o (orders db) -> dangling db o ->
                    ~ In (Orders.order_id o) (map OrderListed.order_id l)).
Proof.
  intros db [Hpk Hok].
  pose proof (order_by_desc_perm joined_geb (orders_join_products db)) as Hperm.
  assert (forall r, In r (map listed (order_by_desc joined_geb (orders_join_products db)))
                    <-> exists o p, In o (orders db) /\ In p (products db)
                                    /\ on_product o p = true /\ r = listed (o, p))
    as Hmem.
  { intros r. rewrite in_map_iff. split.
    - intros ([o p] & <- & Hin).
      apply (Permutation_in _ (Permutation_sym Hperm)) in Hin.
      apply in_orders_join_products in Hin. exists o, p. tauto.
    - intros (o & p & Ho & Hp & Hon & ->). exists (o, p). split; [reflexivity|].
      apply (Permutation_in _ Hperm). apply in_orders_join_products. tauto. }
  assert (map OrderListed.order_id
              (map listed (order_by_desc joined_geb (orders_join_products db)))
          = map (fun r => Orders.order_id (fst r))
                (order_by_desc joined_geb (orders_join_products db))) as Hids.
  { rewrite map_map. apply map_ext. now intros [o p]. }
  eexists. split; [reflexivity|]. split; [exact Hmem|]. rewrite Hids.
  split; [|split].
  - rewrite <- (joined_order_ids db Hpk).
    apply Permutation_map. now apply Permutation_sym.
  - apply StronglySorted_map.
    eapply StronglySorted_weaken;
      [|apply (order_by_desc_sorted joined_geb joined_geb_total joined_geb_trans)].
    intros r1 r2 H. now apply Z.leb_le in H.
  - intros o Ho Hd Hin. rewrite <- Hids in Hin.
    apply in_map_iff in Hin. destruct Hin as (r & Hid & Hr).
    apply Hmem in Hr. destruct Hr as (o' & p' & Ho' & Hp' & Hon & ->).
    simpl in Hid.
    assert (o' = o) by (eapply NoDup_map_eq; eauto). subst o'.
    rewrite (Hd p' Hp') in Hon. discriminate.
Qed.

(** The instance on the store with two orders, one of a Widget and one of a
    Gadget that has since been deleted: the listing is not empty and leaves
    the second order out. *)
Lemma listOrders_inner_join_witness :
  exists l,
    listOrders Sample.mixed
    = (Sample.mixed, Json 200 None {| rows := l; count := List.length l |})
    /\ (forall r, In r l <->
                  exists o p, In o (orders Sample.mixed)
                              /\ In p (products Sample.mixed)
                              /\ on_product o p = true
                              /\ r = {| OrderListed.order_id := Orders.order_id o;
                                        OrderListed.product_id := Orders.product_id o;
                                        OrderListed.product_name := Products.name p;
                                        OrderListed.quantity := Orders.quantity o;
                                        OrderListed.total_price := Orders.total_price o;
                                        OrderListed.order_date := Orders.order_date o |})
    /\ Permutation (map OrderListed.order_id l)
                   (map Orders.order_id
                        (filter (has_product Sample.mixed)
                                (orders Sample.mixed)))
    /\ StronglySorted (fun i j => j <= i) (map OrderListed.order_id l)
    /\ (forall o, In o (orders Sample.mixed) -> dangling Sample.mixed o ->
                  ~ In (Orders.order_id o) (map OrderListed.order_id l)).
Proof.
  apply (listOrders_inner_join Sample.mixed).
  split; vm_compute; repeat constructor; simpl; intuition lia.
Defined.

(** The listing of that store: the Widget order with the Widget's name, and
    nothing for order 2. *)
Example listOrders_mixed :
  map Orders.order_id (orders Sample.mixed) = [1; 2]
  /\ listOrders Sample.mixed
     = (Sample.mixed,
        Json 200 None
          {| rows := [ {| OrderListed.order_id := 1;
                          OrderListed.product_id := Sql.Num 1;
                          OrderListed.product_name := "Widget";
                          OrderListed.quantity := Sql.Num 3;
                          OrderListed.total_price := (999 # 1000)%Q;
                          OrderListed.order_date := 101 |} ];
             count := 1 |}).
Proof. split; reflexivity. Qed.

(* ================================================================= *)
(** ** LEFT JOIN and GROUP BY under the primary key *)

Lemma same_group_refl (p : Products.row) : same_group p p = true.
Proof.
  unfold same_group. rewrite Z.eqb_refl, String.eqb_refl. simpl.
  apply Qeq_bool_iff. reflexivity.
Qed.

Lemma same_group_id (p p' : Products.row) :
  same_group p p' = true -> Products.id p = Products.id p'.
Proof.
  unfold same_group. intros H.
  apply andb_true_iff in H. destruct H as [H _].
  apply andb_true_iff in H. destruct H as [H _].
  now apply Z.eqb_eq.
Qed.

Lemma other_group (p p' : Products.row) :
  Products.id p <> Products.id p' -> same_group p p' = false.
Proof.
  intros H. destruct (same_group p p') eqn:E; [|reflexivity].
  now apply same_group_id in E.
Qed.

Section GroupBy.
(** The rows of each product; never empty, as in a LEFT JOIN. *)
Variable rows_of : Products.row -> list (option Orders.row).
Hypothesis rows_of_inhabited : forall p, rows_of p <> [].

Lemma joined_fst (ps : list Products.row) (r : Products.row * option Orders.row) :
  In r (join_rows rows_of ps) -> In (fst r) ps.
Proof.
  unfold join_rows. rewrite in_flat_map. intros (p & Hp & Hr).
  apply in_map_iff in Hr. destruct Hr as (o & <- & _). exact Hp.
Qed.

Lemma group_keys_block (p : Products.row) (os : list (option Orders.row))
    (l : list Products.row) :
  os <> [] ->
  group_keys (map fst (map (pair p) os) ++ l)
  = p :: filter (fun p' => negb (same_group p p')) (group_keys l).
Proof.
  induction os as [|o os IH]; intros Hne; [contradiction|]. simpl.
  destruct os as [|o' os]; [reflexivity|].
  rewrite IH by discriminate. simpl.
  rewrite same_group_refl. simpl. f_equal. apply filter_idem.
Qed.

Lemma group_keys_joined (ps : list Products.row) :
  NoDup (map Products.id ps) ->
  group_keys (map fst (join_rows rows_of ps)) = ps.
Proof.
  induction ps as [|p ps IH]; simpl; intros Hnd; [reflexivity|].
  inversion Hnd as [|? ? Hp Hps]; subst.
  unfold join_rows. simpl. rewrite map_app.
  rewrite group_keys_block by apply rows_of_inhabited.
  fold (join_rows rows_of ps). rewrite IH by assumption. f_equal.
  apply filter_all. intros p' Hp'. apply negb_true_iff, other_group.
  intros Heq. apply Hp. rewrite Heq. now apply in_map.
Qed.

Lemma group_members (ps : list Products.row) (k : Products.row) :
  NoDup (map Products.id ps) -> In k ps ->
  map snd (filter (fun r => same_group k (fst r)) (join_rows rows_of ps)) = rows_of k.
Proof.
  induction ps as [|p ps IH]; simpl; intros Hnd Hk; [contradiction|].
  inversion Hnd as [|? ? Hp Hps]; subst.
  unfold join_rows. simpl. rewrite filter_app, map_app. fold (join_rows rows_of ps).
  destruct Hk as [->|Hk].
  - rewrite filter_all.
    + rewrite (filter_none _ (join_rows rows_of ps)).
      * simpl. rewrite app_nil_r, map_map. simpl. apply map_id.
      * intros r Hr. apply other_group. intros Heq. apply Hp.
        rewrite Heq. apply in_map. now apply joined_fst.
    + intros r Hr. apply in_map_iff in Hr. destruct Hr as (o & <- & _).
      apply same_group_refl.
  - rewrite filter_none.
    + simpl. now apply IH.
    + intros r Hr. apply in_map_iff in Hr. destruct Hr as (o & <- & _).
      simpl. apply other_group. intros Heq. apply Hp.
      rewrite <- Heq. now apply in_map.
Qed.

Lemma group_by_joined (ps : list Products.row) :
  NoDup (map Products.id ps) ->
  group_by_product (join_rows rows_of ps) = map (fun p => (p, rows_of p)) ps.
Proof.
  intros Hnd. unfold group_by_product.
  rewrite group_keys_joined by assumption.
  apply map_ext_in. intros k Hk. f_equal. now apply group_members.
Qed.
End GroupBy.

Lemma left_rows_inhabited (db : DB) (p : Products.row) : left_rows db p <> [].
Proof.
  unfold left_rows. destruct (orders_of db p); discriminate.
Qed.

Lemma products_left_join_orders_rows (db : DB) :
  products_left_join_orders db = join_rows (left_rows db) (products db).
Proof.
  unfold products_left_join_orders, join_rows. apply flat_map_ext. intros p.
  unfold left_rows, orders_of.
  destruct (filter (fun o => on_product o p) (orders db)); [reflexivity|].
  now rewrite map_map.
Qed.

(** With unique product ids the join groups into one group per product,
    holding that product's rows. *)
Lemma groups_of_products (db : DB) :
  NoDup (map Products.id (products db)) ->
  group_by_product (products_left_join_orders db)
  = map (fun p => (p, left_rows db p)) (products db).
Proof.
  intros Hnd. rewrite products_left_join_orders_rows.
  apply group_by_joined; [apply left_rows_inhabited | assumption].
Qed.

(* ================================================================= *)
(** ** Aggregates *)

Lemma sql_sum_real_values (xs : list Q) :
  (coalesce0 (sql_sum_real (map Some xs)) == total xs)%Q.
Proof.
  unfold total.
  induction xs as [|x xs IH]; simpl; [reflexivity|].
  destruct (sql_sum_real (map Some xs)) as [s|]; simpl in *.
  - now rewrite IH.
  - rewrite <- IH. now rewrite Qplus_0_r.
Qed.

Lemma sql_sum_real_null (l : list (option Q)) :
  sql_sum_real l = None <-> Forall (fun x => x = None) l.
Proof.
  induction l as [|[x|] l IH]; simpl.
  - split; [constructor | reflexivity].
  - split.
    + destruct (sql_sum_real l); discriminate.
    + intros H. inversion H; discriminate.
  - rewrite IH. split.
    + now constructor.
    + intros H. now inversion H.
Qed.

Lemma max_int64_value : Sql.max_int64 = 9223372036854775807.
Proof. reflexivity. Qed.

Lemma min_int64_value : Sql.min_int64 = - 9223372036854775808.
Proof. reflexivity. Qed.

Lemma magnitude_nonneg (c : Sql.cell) : 0 <= magnitude c.
Proof.
  destruct c as [q|s]; simpl; [|lia].
  destruct (Sql.as_int64 q); lia.
Qed.

Lemma magnitudes_nonneg (cs : list Sql.cell) :
  0 <= fold_right Z.add 0 (map magnitude cs).
Proof.
  induction cs as [|c cs IH]; simpl; [lia|].
  pose proof (magnitude_nonneg c). lia.
Qed.

Lemma as_int64_value (q : Q) (z : Z) :
  Sql.as_int64 q = Some z -> (q == inject_Z z)%Q.
Proof.
  unfold Sql.as_int64.
  destruct (Qeq_bool q (inject_Z (Qfloor q))) eqn:E; simpl; [|discriminate].
  destruct (Sql.in_int64 (Qfloor q)); [|discriminate].
  intros H. injection H as <-. now apply Qeq_bool_iff.
Qed.

Section SumFacts.
Context {rt : Js.Runtime}.

Lemma sum_add_overflowed (cs : list Sql.cell) :
  fold_left Sql.sum_add cs Sql.Overflowed = Sql.Overflowed.
Proof. induction cs as [|c cs IH]; simpl; [reflexivity | exact IH]. Qed.

Lemma sum_add_approx (cs : list Sql.cell) (r0 : Q) :
  exists r, fold_left Sql.sum_add cs (Sql.Approx r0) = Sql.Approx r
            /\ (r == r0 + total (map Sql.value cs))%Q.
Proof.
  revert r0. induction cs as [|c cs IH]; simpl; intros r0.
  - exists r0. split; [reflexivity|]. unfold total. simpl. ring.
  - destruct (IH (r0 + Sql.value c)%Q) as (r & -> & Hr).
    exists r. split; [reflexivity|]. rewrite Hr. unfold total. simpl. ring.
Qed.

(** The state SUM ends in, when it started from an exact sum. *)
Lemma sum_add_exact (cs : list Sql.cell) (i : Z) :
  match fold_left Sql.sum_add cs (Sql.Exact i) with
  | Sql.Exact j => (inject_Z j == inject_Z i + total (map Sql.value cs))%Q
  | Sql.Approx r => (r == inject_Z i + total (map Sql.value cs))%Q
  | Sql.Overflowed => True
  end.
Proof.
  revert i. induction cs as [|c cs IH]; intros i.
  - simpl. unfold total. simpl. ring.
  - change (fold_left Sql.sum_add (c :: cs) (Sql.Exact i))
      with (fold_left Sql.sum_add cs (Sql.sum_add (Sql.Exact i) c)).
    change (total (map Sql.value (c :: cs)))
      with (Sql.value c + total (map Sql.value cs))%Q.
    destruct c as [q|s]; cbn [Sql.sum_add].
    + destruct (Sql.as_int64 q) as [z|] eqn:E.
      * destruct (Sql.in_int64 (i + z)).
        -- specialize (IH (i + z)).
           apply as_int64_value in E.
           destruct (fold_left Sql.sum_add cs (Sql.Exact (i + z)));
             [| |exact I]; rewrite IH, inject_Z_plus; simpl; rewrite E; ring.
        -- now rewrite sum_add_overflowed.
      * destruct (sum_add_approx cs (inject_Z i + q)) as (r & -> & Hr).
        rewrite Hr. simpl. ring.
    + destruct (sum_add_approx cs (inject_Z i + Sql.value (Sql.Text s)))
        as (r & -> & Hr).
      rewrite Hr. ring.
Qed.

(** SUM does not overflow while the integers it adds stay within 64 bits. *)
Lemma sum_add_fits (cs : list Sql.cell) (i : Z) :
  Z.abs i + fold_right Z.add 0 (map magnitude cs) <= Sql.max_int64 ->
  fold_left Sql.sum_add cs (Sql.Exact i) <> Sql.Overflowed.
Proof.
  revert i. induction cs as [|c cs IH]; intros i Hfit; [discriminate|].
  change (fold_left Sql.sum_add (c :: cs) (Sql.Exact i))
    with (fold_left Sql.sum_add cs (Sql.sum_add (Sql.Exact i) c)).
  simpl in Hfit. pose proof (magnitudes_nonneg cs) as Hnn.
  rewrite max_int64_value in *.
  destruct c as [q|s]; cbn [Sql.sum_add].
  - simpl in Hfit. destruct (Sql.as_int64 q) as [z|] eqn:E.
    + assert (Sql.in_int64 (i + z) = true) as ->.
      { unfold Sql.in_int64. rewrite min_int64_value, max_int64_value.
        apply andb_true_iff. rewrite !Z.leb_le. lia. }
      apply IH. lia.
    + destruct (sum_add_approx cs (inject_Z i + q)) as (r & -> & _).
      discriminate.
  - destruct (sum_add_approx cs (inject_Z i + Sql.value (Sql.Text s)))
      as (r & -> & _).
    discriminate.
Qed.

Lemma sum_step_present (cs : list Sql.cell) (st : Sql.sum_state) :
  fold_left Sql.sum_step (map Some cs) (Some st)
  = Some (fold_left Sql.sum_add cs st).
Proof.
  revert st. induction cs as [|c cs IH]; simpl; intros st; [reflexivity|].
  apply IH.
Qed.

Lemma sum_step_cons (c : Sql.cell) (cs : list Sql.cell) :
  fold_left Sql.sum_step (map Some (c :: cs)) None
  = Some (fold_left Sql.sum_add (c :: cs) (Sql.Exact 0)).
Proof.
  change (fold_left Sql.sum_step (map Some (c :: cs)) None)
    with (fold_left Sql.sum_step (map Some cs)
            (Some (Sql.sum_add (Sql.Exact 0) c))).
  now rewrite sum_step_present.
Qed.

Lemma sum_step_null (l : list (option Sql.cell)) (st : option Sql.sum_state) :
  Forall (fun x => x = None) l -> fold_left Sql.sum_step l st = st.
Proof.
  induction 1 as [|x l Hx _ IH]; [reflexivity|]. subst x. simpl. exact IH.
Qed.

Lemma sum_null (l : list (option Sql.cell)) :
  Forall (fun x => x = None) l -> Sql.sum l = Sql.Ok None.
Proof. intros H. unfold Sql.sum. now rewrite sum_step_null. Qed.

Lemma sum_error (l : list (option Sql.cell)) (e : string) :
  Sql.sum l = Sql.Error e -> e = Sql.integer_overflow.
Proof.
  unfold Sql.sum. destruct (fold_left Sql.sum_step l None) as [[i|r|]|];
    try discriminate.
  intros H. now injection H.
Qed.

(** SUM over rows that all have a value: when it succeeds it is their
    total, and it is not NULL unless there is no row. *)
Lemma sum_present (cs : list Sql.cell) (r : option Q) :
  Sql.sum (map Some cs) = Sql.Ok r ->
  (coalesce0 r == total (map Sql.value cs))%Q /\ (cs <> [] -> r <> None).
Proof.
  destruct cs as [|c cs].
  - intros H. cbv in H. injection H as <-. split; [reflexivity | congruence].
  - unfold Sql.sum. rewrite sum_step_cons.
    pose proof (sum_add_exact (c :: cs) 0) as Hv.
    destruct (fold_left Sql.sum_add (c :: cs) (Sql.Exact 0));
      intros H; try discriminate H; injection H as <-; (split; [|discriminate]);
      simpl coalesce0; rewrite Hv; change (inject_Z 0) with 0%Q; ring.
Qed.

Lemma sum_present_fits (cs : list Sql.cell) :
  fold_right Z.add 0 (map magnitude cs) <= Sql.max_int64 ->
  exists r, Sql.sum (map Some cs) = Sql.Ok r.
Proof.
  intros Hfit. destruct cs as [|c cs]; [now exists None|].
  unfold Sql.sum. rewrite sum_step_cons.
  pose proof (sum_add_fits (c :: cs) 0 Hfit) as Hno.
  destruct (fold_left Sql.sum_add (c :: cs) (Sql.Exact 0));
    [eexists; reflexivity | eexists; reflexivity | congruence].
Qed.

(** The sum of the quantities of a product's joined rows. *)
Lemma left_rows_quantity (db : DB) (p : Products.row) (r : option Q) :
  Sql.sum (map o_quantity (left_rows db p)) = Sql.Ok r ->
  (coalesce0 r == quantity_sold db p)%Q
  /\ (r = None <-> orders_of db p = []).
Proof.
  unfold left_rows, quantity_sold, quantities.
  destruct (orders_of db p) as [|o os] eqn:E.
  - intros H. cbv in H. injection H as <-. split; [reflexivity | tauto].
  - assert (map o_quantity (map Some (o :: os))
            = map Some (map Orders.quantity (o :: os))) as ->
      by (rewrite !map_map; reflexivity).
    intros H. apply sum_present in H. destruct H as [Hv Hn].
    rewrite map_map in Hv. split; [exact Hv|].
    split; [intros ->; exfalso; now apply Hn | discriminate].
Qed.

Lemma left_rows_fits (db : DB) (p : Products.row) :
  quantities_fit (orders_of db p) ->
  exists r, Sql.sum (map o_quantity (left_rows db p)) = Sql.Ok r.
Proof.
  unfold left_rows, quantities_fit.
  destruct (orders_of db p) as [|o os] eqn:E; [now exists None|].
  intros Hfit.
  assert (map o_quantity (map Some (o :: os))
          = map Some (map Orders.quantity (o :: os))) as ->
    by (rewrite !map_map; reflexivity).
  apply sum_present_fits. now rewrite map_map.
Qed.

(** A group without a total price has no quantity either. *)
Lemma sum_columns_null (os : list (option Orders.row)) :
  sql_sum_real (map o_total_price os) = None ->
  Sql.sum (map o_quantity os) = Sql.Ok None.
Proof.
  rewrite sql_sum_real_null, Forall_map. intros H.
  apply sum_null. rewrite Forall_map. revert H. apply Forall_impl.
  intros [o|]; simpl; [discriminate | reflexivity].
Qed.
End SumFacts.

(** The statements of a list all succeed with the rows they give, or the
    list fails with the error of one of them. *)
Lemma all_ok_map {A B : Type} (f : A -> Sql.result B) (l : list A) :
  (exists rows, Sql.all_ok (map f l) = Sql.Ok rows
                /\ Forall2 (fun x y => f x = Sql.Ok y) l rows)
  \/ (exists x e, In x l /\ f x = Sql.Error e
                  /\ Sql.all_ok (map f l) = Sql.Error e).
Proof.
  induction l as [|x l IH]; simpl.
  - left. exists []. split; [reflexivity | constructor].
  - destruct (f x) as [y|e] eqn:E.
    + destruct IH as [(rows & -> & Hall) | (x' & e & Hx' & He & ->)].
      * left. exists (y :: rows). split; [reflexivity|]. now constructor.
      * right. exists x', e. tauto.
    + right. exists x, e. tauto.
Qed.

Lemma left_rows_revenue (db : DB) (p : Products.row) :
  (coalesce0 (sql_sum_real (map o_total_price (left_rows db p)))
   == revenue_of db p)%Q.
Proof.
  unfold left_rows, revenue_of.
  destruct (orders_of db p) as [|o os] eqn:E; [reflexivity|].
  assert (map o_total_price (map Some (o :: os))
          = map Some (map Orders.total_price (o :: os))) as ->
    by (rewrite !map_map; reflexivity).
  apply sql_sum_real_values.
Qed.

Lemma left_rows_count (db : DB) (p : Products.row) :
  sql_count (map o_order_id (left_rows db p))
  = Z.of_nat (List.length (orders_of db p)).
Proof.
  unfold left_rows.
  destruct (orders_of db p) as [|o os] eqn:E; [reflexivity|].
  rewrite map_map. generalize (o :: os). intros l.
  induction l as [|x l IH]; [reflexivity|].
  change (1 + sql_count (map (fun x => o_order_id (Some x)) l)
          = Z.of_nat (S (List.length l))).
  rewrite IH. lia.
Qed.

Lemma Qle_bool_total (x y : Q) : Qle_bool x y = true \/ Qle_bool y x = true.
Proof.
  rewrite !Qle_bool_iff.
  destruct (Qlt_le_dec x y) as [H|H]; [left; now apply Qlt_le_weak | now right].
Qed.

Lemma Qle_bool_trans (x y z : Q) :
  Qle_bool x y = true -> Qle_bool y z = true -> Qle_bool x z = true.
Proof. rewrite !Qle_bool_iff. apply Qle_trans. Qed.

Lemma sql_leb_total (x y : option Q) : sql_leb x y = true \/ sql_leb y x = true.
Proof.
  destruct x as [a|], y as [b|]; simpl; auto. apply Qle_bool_total.
Qed.

Lemma sql_leb_trans (x y z : option Q) :
  sql_leb x y = true -> sql_leb y z = true -> sql_leb x z = true.
Proof.
  destruct x as [a|], y as [b|], z as [c|]; simpl; auto; try discriminate.
  apply Qle_bool_trans.
Qed.

Lemma sql_gt0_positive (x : option Q) :
  sql_gt0 x = true -> exists q, x = Some q /\ (0 < q)%Q.
Proof.
  destruct x as [q|]; simpl; [|discriminate]. intros H.
  exists q. split; [reflexivity|]. apply Qnot_le_lt. intros Hle.
  apply Qle_bool_iff in Hle. rewrite Hle in H. discriminate.
Qed.

(* ================================================================= *)
(** ** The rows of a grouped report *)

Lemma toFixed2_nonneg_comp (x y : Q) :
  (x == y)%Q -> Js.toFixed2_nonneg x = Js.toFixed2_nonneg y.
Proof.
  intros H. unfold Js.toFixed2_nonneg. apply Qred_complete. now rewrite H.
Qed.

(** Equal numbers round to the same fraction. *)
Lemma toFixed2_comp (x y : Q) : (x == y)%Q -> Js.toFixed2 x = Js.toFixed2 y.
Proof.
  intros H. unfold Js.toFixed2. rewrite (Qleb_comp 0%Q 0%Q (Qeq_refl 0%Q) x y H).
  destruct (Qle_bool 0 y).
  - now apply toFixed2_nonneg_comp.
  - f_equal. f_equal. apply toFixed2_nonneg_comp. now rewrite H.
Qed.

Lemma Forall2_map_eq {A B C : Type} (R : A -> B -> Prop) (g : B -> C)
    (h : A -> C) (l : list A) (l' : list B) :
  (forall x y, R x y -> g y = h x) ->
  Forall2 R l l' -> map g l' = map h l.
Proof.
  intros Hgh. induction 1 as [|x y l l' Hxy Hall IH]; simpl; [reflexivity|].
  now rewrite (Hgh x y Hxy), IH.
Qed.

Lemma Forall2_in_left {A B : Type} (R : A -> B -> Prop) (l : list A)
    (l' : list B) (x : A) :
  Forall2 R l l' -> In x l -> exists y, In y l' /\ R x y.
Proof.
  induction 1 as [|a b l l' Hab Hall IH]; simpl; [contradiction|].
  intros [<-|Hx].
  - exists b. split; [now left | assumption].
  - destruct (IH Hx) as (y & Hy & Hxy). exists y. split; [now right | assumption].
Qed.

Lemma Forall2_in_right {A B : Type} (R : A -> B -> Prop) (l : list A)
    (l' : list B) (y : B) :
  Forall2 R l l' -> In y l' -> exists x, In x l /\ R x y.
Proof.
  induction 1 as [|a b l l' Hab Hall IH]; simpl; [contradiction|].
  intros [<-|Hy].
  - exists a. split; [now left | assumption].
  - destruct (IH Hy) as (x & Hx & Hxy). exists x. split; [now right | assumption].
Qed.

Section ReportRows.
Context {rt : Js.Runtime}.

(** A report that aggregates each product's group with [f], where [f] fails
    only when SUM(o.quantity) does: under unique product ids it has the row
    of every product, in the order of the catalog, or it fails with an
    integer overflow, and then the quantities of some product do not fit. *)
Lemma report_rows {A : Type}
    (f : Products.row * list (option Orders.row) -> Sql.result A) (db : DB) :
  NoDup (map Products.id (products db)) ->
  (forall p os e, f (p, os) = Sql.Error e ->
                  Sql.sum (map o_quantity os) = Sql.Error e) ->
  (exists rows,
      Sql.all_ok (map f (group_by_product (products_left_join_orders db)))
      = Sql.Ok rows
      /\ Forall2 (fun p row => f (p, left_rows db p) = Sql.Ok row)
                 (products db) rows)
  \/ (Sql.all_ok (map f (group_by_product (products_left_join_orders db)))
      = Sql.Error Sql.integer_overflow
      /\ exists p, In p (products db) /\ ~ quantities_fit (orders_of db p)).
Proof.
  intros Hnd Hf. rewrite (groups_of_products db Hnd), map_map.
  destruct (all_ok_map (fun p => f (p, left_rows db p)) (products db))
    as [(rows & H & Hall) | (p & e & Hp & He & H)].
  - left. now exists rows.
  - right. apply Hf in He. pose proof (sum_error _ _ He) as ->.
    split; [exact H|]. exists p. split; [exact Hp|]. intros Hfit.
    destruct (left_rows_fits db p Hfit) as (r & Hr). congruence.
Qed.


Lemma top_seller_row_error (p : Products.row) (os : list (option Orders.row))
    (e : string) :
  top_seller_row (p, os) = Sql.Error e ->
  Sql.sum (map o_quantity os) = Sql.Error e.
Proof.
  unfold top_seller_row. destruct (Sql.sum (map o_quantity os)); congruence.
Qed.


(** The row of a product in the top-sellers query, before HAVING. *)
Lemma top_seller_row_of (db : DB) (p : Products.row) (row : TopSellerRow.t) :
  top_seller_row (p, left_rows db p) = Sql.Ok row ->
  TopSellerRow.id row = Products.id p
  /\ TopSellerRow.name row = Products.name p
  /\ TopSellerRow.price row = Products.price p
  /\ (coalesce0 (TopSellerRow.total_quantity_sold row) == quantity_sold db p)%Q
  /\ (TopSellerRow.total_quantity_sold row = None <-> orders_of db p = [])
  /\ TopSellerRow.number_of_orders row = Z.of_nat (List.length (orders_of db p))
  /\ (coalesce0 (TopSellerRow.total_revenue row) == revenue_of db p)%Q
  /\ (TopSellerRow.total_revenue row = None -> orders_of db p = []).
Proof.
  unfold top_seller_row.
  destruct (Sql.sum (map o_quantity (left_rows db p))) as [sold|e] eqn:E;
    [|discriminate].
  intros H. injection H as <-. simpl.
  destruct (left_rows_quantity db p sold E) as [Hv Hn].
  split; [reflexivity|]. split; [reflexivity|]. split; [reflexivity|].
  split; [exact Hv|]. split; [exact Hn|]. split; [apply left_rows_count|].
  split; [apply left_rows_revenue|].
  intros Hrev. apply sum_columns_null in Hrev. apply Hn. congruence.
Qed.
End ReportRows.

(* ================================================================= *)
(** ** Product performance *)





(** The report of that store: the Widget with its three items, then the
    Gadget that nobody ordered, with zeros. *)
Example productPerformance_two_products :
  productPerformance (rt := DecimalRuntime.runtime) Sample.two_products
  = (Sample.two_products,
     Json 200 (Some "Product performance data retrieved successfully"%string)
       {| rows := [ {| ProductPerformance.id := 1;
                       ProductPerformance.name := "Widget";
                       ProductPerformance.price := (33 # 100)%Q;
                       ProductPerformance.total_sold := 3%Q;
                       ProductPerformance.order_count := 1;
                       ProductPerformance.revenue := 1%Q |};
                    {| ProductPerformance.id := 2;
                       ProductPerformance.name := "Gadget";
                       ProductPerformance.price := 2%Q;
                       ProductPerformance.total_sold := 0%Q;
                       ProductPerformance.order_count := 0;
                       ProductPerformance.revenue := 0%Q |} ];
          count := 2 |}).
Proof. vm_compute. reflexivity. Qed.


(* ================================================================= *)
(** ** Top sellers *)

Lemma map_throwing_total {A B : Type} (f : A -> option B) (l : list A) :
  (forall x, In x l -> f x <> None) ->
  exists l', map_throwing f l = Some l'
             /\ Forall2 (fun x y => f x = Some y) l l'.
Proof.
  induction l as [|x l IH]; simpl; intros H.
  - exists []. split; [reflexivity | constructor].
  - destruct (f x) as [y|] eqn:E; [|exfalso; apply (H x); auto].
    destruct IH as (l' & -> & Hall); [intros z Hz; apply H; now right|].
    exists (y :: l'). split; [reflexivity|]. now constructor.
Qed.

Lemma top_seller_keeps (row : TopSellerRow.t) (r : TopSeller.t) :
  top_seller row = Some r ->
  TopSeller.id r = TopSellerRow.id row
  /\ TopSeller.total_quantity_sold r = TopSellerRow.total_quantity_sold row.
Proof.
  unfold top_seller. destruct (TopSellerRow.total_revenue row); [|discriminate].
  intros H. inversion H; subst. now split.
Qed.

Lemma top_seller_geb_total (r1 r2 : TopSellerRow.t) :
  top_seller_geb r1 r2 = true \/ top_seller_geb r2 r1 = true.
Proof. apply sql_leb_total. Qed.

Lemma top_seller_geb_trans (r1 r2 r3 : TopSellerRow.t) :
  top_seller_geb r1 r2 = true -> top_seller_geb r2 r3 = true ->
  top_seller_geb r1 r3 = true.
Proof. unfold top_seller_geb. intros H12 H23. eapply sql_leb_trans; eauto. Qed.

(** HAVING, ORDER BY and LIMIT keep only rows that passed HAVING. *)
Lemma top_five_row (rows : list TopSellerRow.t) (row : TopSellerRow.t) :
  In row (firstn 5
            (order_by_desc top_seller_geb
               (filter (fun r => sql_gt0 (TopSellerRow.total_quantity_sold r))
                       rows))) ->
  In row rows /\ sql_gt0 (TopSellerRow.total_quantity_sold row) = true.
Proof.
  intros H.
  assert (In row (order_by_desc top_seller_geb
                    (filter (fun r => sql_gt0 (TopSellerRow.total_quantity_sold r))
                       rows)))
    as Hin.
  { rewrite <- (firstn_skipn 5 (order_by_desc _ _)).
    apply in_or_app. left. exact H. }
  apply (Permutation_in _ (Permutation_sym (order_by_desc_perm _ _))) in Hin.
  now apply filter_In in Hin.
Qed.

Section TopFive.
Context {rt : Js.Runtime}.

(** A row that passed HAVING has a revenue: [toFixed] does not throw. *)
Lemma top_five_revenue (db : DB) (rows : list TopSellerRow.t)
    (row : TopSellerRow.t) :
  Forall2 (fun p row => top_seller_row (p, left_rows db p) = Sql.Ok row)
          (products db) rows ->
  In row (firstn 5
            (order_by_desc top_seller_geb
               (filter (fun r => sql_gt0 (TopSellerRow.total_quantity_sold r))
                       rows))) ->
  top_seller row <> None.
Proof.
  intros Hall H. apply top_five_row in H. destruct H as [Hin Hgt].
  destruct (Forall2_in_right _ _ _ row Hall Hin) as (p & Hp & Hof).
  apply top_seller_row_of in Hof.
  destruct Hof as (_ & _ & _ & _ & Hn & _ & _ & Hrev).
  unfold top_seller.
  destruct (TopSellerRow.total_revenue row) eqn:E; [discriminate|].
  rewrite (proj2 Hn (Hrev eq_refl)) in Hgt. discriminate.
Qed.
End TopFive.

(** C4: topSellers either answers 200 with at most 5 rows, whose total
    quantities sold are numbers greater than 0 in non-increasing order, and
    with no Product among them whose Orders add up to a quantity of zero
    (or which has none); or it answers 500 with no row at all, which
    happens only when SUM overflows: the 64-bit integer quantities of some
    Product's Orders add up to more than 2^63 - 1. *)
Theorem topSellers_at_most_five_sold_sorted {rt : Js.Runtime} :
  forall db : DB,
    NoDup (map Products.id (products db)) ->
    (exists l qs,
        topSellers db
        = (db, Json 200
                 (Some "Top 5 best-selling products retrieved successfully"%string)
                 {| rows := l; count := List.length l |})
        /\ (List.length l <= 5)%nat
        /\ map TopSeller.total_quantity_sold l = map Some qs
        /\ Forall (fun q => (0 < q)%Q) qs
        /\ StronglySorted (fun a b => (b <= a)%Q) qs
        /\ (forall p, In p (products db) -> (quantity_sold db p == 0)%Q ->
              ~ In (Products.id p) (map TopSeller.id l)))
    \/ (topSellers db = (db, ReportFailure "SQLITE_ERROR: integer overflow")
        /\ exists p, In p (products db) /\ ~ quantities_fit (orders_of db p)).
Proof.
  intros db Hnd. unfold topSellers, top_sellers_query.
  destruct (report_rows top_seller_row db Hnd top_seller_row_error)
    as [(X & -> & HX) | (-> & Hno)]; [left | right; now split].
  set (top := firstn 5
                (order_by_desc top_seller_geb
                   (filter (fun r => sql_gt0 (TopSellerRow.total_quantity_sold r))
                           X))).
  destruct (map_throwing_total top_seller top) as (l & -> & Hall);
    [intros row Hrow; now apply (top_five_revenue db X) |].
  assert (map TopSeller.total_quantity_sold l
          = map TopSellerRow.total_quantity_sold top) as Hsold
    by (eapply Forall2_map_eq; [|exact Hall];
        intros x y Hxy; now apply top_seller_keeps in Hxy).
  assert (map TopSeller.id l = map TopSellerRow.id top) as Hids
    by (eapply Forall2_map_eq; [|exact Hall];
        intros x y Hxy; now apply top_seller_keeps in Hxy).
  assert (forall row, In row top ->
            exists q, TopSellerRow.total_quantity_sold row = Some q
                      /\ (0 < q)%Q) as Hpos.
  { intros row Hrow. apply top_five_row in Hrow. destruct Hrow as [_ Hgt].
    now apply sql_gt0_positive. }
  set (qs := map (fun row => coalesce0 (TopSellerRow.total_quantity_sold row))
                 top).
  assert (map TopSellerRow.total_quantity_sold top = map Some qs) as Hqs.
  { unfold qs. rewrite map_map. apply map_ext_in. intros row Hrow.
    destruct (Hpos row Hrow) as (q & -> & _). reflexivity. }
  exists l, qs. split; [reflexivity|].
  split; [|split; [|split; [|split]]].
  - rewrite <- (Forall2_length Hall). apply firstn_le_length.
  - now rewrite Hsold.
  - unfold qs. rewrite Forall_map. apply Forall_forall. intros row Hrow.
    destruct (Hpos row Hrow) as (q & -> & Hq). exact Hq.
  - apply (StronglySorted_unmap (fun x y => sql_leb y x = true) Some).
    + intros a b H. now apply Qle_bool_iff in H.
    + rewrite <- Hqs. apply StronglySorted_map. unfold top.
      apply StronglySorted_firstn.
      apply (order_by_desc_sorted top_seller_geb top_seller_geb_total
               top_seller_geb_trans).
  - intros p Hp Hzero Hin. rewrite Hids in Hin.
    apply in_map_iff in Hin. destruct Hin as (row & Hid & Hrow).
    apply top_five_row in Hrow. destruct Hrow as [Hrow Hgt].
    destruct (Forall2_in_right _ _ _ row HX Hrow) as (p' & Hp' & Hof).
    apply top_seller_row_of in Hof. destruct Hof as (Hid' & _ & _ & Hsum & _).
    assert (p' = p) by (eapply NoDup_map_eq; eauto; congruence). subst p'.
    apply sql_gt0_positive in Hgt. destruct Hgt as (q & Hq & Hposq).
    rewrite Hq in Hsum. simpl in Hsum. rewrite Hsum, Hzero in Hposq.
    now apply Qlt_irrefl in Hposq.
Qed.

(** The instance on the store with a Widget ordered once and a Gadget that
    nobody ordered: the first case holds, with a listing. *)
Lemma topSellers_at_most_five_sold_sorted_witness :
  exists l qs,
    topSellers (rt := DecimalRuntime.runtime) Sample.two_products
    = (Sample.two_products,
       Json 200 (Some "Top 5 best-selling products retrieved successfully"%string)
            {| rows := l; count := List.length l |})
    /\ (List.length l <= 5)%nat
    /\ map TopSeller.total_quantity_sold l = map Some qs
    /\ Forall (fun q => (0 < q)%Q) qs
    /\ StronglySorted (fun a b => (b <= a)%Q) qs
    /\ (forall p, In p (products Sample.two_products) ->
          (quantity_sold (rt := DecimalRuntime.runtime) Sample.two_products p
           == 0)%Q ->
          ~ In (Products.id p) (map TopSeller.id l)).
Proof.
  destruct (topSellers_at_most_five_sold_sorted (rt := DecimalRuntime.runtime)
              Sample.two_products) as [H | [H _]].
  - repeat constructor; simpl; intuition discriminate.
  - exact H.
  - vm_compute in H. discriminate H.
Defined.

(** The listing of that store: the Widget alone. *)
Example topSellers_two_products :
  topSellers (rt := DecimalRuntime.runtime) Sample.two_products
  = (Sample.two_products,
     Json 200 (Some "Top 5 best-selling products retrieved successfully"%string)
       {| rows := [ {| TopSeller.id := 1;
                       TopSeller.name := "Widget";
                       TopSeller.price := (33 # 100)%Q;
                       TopSeller.total_quantity_sold := Some 3%Q;
                       TopSeller.number_of_orders := 1;
                       TopSeller.total_revenue := 1%Q |} ];
          count := 1 |}).
Proof. vm_compute. reflexivity. Qed.

(** On the store whose two orders overflow SUM the second case holds. *)
Example topSellers_integer_overflow :
  topSellers (rt := DecimalRuntime.runtime) Sample.overflowing
  = (Sample.overflowing, ReportFailure "SQLITE_ERROR: integer overflow").
Proof. vm_compute. reflexivity. Qed.

(* ================================================================= *)
(** ** The primary keys hold in every store the handlers reach *)

Lemma next_rowid_above (seq : Z) (ids : list Z) :
  seq < next_rowid seq ids /\ forall i, In i ids -> i < next_rowid seq ids.
Proof.
  unfold next_rowid. induction ids as [|j ids [IHs IHi]]; simpl.
  - split; [lia | contradiction].
  - split; [lia|]. intros i [<-|Hi]; [lia|]. specialize (IHi i Hi). lia.
Qed.

Lemma NoDup_snoc (ids : list Z) (i : Z) :
  NoDup ids -> ~ In i ids -> NoDup (ids ++ [i]).
Proof.
  intros Hnd Hi. apply (Permutation_NoDup (l := i :: ids)).
  - apply Permutation_cons_append.
  - now constructor.
Qed.

Lemma NoDup_next_rowid (seq : Z) (ids : list Z) :
  NoDup ids -> NoDup (ids ++ [next_rowid seq ids]).
Proof.
  intros Hnd. apply NoDup_snoc; [assumption|]. intros Hin.
  apply (next_rowid_above seq ids) in Hin. lia.
Qed.

Lemma NoDup_map_filter {A : Type} (key : A -> Z) (f : A -> bool) (l : list A) :
  NoDup (map key l) -> NoDup (map key (filter f l)).
Proof.
  induction l as [|x l IH]; simpl; intros Hnd; [constructor|].
  inversion Hnd as [|? ? Hx Hl]; subst.
  destruct (f x); simpl; [|now apply IH].
  constructor; [|now apply IH].
  intros Hin. apply Hx. apply in_map_iff in Hin.
  destruct Hin as (y & Hy & Hin). apply filter_In in Hin.
  rewrite <- Hy. apply in_map. tauto.
Qed.

Lemma primary_keys_empty : primary_keys empty_db.
Proof. split; constructor. Qed.

Section Invariant.
Context {rt : Js.Runtime}.

Lemma createProduct_primary_keys (db : DB) (now : Z) (name price : Js.value) :
  primary_keys db -> primary_keys (fst (createProduct db now name price)).
Proof.
  intros [Hp Ho]. unfold createProduct.
  destruct (Js.not name || Js.not price); [now split|].
  destruct (Js.isNaN price || Js.le0 price); [now split|].
  unfold insert_product.
  destruct (bind_text name); [|now split].
  destruct (bind_number (Js.parseFloat price)); [|now split].
  split; simpl; [|assumption].
  rewrite map_app. simpl. now apply NoDup_next_rowid.
Qed.

Lemma updateProduct_primary_keys (db : DB) (id : Z) (name price : Js.value) :
  primary_keys db -> primary_keys (fst (updateProduct db id name price)).
Proof.
  intros [Hp Ho]. unfold updateProduct.
  destruct (Js.not name || Js.not price); [now split|].
  destruct (Js.isNaN price || Js.le0 price); [now split|].
  unfold update_product.
  destruct (filter _ (products db)); [now split|].
  destruct (bind_text name); [|now split].
  destruct (bind_number (Js.parseFloat price)); [|now split].
  split; simpl; [|assumption].
  rewrite map_map.
  erewrite map_ext; [exact Hp|].
  intros x. now destruct (Products.id x =? id).
Qed.

Lemma deleteProduct_primary_keys (db : DB) (id : Z) :
  primary_keys db -> primary_keys (fst (deleteProduct db id)).
Proof.
  intros [Hp Ho]. unfold deleteProduct.
  destruct (existsb _ (products db)); [|now split].
  split; simpl; [|assumption]. now apply NoDup_map_filter.
Qed.

Lemma createOrder_primary_keys (db : DB) (now js_now : Z)
    (product_id quantity : Js.value) :
  primary_keys db ->
  primary_keys (fst (createOrder db now js_now product_id quantity)).
Proof.
  intros [Hp Ho]. unfold createOrder.
  destruct (Js.not product_id || Js.not quantity); [now split|].
  destruct (Js.isNaN quantity || Js.le0 quantity); [now split|].
  destruct (select_product db product_id); [|now split].
  unfold insert_order.
  destruct (bind_numeric product_id); [|now split].
  destruct (bind_numeric quantity); [|now split].
  destruct (bind_number _); [|now split].
  split; simpl; [assumption|].
  rewrite map_app. simpl. now apply NoDup_next_rowid.
Qed.

Lemma updateOrder_primary_keys (db : DB) (id : Z) (quantity : Js.value) :
  primary_keys db -> primary_keys (fst (updateOrder db id quantity)).
Proof.
  intros [Hp Ho]. unfold updateOrder.
  destruct (Js.not quantity); [now split|].
  destruct (Js.isNaN quantity || Js.le0 quantity); [now split|].
  destruct (select_order_joined db id) as [[o p]|]; [|now split].
  unfold update_order.
  destruct (filter _ (orders db)); [now split|].
  destruct (bind_numeric quantity); [|now split].
  destruct (bind_number _); [|now split].
  split; simpl; [assumption|].
  rewrite map_map.
  erewrite map_ext; [exact Ho|].
  intros x. now destruct (Orders.order_id x =? id).
Qed.

Lemma deleteOrder_primary_keys (db : DB) (id : Z) :
  primary_keys db -> primary_keys (fst (deleteOrder db id)).
Proof.
  intros [Hp Ho]. unfold deleteOrder.
  destruct (existsb _ (orders db)); [|now split].
  split; simpl; [assumption|]. now apply NoDup_map_filter.
Qed.

(** A createOrder request whose quantity is present and truthy but converts
    to a number that is at most 0 gets the message of the second guard, and
    the store is not touched. *)
Lemma createOrder_nonpositive_quantity (db : DB) (now js_now : Z)
    (product_id quantity : Js.value) (q : Q) :
  Js.not product_id = false ->
  Js.not quantity = false ->
  Js.ToNumber quantity = Js.Fin q ->
  (q <= 0)%Q ->
  createOrder db now js_now product_id quantity
  = (db, Rejected 400 "Quantity must be greater than 0").
Proof.
  intros Hp Hq Hn Hle. unfold createOrder.
  rewrite Hp, Hq, (le0_nonpositive _ _ Hn Hle). simpl.
  now rewrite orb_true_r.
Qed.
End Invariant.

(* ================================================================= *)
(** ** Creating and reading back *)

Lemma find_snoc_fresh {A : Type} (f : A -> bool) (l : list A) (y : A) :
  (forall x, In x l -> f x = false) -> f y = true ->
  find f (l ++ [y]) = Some y.
Proof.
  induction l as [|x l IH]; simpl; intros Hl Hy.
  - now rewrite Hy.
  - rewrite (Hl x) by now left. apply IH; [|assumption].
    intros z Hz. apply Hl. now right.
Qed.

Section Bound.
Context {rt : Js.Runtime}.

(** A value that is present is bound as something. *)
Lemma bind_text_truthy (v : Js.value) :
  Js.not v = false -> exists s, bind_text v = Some s.
Proof.
  destruct v as [| |b|q|s]; simpl; try discriminate; intros _; eauto.
Qed.

Lemma bind_numeric_truthy (v : Js.value) :
  Js.not v = false -> exists c, bind_numeric v = Some c.
Proof.
  destruct v as [| |b|q|s]; simpl; try discriminate; intros _; eauto.
  destruct (Js.SqliteTextToNumber s); eauto.
Qed.

(** A number is bound as itself. *)
Lemma bind_numeric_num (q : Q) : bind_numeric (Js.num q) = Some (Sql.Num q).
Proof. reflexivity. Qed.

(** The product the lookup of POST /orders finds is in the catalog and has
    the number the product_id was bound as for its id. *)
Lemma select_product_found (db : DB) (product_id : Js.value) (p : Products.row) :
  select_product db product_id = Some p ->
  In p (products db)
  /\ exists k, bind_numeric product_id = Some (Sql.Num k)
               /\ (k == inject_Z (Products.id p))%Q.
Proof.
  unfold select_product. intros H. apply find_some in H.
  destruct H as [Hin Hm]. split; [exact Hin|].
  unfold id_matches in Hm.
  destruct (bind_numeric product_id) as [[k|s]|]; try discriminate.
  exists k. split; [reflexivity|].
  apply Qeq_bool_iff in Hm. now symmetry.
Qed.

(** With unique ids the lookup finds the product whose id the product_id is
    bound as. *)
Lemma select_product_by_id (db : DB) (product_id : Js.value) (k : Q)
    (p : Products.row) :
  NoDup (map Products.id (products db)) ->
  bind_numeric product_id = Some (Sql.Num k) ->
  In p (products db) ->
  (k == inject_Z (Products.id p))%Q ->
  select_product db product_id = Some p.
Proof.
  intros Hnd Hk Hp Hid. unfold select_product. rewrite Hk.
  destruct (find _ (products db)) as [p'|] eqn:E.
  - apply find_some in E. destruct E as [Hp' Hm]. simpl in Hm.
    apply Qeq_bool_iff in Hm. rewrite Hid in Hm.
    f_equal. apply (NoDup_map_eq Products.id (products db)); try assumption.
    unfold Qeq in Hm. simpl in Hm. lia.
  - exfalso. pose proof (find_none _ _ E p Hp) as Hm. simpl in Hm.
    assert (Qeq_bool (inject_Z (Products.id p)) k = true) as Ht
      by (apply Qeq_bool_iff; now symmetry).
    congruence.
Qed.

Lemma on_product_bound (o : Orders.row) (p : Products.row) (k : Q) :
  Orders.product_id o = Sql.Num k ->
  (k == inject_Z (Products.id p))%Q ->
  on_product o p = true.
Proof.
  intros Hk Hid. unfold on_product. rewrite Hk. now apply Qeq_bool_iff.
Qed.
End Bound.

(** X1: a createProduct request that passes both guards has a name that is
    stored as a text.  When parseFloat reads its price as a number, the
    answer is 201 with an id above every id of the table and above every id
    handed out before, the row is appended with the stored name, the parsed
    price and the creation time, getProduct on that id returns it, and the
    Orders are untouched.  When parseFloat reads no number (the price
    [true]), the INSERT breaks NOT NULL and the answer is 500, the store
    unchanged. *)
Theorem createProduct_then_getProduct {rt : Js.Runtime} :
  forall (db : DB) (now : Z) (name price : Js.value),
    Js.not name || Js.not price = false ->
    Js.isNaN price || Js.le0 price = false ->
    exists s,
      bind_text name = Some s
      /\ match Js.parseFloat price with
         | Js.Fin q =>
             exists db' id,
               createProduct db now name price
               = (db', Json 201 (Some "Product created successfully"%string)
                         {| ProductData.id := id;
                            ProductData.name := name;
                            ProductData.price := Js.Fin q |})
               /\ products_seq db < id
               /\ (forall p, In p (products db) -> Products.id p < id)
               /\ products db'
                  = products db
                    ++ [{| Products.id := id; Products.name := s;
                           Products.price := q; Products.created_at := now |}]
               /\ getProduct db' id
                  = (db', Json 200 None
                            {| Products.id := id; Products.name := s;
                               Products.price := q;
                               Products.created_at := now |})
               /\ orders db' = orders db
         | Js.NaN =>
             createProduct db now name price
             = (db, StorageFailure
                      "SQLITE_CONSTRAINT: NOT NULL constraint failed: Products.price")
         end.
Proof.
  intros db now name price Hreq Hval.
  pose proof Hreq as Hreq'. apply orb_false_iff in Hreq'.
  destruct (bind_text_truthy name (proj1 Hreq')) as (s & Hname).
  exists s. split; [exact Hname|].
  unfold createProduct. rewrite Hreq, Hval, Hname.
  destruct (Js.parseFloat price) as [|q]; [reflexivity|]. simpl.
  destruct (next_rowid_above (products_seq db) (map Products.id (products db)))
    as [Hseq Hids].
  eexists _, _. split; [reflexivity|]. split; [exact Hseq|].
  split; [|split; [reflexivity|split; [|reflexivity]]].
  - intros p Hp. apply Hids. now apply in_map.
  - unfold getProduct. simpl. rewrite find_snoc_fresh; [reflexivity| |].
    + intros p Hp. apply Z.eqb_neq.
      specialize (Hids (Products.id p) (in_map _ _ _ Hp)). lia.
    + simpl. apply Z.eqb_refl.
Qed.

Lemma createProduct_then_getProduct_witness :
  exists s,
    bind_text (rt := DecimalRuntime.runtime) (Js.str "Gadget") = Some s
    /\ exists db' id,
         createProduct (rt := DecimalRuntime.runtime) Sample.ledger 102
           (Js.str "Gadget") (Js.num 2)
         = (db', Json 201 (Some "Product created successfully"%string)
                   {| ProductData.id := id;
                      ProductData.name := Js.str "Gadget";
                      ProductData.price := Js.Fin 2 |})
         /\ products_seq Sample.ledger < id
         /\ (forall p, In p (products Sample.ledger) -> Products.id p < id)
         /\ products db'
            = products Sample.ledger
              ++ [{| Products.id := id; Products.name := s;
                     Products.price := 2%Q; Products.created_at := 102 |}]
         /\ getProduct db' id
            = (db', Json 200 None
                      {| Products.id := id; Products.name := s;
                         Products.price := 2%Q; Products.created_at := 102 |})
         /\ orders db' = orders Sample.ledger.
Proof.
  apply (createProduct_then_getProduct (rt := DecimalRuntime.runtime)
           Sample.ledger 102 (Js.str "Gadget") (Js.num 2));
    reflexivity.
Defined.

(** The second product of the sample stores was created this way. *)
Example createProduct_gadget :
  createProduct (rt := DecimalRuntime.runtime) Sample.ledger 102
    (Js.str "Gadget") (Js.num 2)
  = (Sample.two_products,
     Json 201 (Some "Product created successfully"%string)
       {| ProductData.id := 2;
          ProductData.name := Js.str "Gadget";
          ProductData.price := Js.Fin 2 |})
  /\ getProduct Sample.two_products 2
     = (Sample.two_products,
        Json 200 None
          {| Products.id := 2; Products.name := "Gadget";
             Products.price := 2%Q; Products.created_at := 102 |}).
Proof. split; reflexivity. Qed.

(** X2: when the product_id of a createOrder request is bound as the id of
    a product of the catalog and the quantity passes both guards, the
    answer is 201 with an order id above every id of the table and every id
    handed out before, the request's own product_id and quantity, the
    product's name, the rounded total and the handler's clock; the row
    appended holds what SQLite bound for product_id and quantity, the exact
    price * quantity and the time of the INSERT, and getOrder on that id
    shows that row with the product's name and its price as unit price. *)
Theorem createOrder_then_getOrder {rt : Js.Runtime} :
  forall (db : DB) (now js_now : Z) (product_id quantity : Js.value)
         (k : Q) (p : Products.row),
    primary_keys db ->
    Js.not product_id || Js.not quantity = false ->
    Js.isNaN quantity || Js.le0 quantity = false ->
    bind_numeric product_id = Some (Sql.Num k) ->
    In p (products db) ->
    (k == inject_Z (Products.id p))%Q ->
    exists db' id c x,
      bind_numeric quantity = Some c
      /\ Js.ToNumber quantity = Js.Fin x
      /\ createOrder db now js_now product_id quantity
         = (db', Json 201 (Some "Order created successfully"%string)
                   {| OrderCreated.order_id := id;
                      OrderCreated.product_id := product_id;
                      OrderCreated.product_name := Products.name p;
                      OrderCreated.quantity := quantity;
                      OrderCreated.total_price :=
                        Js.Fin (Js.toFixed2 (Products.price p * x));
                      OrderCreated.order_date := js_now |})
      /\ orders_seq db < id
      /\ (forall o, In o (orders db) -> Orders.order_id o < id)
      /\ orders db'
         = orders db
           ++ [{| Orders.order_id := id;
                  Orders.product_id := Sql.Num k;
                  Orders.quantity := c;
                  Orders.total_price := (Products.price p * x)%Q;
                  Orders.order_date := now |}]
      /\ getOrder db' id
         = (db', Json 200 None
                   {| OrderDetail.order_id := id;
                      OrderDetail.product_id := Sql.Num k;
                      OrderDetail.product_name := Products.name p;
                      OrderDetail.unit_price := Products.price p;
                      OrderDetail.quantity := c;
                      OrderDetail.total_price := (Products.price p * x)%Q;
                      OrderDetail.order_date := now |})
      /\ products db' = products db.
Proof.
  intros db now js_now product_id quantity k p Hpk Hreq Hval Hk Hp Hid.
  pose proof (select_product_by_id db product_id k p (proj1 Hpk) Hk Hp Hid)
    as Hsel.
  pose proof Hreq as Hreq'.
  apply orb_false_iff in Hreq'. destruct Hreq' as [_ Hq].
  pose proof Hval as Hval'.
  apply orb_false_iff in Hval'. destruct Hval' as [Hnan _].
  unfold Js.isNaN in Hnan.
  destruct (Js.ToNumber quantity) as [|x] eqn:Hx; [discriminate|].
  destruct (bind_numeric_truthy quantity Hq) as (c & Hc).
  destruct (next_rowid_above (orders_seq db) (map Orders.order_id (orders db)))
    as [Hseq Hids].
  set (o := {| Orders.order_id := next_rowid (orders_seq db)
                                    (map Orders.order_id (orders db));
               Orders.product_id := Sql.Num k; Orders.quantity := c;
               Orders.total_price := (Products.price p * x)%Q;
               Orders.order_date := now |}).
  set (db' := {| products := products db; orders := orders db ++ [o];
                 products_seq := products_seq db;
                 orders_seq := Orders.order_id o |}).
  assert (createOrder db now js_now product_id quantity
          = (db', Json 201 (Some "Order created successfully"%string)
                    {| OrderCreated.order_id := Orders.order_id o;
                       OrderCreated.product_id := product_id;
                       OrderCreated.product_name := Products.name p;
                       OrderCreated.quantity := quantity;
                       OrderCreated.total_price :=
                         Js.Fin (Js.toFixed2 (Products.price p * x));
                       OrderCreated.order_date := js_now |})) as Hcreate.
  { unfold createOrder. rewrite Hreq, Hval, Hsel, Hx. unfold insert_order.
    rewrite Hk, Hc. reflexivity. }
  pose proof (createOrder_primary_keys db now js_now product_id quantity Hpk)
    as Hpk'.
  rewrite Hcreate in Hpk'. simpl in Hpk'.
  exists db', (Orders.order_id o), c, x.
  split; [exact Hc|]. split; [reflexivity|]. split; [exact Hcreate|].
  split; [exact Hseq|]. split; [|split; [reflexivity|split; [|reflexivity]]].
  - intros o' Ho'. apply Hids. now apply in_map.
  - unfold getOrder.
    rewrite (select_order_joined_found db' o p); try assumption; try reflexivity.
    + simpl. apply in_or_app. right. now left.
    + now apply (on_product_bound o p k).
Qed.

(** The instance with the product_id sent as the string "1", which SQLite
    reads as the number 1. *)
Lemma createOrder_then_getOrder_witness :
  exists db' id c x,
    bind_numeric (rt := DecimalRuntime.runtime) (Js.num 4) = Some c
    /\ Js.ToNumber (rt := DecimalRuntime.runtime) (Js.num 4) = Js.Fin x
    /\ createOrder (rt := DecimalRuntime.runtime) Sample.ledger 103 203
         (Js.str "1") (Js.num 4)
       = (db', Json 201 (Some "Order created successfully"%string)
                 {| OrderCreated.order_id := id;
                    OrderCreated.product_id := Js.str "1";
                    OrderCreated.product_name := "Widget";
                    OrderCreated.quantity := Js.num 4;
                    OrderCreated.total_price :=
                      Js.Fin (Js.toFixed2 ((333 # 1000) * x));
                    OrderCreated.order_date := 203 |})
    /\ orders_seq Sample.ledger < id
    /\ (forall o, In o (orders Sample.ledger) -> Orders.order_id o < id)
    /\ orders db'
       = orders Sample.ledger
         ++ [{| Orders.order_id := id;
                Orders.product_id := Sql.Num 1;
                Orders.quantity := c;
                Orders.total_price := ((333 # 1000) * x)%Q;
                Orders.order_date := 103 |}]
    /\ getOrder db' id
       = (db', Json 200 None
                 {| OrderDetail.order_id := id;
                    OrderDetail.product_id := Sql.Num 1;
                    OrderDetail.product_name := "Widget";
                    OrderDetail.unit_price := (333 # 1000)%Q;
                    OrderDetail.quantity := c;
                    OrderDetail.total_price := ((333 # 1000) * x)%Q;
                    OrderDetail.order_date := 103 |})
    /\ products db' = products Sample.ledger.
Proof.
  apply (createOrder_then_getOrder (rt := DecimalRuntime.runtime)
           Sample.ledger 103 203 (Js.str "1") (Js.num 4) 1
           {| Products.id := 1; Products.name := "Widget";
              Products.price := (333 # 1000)%Q; Products.created_at := 100 |}).
  - split; repeat constructor; simpl; tauto.
  - reflexivity.
  - reflexivity.
  - reflexivity.
  - left. reflexivity.
  - reflexivity.
Defined.

(** What that request stores and what getOrder then shows. *)
Example createOrder_four_widgets :
  exists db',
    createOrder (rt := DecimalRuntime.runtime) Sample.ledger 103 203
      (Js.str "1") (Js.num 4)
    = (db', Json 201 (Some "Order created successfully"%string)
              {| OrderCreated.order_id := 2;
                 OrderCreated.product_id := Js.str "1";
                 OrderCreated.product_name := "Widget";
                 OrderCreated.quantity := Js.num 4;
                 OrderCreated.total_price := Js.Fin (133 # 100);
                 OrderCreated.order_date := 203 |})
    /\ getOrder db' 2
       = (db', Json 200 None
                 {| OrderDetail.order_id := 2;
                    OrderDetail.product_id := Sql.Num 1;
                    OrderDetail.product_name := "Widget";
                    OrderDetail.unit_price := (333 # 1000)%Q;
                    OrderDetail.quantity := Sql.Num 4;
                    OrderDetail.total_price := ((333 # 1000) * 4)%Q;
                    OrderDetail.order_date := 103 |}).
Proof. eexists. split; reflexivity. Qed.

(* ================================================================= *)
(** ** Deleting *)

Lemma select_order_joined_absent (db : DB) (id : Z) :
  (forall o, In o (orders db) -> Orders.order_id o <> id) ->
  select_order_joined db id = None.
Proof.
  intros H. unfold select_order_joined. rewrite filter_none; [reflexivity|].
  intros [o p] Hin. apply in_orders_join_products in Hin.
  apply Z.eqb_neq. apply H. tauto.
Qed.

Lemma existsb_order_id (l : list Orders.row) (id : Z) :
  existsb (fun o => Orders.order_id o =? id) l = true
  <-> exists o, In o l /\ Orders.order_id o = id.
Proof.
  rewrite existsb_exists. split; intros (o & Ho & Hid); exists o;
    (split; [assumption|]); now apply Z.eqb_eq.
Qed.

(** X3: whatever deleteOrder answers, the store it returns has no order with
    that id (getOrder answers 404), keeps every other order and the whole
    catalog; the answer is 200 when an order had the id, and 404 with the
    store unchanged when none had. *)
Theorem deleteOrder_then_getOrder :
  forall (db : DB) (id : Z),
    exists db' r,
      deleteOrder db id = (db', r)
      /\ getOrder db' id = (db', Rejected 404 "Order not found")
      /\ products db' = products db
      /\ (forall o, In o (orders db') <->
                    In o (orders db) /\ Orders.order_id o <> id)
      /\ ((exists o, In o (orders db) /\ Orders.order_id o = id) ->
          r = Json 200 (Some "Order deleted successfully"%string) tt)
      /\ ((forall o, In o (orders db) -> Orders.order_id o <> id) ->
          r = Rejected 404 "Order not found" /\ db' = db).
Proof.
  intros db id. unfold deleteOrder.
  destruct (existsb (fun o => Orders.order_id o =? id) (orders db)) eqn:E.
  - eexists _, _. split; [reflexivity|].
    assert (forall o,
               In o (filter (fun o => negb (Orders.order_id o =? id)) (orders db))
               <-> In o (orders db) /\ Orders.order_id o <> id) as Hmem.
    { intros o. rewrite filter_In, negb_true_iff, Z.eqb_neq. reflexivity. }
    split; [|split; [reflexivity|split; [exact Hmem|split]]].
    + unfold getOrder. rewrite select_order_joined_absent; [reflexivity|].
      simpl. intros o Ho. now apply Hmem in Ho.
    + reflexivity.
    + intros Hnone. apply existsb_order_id in E.
      destruct E as (o & Ho & Hid). now apply Hnone in Ho.
  - assert (forall o, In o (orders db) -> Orders.order_id o <> id) as Hnone.
    { intros o Ho Hid.
      assert (existsb (fun o => Orders.order_id o =? id) (orders db) = true)
        by (apply existsb_order_id; eauto).
      congruence. }
    eexists _, _. split; [reflexivity|].
    split; [|split; [reflexivity|split; [|split]]].
    + unfold getOrder. now rewrite select_order_joined_absent.
    + intros o. split; [intros Ho; split; [assumption | now apply Hnone] | tauto].
    + intros (o & Ho & Hid). now apply Hnone in Ho.
    + intros _. now split.
Qed.

(** X4: deleting a Product that exists answers 200, removes the rows with
    its id and leaves the Orders table as it was: no cascade.  Each Order
    that referenced it is left dangling, so getOrder on it answers 404
    "Order not found", while the sales summary, which reads Orders alone,
    answers as before. *)
Theorem deleteProduct_orphans_orders {rt : Js.Runtime} :
  forall (db : DB) (p : Products.row),
    NoDup (map Orders.order_id (orders db)) ->
    In p (products db) ->
    exists db',
      deleteProduct db (Products.id p)
      = (db', Json 200 (Some "Product deleted successfully"%string) tt)
      /\ orders db' = orders db
      /\ getProduct db' (Products.id p)
         = (db', Rejected 404 "Product not found")
      /\ (forall p', In p' (products db') <->
                     In p' (products db) /\ Products.id p' <> Products.id p)
      /\ (forall o, In o (orders db) -> on_product o p = true ->
                    dangling db' o
                    /\ getOrder db' (Orders.order_id o)
                       = (db', Rejected 404 "Order not found"))
      /\ snd (salesSummary db') = snd (salesSummary db).
Proof.
  intros db p Hnd Hp. unfold deleteProduct.
  assert (existsb (fun r => Products.id r =? Products.id p) (products db) = true)
    as ->.
  { apply existsb_exists. exists p. split; [assumption | apply Z.eqb_refl]. }
  set (db' := {| products := filter (fun r => negb (Products.id r =? Products.id p))
                                    (products db);
                 orders := orders db;
                 products_seq := products_seq db;
                 orders_seq := orders_seq db |}).
  assert (forall p', In p' (products db') <->
                     In p' (products db) /\ Products.id p' <> Products.id p)
    as Hmem.
  { intros p'. simpl. rewrite filter_In, negb_true_iff, Z.eqb_neq. reflexivity. }
  exists db'. split; [reflexivity|]. split; [reflexivity|].
  split; [|split; [exact Hmem|split]].
  3: { unfold salesSummary.
       change (sales_summary_query db') with (sales_summary_query db).
       now destruct (sales_summary_query db). }
  - unfold getProduct.
    destruct (find _ (products db')) as [r|] eqn:E; [|reflexivity].
    apply find_some in E. destruct E as [Hr Hid].
    apply Hmem in Hr. apply Z.eqb_eq in Hid. tauto.
  - intros o Ho Hon.
    assert (dangling db' o) as Hd.
    { intros p' Hp'. apply Hmem in Hp'. destruct Hp' as [_ Hne].
      destruct (on_product o p') eqn:E; [|reflexivity].
      exfalso. apply Hne. symmetry. eapply on_product_same_id; eauto. }
    split; [exact Hd|].
    unfold getOrder.
    now rewrite (select_order_joined_dangling db' o Hnd Ho Hd).
Qed.

Lemma deleteProduct_orphans_orders_witness :
  exists db',
    deleteProduct Sample.ledger 1
    = (db', Json 200 (Some "Product deleted successfully"%string) tt)
    /\ orders db' = orders Sample.ledger
    /\ getProduct db' 1 = (db', Rejected 404 "Product not found")
    /\ (forall p', In p' (products db') <->
                   In p' (products Sample.ledger) /\ Products.id p' <> 1)
    /\ (forall o, In o (orders Sample.ledger) ->
                  on_product o
                    {| Products.id := 1; Products.name := "Widget";
                       Products.price := (333 # 1000)%Q;
                       Products.created_at := 100 |} = true ->
                  dangling db' o
                  /\ getOrder db' (Orders.order_id o)
                     = (db', Rejected 404 "Order not found"))
    /\ snd (salesSummary (rt := DecimalRuntime.runtime) db')
       = snd (salesSummary (rt := DecimalRuntime.runtime) Sample.ledger).
Proof.
  apply (deleteProduct_orphans_orders (rt := DecimalRuntime.runtime)
           Sample.ledger
           {| Products.id := 1; Products.name := "Widget";
              Products.price := (333 # 1000)%Q; Products.created_at := 100 |}).
  - repeat constructor. simpl. tauto.
  - left. reflexivity.
Defined.

(* ================================================================= *)
(** ** A ledger without orders *)

Lemma left_join_no_orders (db : DB) (r : Products.row * option Orders.row) :
  orders db = [] -> In r (products_left_join_orders db) -> snd r = None.
Proof.
  intros Ho. unfold products_left_join_orders. rewrite Ho, in_flat_map.
  intros (p & _ & [<-|[]]). reflexivity.
Qed.

Lemma group_no_orders (db : DB) (g : Products.row * list (option Orders.row)) :
  orders db = [] ->
  In g (group_by_product (products_left_join_orders db)) ->
  Forall (fun x => x = None) (snd g).
Proof.
  intros Ho Hg. unfold group_by_product in Hg. apply in_map_iff in Hg.
  destruct Hg as (k & <- & _). simpl. rewrite Forall_map. apply Forall_forall.
  intros r Hr. apply filter_In in Hr. destruct Hr as [Hr _].
  now apply (left_join_no_orders db r Ho).
Qed.

Section NoOrders.
Context {rt : Js.Runtime}.

Lemma top_seller_row_no_orders (g : Products.row * list (option Orders.row)) :
  Forall (fun x => x = None) (snd g) ->
  exists row, top_seller_row g = Sql.Ok row
              /\ TopSellerRow.total_quantity_sold row = None.
Proof.
  destruct g as [p os]. simpl. intros Hnone. unfold top_seller_row.
  rewrite sum_null; [eexists; split; reflexivity|].
  rewrite Forall_map. revert Hnone. apply Forall_impl. now intros x ->.
Qed.

Lemma top_sellers_query_no_orders (db : DB) :
  orders db = [] -> top_sellers_query db = Sql.Ok [].
Proof.
  intros Ho. unfold top_sellers_query.
  destruct (all_ok_map top_seller_row
              (group_by_product (products_left_join_orders db)))
    as [(rows & -> & Hall) | (g & e & Hg & He & _)].
  - rewrite filter_none; [reflexivity|].
    intros row Hrow.
    destruct (Forall2_in_right _ _ _ row Hall Hrow) as (g & Hg & Hrow').
    destruct (top_seller_row_no_orders g (group_no_orders db g Ho Hg))
      as (row' & Hr & Hnone).
    assert (row = row') by congruence. subst row'. now rewrite Hnone.
  - destruct (top_seller_row_no_orders g (group_no_orders db g Ho Hg))
      as (row' & Hr & _).
    congruence.
Qed.
End NoOrders.

(** X5: deleteAllOrders always answers 200, with the number of Order rows it
    removed in its message, empties the Orders table and keeps the catalog
    and the AUTOINCREMENT counters; right after it listOrders and topSellers
    list nothing and the sales summary is all zeros. *)
Theorem deleteAllOrders_empties_ledger {rt : Js.Runtime} :
  forall db : DB,
    exists db',
      deleteAllOrders db
      = (db', Json 200
                (Some ("All orders deleted successfully ("
                         ++ count_digits (List.length (orders db))
                         ++ " records removed)")%string) tt)
      /\ orders db' = []
      /\ products db' = products db
      /\ orders_seq db' = orders_seq db
      /\ listOrders db' = (db', Json 200 None (listing []))
      /\ topSellers db'
         = (db', Json 200
                   (Some "Top 5 best-selling products retrieved successfully"%string)
                   (listing []))
      /\ salesSummary db'
         = (db', Json 200 (Some "Sales summary retrieved successfully"%string)
                   {| SalesSummary.total_orders := 0;
                      SalesSummary.total_items_sold := 0%Q;
                      SalesSummary.total_revenue := 0%Q;
                      SalesSummary.average_order_value := 0%Q;
                      SalesSummary.first_order_date := None;
                      SalesSummary.last_order_date := None |}).
Proof.
  intros db. eexists. split; [reflexivity|]. simpl.
  repeat split.
  unfold topSellers. now rewrite top_sellers_query_no_orders.
Qed.

(** The message of the unit test: five rows removed. *)
Example count_digits_5 : count_digits 5 = "5"%string.
Proof. reflexivity. Qed.

(* ================================================================= *)
(** ** Unknown ids and unknown products *)

Lemma find_absent {A : Type} (f : A -> bool) (l : list A) :
  (forall x, In x l -> f x = false) -> find f l = None.
Proof.
  intros H. destruct (find f l) as [x|] eqn:E; [|reflexivity].
  apply find_some in E. destruct E as [Hx Hf]. rewrite (H x Hx) in Hf.
  discriminate.
Qed.

Lemma existsb_absent {A : Type} (f : A -> bool) (l : list A) :
  (forall x, In x l -> f x = false) -> existsb f l = false.
Proof.
  intros H. destruct (existsb f l) eqn:E; [|reflexivity].
  apply existsb_exists in E. destruct E as (x & Hx & Hf).
  rewrite (H x Hx) in Hf. discriminate.
Qed.

(** X6: for an id that no Product row has, getProduct and deleteProduct
    answer 404 "Product not found", and so does updateProduct for every
    input that passes validation; for an id that no Order row has,
    getOrder, deleteOrder and (for a valid quantity) updateOrder answer 404
    "Order not found".  None of them changes the store. *)
Theorem unknown_id_not_found {rt : Js.Runtime} :
  forall (db : DB) (id : Z),
    ((forall p, In p (products db) -> Products.id p <> id) ->
     getProduct db id = (db, Rejected 404 "Product not found")
     /\ deleteProduct db id = (db, Rejected 404 "Product not found")
     /\ forall name price,
          Js.not name || Js.not price = false ->
          Js.isNaN price || Js.le0 price = false ->
          updateProduct db id name price
          = (db, Rejected 404 "Product not found"))
    /\
    ((forall o, In o (orders db) -> Orders.order_id o <> id) ->
     getOrder db id = (db, Rejected 404 "Order not found")
     /\ deleteOrder db id = (db, Rejected 404 "Order not found")
     /\ forall quantity,
          Js.not quantity = false ->
          Js.isNaN quantity || Js.le0 quantity = false ->
          updateOrder db id quantity
          = (db, Rejected 404 "Order not found")).
Proof.
  intros db id. split.
  - intros Hnone.
    assert (forall p, In p (products db) -> (Products.id p =? id) = false) as Hf
      by (intros p Hp; apply Z.eqb_neq; now apply Hnone).
    split; [|split].
    + unfold getProduct. now rewrite find_absent.
    + unfold deleteProduct. now rewrite existsb_absent.
    + intros name price Hreq Hval. unfold updateProduct, update_product.
      rewrite Hreq, Hval, (filter_none _ _ Hf). reflexivity.
  - intros Hnone.
    assert (forall o, In o (orders db) -> (Orders.order_id o =? id) = false) as Hf
      by (intros o Ho; apply Z.eqb_neq; now apply Hnone).
    pose proof (select_order_joined_absent db id Hnone) as Hsel.
    split; [|split].
    + unfold getOrder. now rewrite Hsel.
    + unfold deleteOrder. now rewrite existsb_absent.
    + intros quantity Hreq Hval. unfold updateOrder.
      now rewrite Hreq, Hval, Hsel.
Qed.

Lemma unknown_id_not_found_witness :
  getProduct Sample.ledger 7 = (Sample.ledger, Rejected 404 "Product not found")
  /\ deleteProduct Sample.ledger 7
     = (Sample.ledger, Rejected 404 "Product not found")
  /\ forall name price,
       Js.not name || Js.not price = false ->
       Js.isNaN (rt := DecimalRuntime.runtime) price
       || Js.le0 (rt := DecimalRuntime.runtime) price = false ->
       updateProduct (rt := DecimalRuntime.runtime) Sample.ledger 7 name price
       = (Sample.ledger, Rejected 404 "Product not found").
Proof.
  apply (proj1 (unknown_id_not_found (rt := DecimalRuntime.runtime)
                  Sample.ledger 7)).
  intros p [<-|[]]. discriminate.
Defined.

(** X7: a createOrder request with a positive quantity and a numeric,
    non-zero product id that no Product row has is answered 404
    "Product not found" and stores nothing. *)
Theorem createOrder_unknown_product {rt : Js.Runtime} :
  forall (db : DB) (now js_now k : Z) (q : Q),
    k <> 0 ->
    (0 < q)%Q ->
    (forall p, In p (products db) -> Products.id p <> k) ->
    createOrder db now js_now (Js.num (inject_Z k)) (Js.num q)
    = (db, Rejected 404 "Product not found").
Proof.
  intros db now js_now k q Hk Hq Hnone.
  unfold createOrder, select_product.
  rewrite (not_positive q Hq), isNaN_num, (le0_positive q Hq).
  assert (Js.not (Js.num (inject_Z k)) = false) as ->.
  { unfold Js.not, Js.truthy.
    destruct (Qeq_bool (inject_Z k) 0) eqn:E; [|reflexivity].
    apply Qeq_bool_iff in E. unfold Qeq in E. simpl in E. lia. }
  simpl. rewrite find_absent; [reflexivity|].
  intros p Hp. destruct (Qeq_bool _ _) eqn:E; [|reflexivity].
  apply Qeq_bool_iff in E. unfold Qeq in E. simpl in E.
  specialize (Hnone p Hp). lia.
Qed.

Lemma createOrder_unknown_product_witness :
  createOrder (rt := DecimalRuntime.runtime) Sample.ledger 103 203
    (Js.num (inject_Z 99999)) (Js.num 1)
  = (Sample.ledger, Rejected 404 "Product not found").
Proof.
  apply (createOrder_unknown_product (rt := DecimalRuntime.runtime)
           Sample.ledger 103 203 99999 1).
  - discriminate.
  - reflexivity.
  - intros p [<-|[]]. discriminate.
Defined.

(** X8: updateOrder checks the quantity before it looks the order up: for
    any id, existing or not, a quantity that is missing, null, the number 0
    or the empty string is answered 400 "Quantity is required", and one that
    is a negative number, or a non-empty string that is not a number or is a
    number at most 0, is answered 400 "Quantity must be greater than 0"; the
    store is unchanged. *)
Theorem updateOrder_invalid_quantity {rt : Js.Runtime} :
  forall (db : DB) (id : Z) (quantity : Js.value),
    (quantity = Js.undefined \/ quantity = Js.null \/ quantity = Js.str ""
     \/ (exists q, quantity = Js.num q /\ (q == 0)%Q) ->
     updateOrder db id quantity = (db, Rejected 400 "Quantity is required"))
    /\
    ((exists q, quantity = Js.num q /\ (q < 0)%Q)
     \/ (exists s, quantity = Js.str s /\ s <> ""%string
                    /\ (Js.StringToNumber s = Js.NaN
                        \/ exists q, Js.StringToNumber s = Js.Fin q
                                     /\ (q <= 0)%Q)) ->
     updateOrder db id quantity
     = (db, Rejected 400 "Quantity must be greater than 0")).
Proof.
  intros db id quantity. split.
  - intros [-> | [-> | [-> | (q & -> & Hq)]]]; try reflexivity.
    unfold updateOrder. now rewrite (not_zero q Hq).
  - intros [(q & -> & Hq) | (s & -> & Hs & Hnum)]; unfold updateOrder.
    + assert (Js.not (Js.num q) = false) as ->.
      { unfold Js.not, Js.truthy.
        destruct (Qeq_bool q 0) eqn:E; [|reflexivity].
        apply Qeq_bool_iff in E. rewrite E in Hq. now apply Qlt_irrefl in Hq. }
      rewrite (le0_nonpositive (Js.num q) q eq_refl (Qlt_le_weak _ _ Hq)).
      reflexivity.
    + assert (Js.not (Js.str s) = false) as ->.
      { unfold Js.not, Js.truthy.
        destruct (String.eqb s "") eqn:E; [|reflexivity].
        now apply String.eqb_eq in E. }
      destruct Hnum as [Hnan | (q & Hq & Hle)].
      * unfold Js.isNaN. simpl. now rewrite Hnan.
      * rewrite (le0_nonpositive (Js.str s) q Hq Hle). now rewrite orb_true_r.
Qed.

Lemma updateOrder_invalid_quantity_witness :
  updateOrder (rt := DecimalRuntime.runtime) Sample.ledger 1 (Js.str "-2")
  = (Sample.ledger, Rejected 400 "Quantity must be greater than 0").
Proof.
  apply (proj2 (updateOrder_invalid_quantity (rt := DecimalRuntime.runtime)
                  Sample.ledger 1 (Js.str "-2"))).
  right. exists "-2"%string. split; [reflexivity|]. split; [discriminate|].
  right. exists (-2)%Q. split; [reflexivity|]. discriminate.
Defined.

(* ================================================================= *)
(** ** Listing the products *)

Lemma product_geb_total (p1 p2 : Products.row) :
  product_geb p1 p2 = true \/ product_geb p2 p1 = true.
Proof. unfold product_geb. rewrite !Z.leb_le. lia. Qed.

Lemma product_geb_trans (p1 p2 p3 : Products.row) :
  product_geb p1 p2 = true -> product_geb p2 p3 = true ->
  product_geb p1 p3 = true.
Proof. unfold product_geb. rewrite !Z.leb_le. lia. Qed.

(** X9: listProducts answers with every Product row, each as many times as
    the table holds it, in descending order of id, and a count equal to the
    number of rows of the table. *)
Theorem listProducts_all_descending :
  forall db : DB,
    exists l,
      listProducts db
      = (db, Json 200 None {| rows := l; count := List.length (products db) |})
      /\ Permutation (products db) l
      /\ StronglySorted (fun i j => j <= i) (map Products.id l).
Proof.
  intros db. unfold listProducts, listing.
  pose proof (order_by_desc_perm product_geb (products db)) as Hperm.
  exists (order_by_desc product_geb (products db)).
  split; [|split].
  - now rewrite <- (Permutation_length Hperm).
  - exact Hperm.
  - apply StronglySorted_map.
    eapply StronglySorted_weaken;
      [|apply (order_by_desc_sorted product_geb product_geb_total
                 product_geb_trans)].
    intros p1 p2 H. now apply Z.leb_le in H.
Qed.

(* ================================================================= *)
(** ** The sales summary of a ledger with orders *)

Lemma sql_sum_real_present (xs : list Q) :
  xs <> [] -> exists s, sql_sum_real (map Some xs) = Some s /\ (s == total xs)%Q.
Proof.
  intros Hne. pose proof (sql_sum_real_values xs) as H.
  destruct (sql_sum_real (map Some xs)) as [s|] eqn:E.
  - exists s. split; [reflexivity | exact H].
  - apply sql_sum_real_null in E. destruct xs; [contradiction|].
    inversion E; discriminate.
Qed.

Lemma sql_count_present {A : Type} (xs : list A) :
  sql_count (map Some xs) = Z.of_nat (List.length xs).
Proof.
  induction xs as [|x xs IH]; [reflexivity|].
  change (1 + sql_count (map Some xs) = Z.of_nat (S (List.length xs))).
  rewrite IH. lia.
Qed.

Lemma sql_min_present (xs : list Z) :
  xs <> [] ->
  exists m, sql_min (map Some xs) = Some m /\ In m xs
            /\ forall x, In x xs -> m <= x.
Proof.
  induction xs as [|x xs IH]; intros Hne; [contradiction|]. simpl.
  destruct xs as [|y ys].
  - exists x. simpl. repeat split; [now left|]. intros z [<-|[]]. lia.
  - destruct IH as (m & -> & Hin & Hle); [discriminate|].
    exists (Z.min x m). split; [reflexivity|]. split.
    + destruct (Z.min_spec x m) as [[_ ->]|[_ ->]]; [now left | now right].
    + intros z [<-|Hz]; [lia|]. specialize (Hle z Hz). lia.
Qed.

Lemma sql_max_present (xs : list Z) :
  xs <> [] ->
  exists m, sql_max (map Some xs) = Some m /\ In m xs
            /\ forall x, In x xs -> x <= m.
Proof.
  induction xs as [|x xs IH]; intros Hne; [contradiction|]. simpl.
  destruct xs as [|y ys].
  - exists x. simpl. repeat split; [now left|]. intros z [<-|[]]. lia.
  - destruct IH as (m & -> & Hin & Hle); [discriminate|].
    exists (Z.max x m). split; [reflexivity|]. split.
    + destruct (Z.max_spec x m) as [[_ ->]|[_ ->]]; [now right | now left].
    + intros z [<-|Hz]; [lia|]. specialize (Hle z Hz). lia.
Qed.

Lemma or0_value (s : Q) : (or0 (Some s) == s)%Q.
Proof.
  unfold or0. destruct (Qeq_bool s 0) eqn:E; [|reflexivity].
  apply Qeq_bool_iff in E. now rewrite E.
Qed.

Lemma fixed2_or0_value (s : Q) : fixed2_or0 (Some s) = Js.toFixed2 s.
Proof.
  unfold fixed2_or0. destruct (Qeq_bool s 0) eqn:E; [|reflexivity].
  apply Qeq_bool_iff in E. now rewrite (toFixed2_comp s 0 E).
Qed.

Section Summed.
Context {rt : Js.Runtime}.

(** SUM(quantity) over a ledger whose integer quantities fit. *)
Lemma sum_quantities (os : list Orders.row) :
  os <> [] -> quantities_fit os ->
  exists s, Sql.sum (map (fun o => Some (Orders.quantity o)) os) = Sql.Ok (Some s)
            /\ (s == total (quantities os))%Q.
Proof.
  intros Hne Hfit. unfold quantities_fit in Hfit.
  rewrite <- (map_map Orders.quantity Some os).
  rewrite <- (map_map Orders.quantity magnitude os) in Hfit.
  destruct (sum_present_fits _ Hfit) as (r & Hr).
  destruct (sum_present _ _ Hr) as [Hv Hn].
  destruct r as [s|].
  - exists s. split; [exact Hr|]. unfold quantities.
    rewrite <- (map_map Orders.quantity Sql.value os). exact Hv.
  - exfalso. apply Hn; [|reflexivity]. intros H. apply map_eq_nil in H.
    contradiction.
Qed.
End Summed.

(** X11: on a ledger with at least one Order, whose 64-bit integer
    quantities add up to at most 2^63 - 1, the sales summary answers 200 and
    reports the number of Orders, the sum of their quantities, the sum of
    their total prices rounded to 2 decimals, that sum divided by the
    number of Orders rounded to 2 decimals, and as first and last date the
    earliest and the latest order_date of the table. *)
Theorem salesSummary_of_orders {rt : Js.Runtime} :
  forall db : DB,
    NoDup (map Orders.order_id (orders db)) ->
    orders db <> [] ->
    quantities_fit (orders db) ->
    exists items first last,
      salesSummary db
      = (db, Json 200 (Some "Sales summary retrieved successfully"%string)
               {| SalesSummary.total_orders :=
                    Z.of_nat (List.length (orders db));
                  SalesSummary.total_items_sold := items;
                  SalesSummary.total_revenue :=
                    Js.toFixed2 (total (map Orders.total_price (orders db)));
                  SalesSummary.average_order_value :=
                    Js.toFixed2
                      (total (map Orders.total_price (orders db))
                       / inject_Z (Z.of_nat (List.length (orders db))));
                  SalesSummary.first_order_date := Some first;
                  SalesSummary.last_order_date := Some last |})
      /\ (items == total (quantities (orders db)))%Q
      /\ In first (map Orders.order_date (orders db))
      /\ In last (map Orders.order_date (orders db))
      /\ forall o, In o (orders db) ->
                   first <= Orders.order_date o <= last.
Proof.
  intros db Hnd Hne Hfit. unfold salesSummary, sales_summary_query.
  assert (forall (A : Type) (f : Orders.row -> A),
             map f (orders db) <> []) as Hmap
    by (intros A f H; apply map_eq_nil in H; contradiction).
  destruct (sum_quantities (orders db) Hne Hfit) as (sq & -> & Hq).
  rewrite <- (map_map Orders.total_price Some (orders db)),
          <- (map_map Orders.order_date Some (orders db)).
  destruct (sql_sum_real_present _ (Hmap _ Orders.total_price)) as (st & Hst & Ht).
  destruct (sql_min_present _ (Hmap _ Orders.order_date)) as (m & Hm & Hmin & Hmle).
  destruct (sql_max_present _ (Hmap _ Orders.order_date)) as (M & HM & Hmax & HMle).
  unfold sql_avg. rewrite Hst, Hm, HM, sql_count_present.
  unfold count_distinct. rewrite (nodup_fixed_point Z.eq_dec Hnd).
  rewrite !length_map.
  cbn [SalesSummaryRow.total_orders SalesSummaryRow.total_items_sold
       SalesSummaryRow.total_revenue SalesSummaryRow.average_order_value
       SalesSummaryRow.first_order_date SalesSummaryRow.last_order_date].
  rewrite !fixed2_or0_value.
  rewrite (toFixed2_comp st _ Ht).
  rewrite (toFixed2_comp (st / inject_Z (Z.of_nat (List.length (orders db))))
             (total (map Orders.total_price (orders db))
              / inject_Z (Z.of_nat (List.length (orders db)))))
    by now rewrite Ht.
  assert ((if Z.of_nat (List.length (orders db)) =? 0 then 0
           else Z.of_nat (List.length (orders db)))
          = Z.of_nat (List.length (orders db))) as ->.
  { destruct (Z.of_nat (List.length (orders db)) =? 0) eqn:E; [|reflexivity].
    apply Z.eqb_eq in E. now rewrite E. }
  exists (or0 (Some sq)), m, M. split; [reflexivity|].
  split; [eapply Qeq_trans; [apply or0_value | exact Hq]|].
  repeat split; try assumption.
  - apply Hmle. now apply in_map.
  - apply HMle. now apply in_map.
Qed.

Lemma salesSummary_of_orders_witness :
  exists items first last,
    salesSummary (rt := DecimalRuntime.runtime) Sample.ledger
    = (Sample.ledger,
       Json 200 (Some "Sales summary retrieved successfully"%string)
         {| SalesSummary.total_orders :=
              Z.of_nat (List.length (orders Sample.ledger));
            SalesSummary.total_items_sold := items;
            SalesSummary.total_revenue :=
              Js.toFixed2 (total (map Orders.total_price (orders Sample.ledger)));
            SalesSummary.average_order_value :=
              Js.toFixed2
                (total (map Orders.total_price (orders Sample.ledger))
                 / inject_Z (Z.of_nat (List.length (orders Sample.ledger))));
            SalesSummary.first_order_date := Some first;
            SalesSummary.last_order_date := Some last |})
    /\ (items == total (quantities (rt := DecimalRuntime.runtime)
                          (orders Sample.ledger)))%Q
    /\ In first (map Orders.order_date (orders Sample.ledger))
    /\ In last (map Orders.order_date (orders Sample.ledger))
    /\ forall o, In o (orders Sample.ledger) ->
                 first <= Orders.order_date o <= last.
Proof.
  apply (salesSummary_of_orders (rt := DecimalRuntime.runtime) Sample.ledger).
  - repeat constructor. simpl. tauto.
  - discriminate.
  - vm_compute. discriminate.
Defined.

(** The summary of that ledger: one order of three Widgets at 0.333. *)
Example salesSummary_ledger :
  salesSummary (rt := DecimalRuntime.runtime) Sample.ledger
  = (Sample.ledger,
     Json 200 (Some "Sales summary retrieved successfully"%string)
       {| SalesSummary.total_orders := 1;
          SalesSummary.total_items_sold := 3%Q;
          SalesSummary.total_revenue := 1%Q;
          SalesSummary.average_order_value := 1%Q;
          SalesSummary.first_order_date := Some 101;
          SalesSummary.last_order_date := Some 101 |}).
Proof. vm_compute. reflexivity. Qed.

(* ================================================================= *)
(** ** The sales summary of a ledger whose quantities overflow *)

Lemma as_int64_whole (z : Z) :
  Sql.in_int64 z = true -> Sql.as_int64 (inject_Z z) = Some z.
Proof.
  intros Hz. unfold Sql.as_int64. rewrite Qfloor_Z, Hz.
  assert (Qeq_bool (inject_Z z) (inject_Z z) = true) as ->
    by (apply Qeq_bool_iff; reflexivity).
  reflexivity.
Qed.

Section Overflow.
Context {rt : Js.Runtime}.

(** Adding positive 64-bit integers raises the overflow flag as soon as
    their sum leaves 64 bits, and nothing lowers it. *)
Lemma sum_add_overflows (cs : list Sql.cell) (i : Z) :
  0 <= i <= Sql.max_int64 ->
  Forall (fun c => exists z, c = Sql.Num (inject_Z z)
                             /\ 0 < z <= Sql.max_int64) cs ->
  Sql.max_int64 < i + fold_right Z.add 0 (map magnitude cs) ->
  fold_left Sql.sum_add cs (Sql.Exact i) = Sql.Overflowed.
Proof.
  revert i. induction cs as [|c cs IH]; intros i Hi Hall Hsum.
  - simpl in Hsum. lia.
  - inversion Hall as [|? ? (z & -> & Hz) Hcs]; subst.
    change (fold_left Sql.sum_add (Sql.Num (inject_Z z) :: cs) (Sql.Exact i))
      with (fold_left Sql.sum_add cs
              (Sql.sum_add (Sql.Exact i) (Sql.Num (inject_Z z)))).
    assert (Sql.in_int64 z = true) as Hin.
    { unfold Sql.in_int64. rewrite min_int64_value.
      rewrite max_int64_value in Hz.
      apply andb_true_iff. rewrite !Z.leb_le, max_int64_value. lia. }
    cbn [Sql.sum_add]. rewrite (as_int64_whole z Hin).
    simpl in Hsum. rewrite (as_int64_whole z Hin) in Hsum.
    destruct (Sql.in_int64 (i + z)) eqn:E.
    + apply IH; [|assumption|lia].
      unfold Sql.in_int64 in E. apply andb_true_iff in E.
      rewrite !Z.leb_le in E. lia.
    + apply sum_add_overflowed.
Qed.
End Overflow.

(** X10: on a ledger whose quantities are all positive 64-bit integers and
    add up to more than 2^63 - 1, SUM(quantity) overflows and the sales
    summary answers 500 with the error of the query, "integer overflow";
    it reports nothing and leaves the store as it was. *)
Theorem salesSummary_integer_overflow {rt : Js.Runtime} :
  forall db : DB,
    (forall o, In o (orders db) ->
               exists z, Orders.quantity o = Sql.Num (inject_Z z)
                         /\ 0 < z <= Sql.max_int64) ->
    ~ quantities_fit (orders db) ->
    salesSummary db = (db, ReportFailure "SQLITE_ERROR: integer overflow").
Proof.
  intros db Hall Hno. unfold salesSummary, sales_summary_query.
  assert (Sql.sum (map (fun o => Some (Orders.quantity o)) (orders db))
          = Sql.Error Sql.integer_overflow) as ->; [|reflexivity].
  unfold quantities_fit in Hno.
  rewrite <- (map_map Orders.quantity Some (orders db)).
  rewrite <- (map_map Orders.quantity magnitude (orders db)) in Hno.
  assert (Forall (fun c => exists z, c = Sql.Num (inject_Z z)
                                     /\ 0 < z <= Sql.max_int64)
                 (map Orders.quantity (orders db))) as Hcs.
  { rewrite Forall_map. apply Forall_forall. exact Hall. }
  destruct (map Orders.quantity (orders db)) as [|c cs].
  - exfalso. apply Hno. simpl. rewrite max_int64_value. lia.
  - unfold Sql.sum. rewrite sum_step_cons.
    rewrite (sum_add_overflows (c :: cs) 0); [reflexivity| |exact Hcs|lia].
    rewrite max_int64_value. lia.
Qed.

Lemma salesSummary_integer_overflow_witness :
  salesSummary (rt := DecimalRuntime.runtime) Sample.overflowing
  = (Sample.overflowing, ReportFailure "SQLITE_ERROR: integer overflow").
Proof.
  apply (salesSummary_integer_overflow (rt := DecimalRuntime.runtime)
           Sample.overflowing).
  - intros o [<-|[<-|[]]]; exists 5000000000000000000;
      (split; [reflexivity | split; reflexivity || discriminate]).
  - vm_compute. intros H. apply H. reflexivity.
Defined.

(* ================================================================= *)
(** ** Who is among the top sellers *)

Lemma Forall2_filter {A B : Type} (R : A -> B -> Prop) (f : A -> bool)
    (g : B -> bool) (l : list A) (l' : list B) :
  (forall x y, R x y -> f x = g y) ->
  Forall2 R l l' -> Forall2 R (filter f l) (filter g l').
Proof.
  intros Hfg. induction 1 as [|x y l l' Hxy Hall IH]; simpl; [constructor|].
  rewrite (Hfg x y Hxy). destruct (g y); [now constructor | exact IH].
Qed.

Section Sellers.
Context {rt : Js.Runtime}.

(** HAVING keeps a product exactly when it sold something. *)
Lemma having_sold (db : DB) (p : Products.row) (row : TopSellerRow.t) :
  top_seller_row (p, left_rows db p) = Sql.Ok row ->
  sold db p = sql_gt0 (TopSellerRow.total_quantity_sold row).
Proof.
  intros Hrow. apply top_seller_row_of in Hrow.
  destruct Hrow as (_ & _ & _ & H & _). unfold sold.
  destruct (TopSellerRow.total_quantity_sold row) as [q|]; simpl in *.
  - now rewrite (Qleb_comp _ _ H 0%Q 0%Q (Qeq_refl 0%Q)).
  - now rewrite <- (Qleb_comp _ _ H 0%Q 0%Q (Qeq_refl 0%Q)).
Qed.
End Sellers.

(** X12: when the 64-bit integer quantities of each Product's Orders add up
    to at most 2^63 - 1 and at most 5 Products sold something, topSellers
    answers 200 and lists every one of them and nothing else, each with its
    name, its price rounded to 2 decimals, the quantity it sold over all
    its Orders, the number of those Orders and their revenue rounded to 2
    decimals. *)
Theorem topSellers_lists_every_seller {rt : Js.Runtime} :
  forall db : DB,
    NoDup (map Products.id (products db)) ->
    (forall p, In p (products db) -> quantities_fit (orders_of db p)) ->
    (List.length (filter (sold db) (products db)) <= 5)%nat ->
    exists l,
      topSellers db
      = (db, Json 200
               (Some "Top 5 best-selling products retrieved successfully"%string)
               {| rows := l; count := List.length l |})
      /\ Permutation (map TopSeller.id l)
                     (map Products.id (filter (sold db) (products db)))
      /\ forall p, In p (products db) -> sold db p = true ->
           exists q,
             (q == quantity_sold db p)%Q
             /\ In {| TopSeller.id := Products.id p;
                      TopSeller.name := Products.name p;
                      TopSeller.price := Js.toFixed2 (Products.price p);
                      TopSeller.total_quantity_sold := Some q;
                      TopSeller.number_of_orders :=
                        Z.of_nat (List.length (orders_of db p));
                      TopSeller.total_revenue :=
                        Js.toFixed2 (revenue_of db p) |} l.
Proof.
  intros db Hnd Hfit Hfive. unfold topSellers, top_sellers_query.
  destruct (report_rows top_seller_row db Hnd top_seller_row_error)
    as [(X & -> & HX) | (_ & p & Hp & Hno)];
    [|exfalso; apply Hno; now apply Hfit].
  pose proof (Forall2_filter _ (sold db)
                (fun r => sql_gt0 (TopSellerRow.total_quantity_sold r))
                _ _ (having_sold db) HX) as HF.
  set (kept := filter (fun r => sql_gt0 (TopSellerRow.total_quantity_sold r)) X)
    in *.
  pose proof (order_by_desc_perm top_seller_geb kept) as Hperm.
  rewrite firstn_all2
    by (rewrite <- (Permutation_length Hperm), <- (Forall2_length HF);
        exact Hfive).
  destruct (map_throwing_total top_seller (order_by_desc top_seller_geb kept))
    as (l & -> & Hall).
  { intros row Hrow. apply (top_five_revenue db X).
    - exact HX.
    - fold kept. rewrite firstn_all2; [exact Hrow|].
      rewrite <- (Permutation_length Hperm), <- (Forall2_length HF).
      exact Hfive. }
  exists l. split; [reflexivity|]. split.
  - assert (map TopSeller.id l
            = map TopSellerRow.id (order_by_desc top_seller_geb kept)) as ->
      by (eapply Forall2_map_eq; [|exact Hall];
          intros x y Hxy; now apply top_seller_keeps in Hxy).
    rewrite <- (Permutation_map TopSellerRow.id Hperm).
    rewrite (Forall2_map_eq _ _ Products.id _ _
               (fun p row H => proj1 (top_seller_row_of db p row H)) HF).
    reflexivity.
  - intros p Hp Hsold.
    assert (In p (filter (sold db) (products db))) as Hpf
      by (apply filter_In; now split).
    destruct (Forall2_in_left _ _ _ p HF Hpf) as (row & Hrow & Hof).
    pose proof (having_sold db p row Hof) as Hhave. rewrite Hsold in Hhave.
    symmetry in Hhave. apply sql_gt0_positive in Hhave.
    destruct Hhave as (q & Hq & _).
    apply top_seller_row_of in Hof.
    destruct Hof as (Hid & Hname & Hprice & Hsum & _ & Hcount & Hrev & _).
    apply (Permutation_in _ Hperm) in Hrow.
    destruct (Forall2_in_left _ _ _ row Hall Hrow) as (r & Hr & Htop).
    unfold top_seller in Htop.
    destruct (TopSellerRow.total_revenue row) as [rev|]; [|discriminate].
    injection Htop as <-.
    rewrite Hq in Hsum. simpl in Hsum, Hrev.
    exists q. split; [exact Hsum|].
    rewrite Hid, Hname, Hprice, Hq, Hcount, (toFixed2_comp _ _ Hrev) in Hr.
    exact Hr.
Qed.

Lemma topSellers_lists_every_seller_witness :
  exists l,
    topSellers (rt := DecimalRuntime.runtime) Sample.two_products
    = (Sample.two_products,
       Json 200 (Some "Top 5 best-selling products retrieved successfully"%string)
            {| rows := l; count := List.length l |})
    /\ Permutation (map TopSeller.id l)
                   (map Products.id
                        (filter (sold (rt := DecimalRuntime.runtime)
                                   Sample.two_products)
                                (products Sample.two_products)))
    /\ forall p, In p (products Sample.two_products) ->
         sold (rt := DecimalRuntime.runtime) Sample.two_products p = true ->
         exists q,
           (q == quantity_sold (rt := DecimalRuntime.runtime)
                   Sample.two_products p)%Q
           /\ In {| TopSeller.id := Products.id p;
                    TopSeller.name := Products.name p;
                    TopSeller.price := Js.toFixed2 (Products.price p);
                    TopSeller.total_quantity_sold := Some q;
                    TopSeller.number_of_orders :=
                      Z.of_nat (List.length (orders_of Sample.two_products p));
                    TopSeller.total_revenue :=
                      Js.toFixed2 (revenue_of Sample.two_products p) |} l.
Proof.
  apply (topSellers_lists_every_seller (rt := DecimalRuntime.runtime)
           Sample.two_products).
  - repeat constructor; simpl; intuition discriminate.
  - intros p [<-|[<-|[]]]; vm_compute; discriminate.
  - vm_compute. lia.
Defined.

(* ================================================================= *)
(** ** What every stored row satisfies *)

Section Kept.
Context {rt : Js.Runtime}.

(** A quantity that passed both guards and is bound as the number they
    tested is bound as a number above 0. *)
Lemma valid_quantity_bound (quantity : Js.value) :
  Js.isNaN quantity || Js.le0 quantity = false ->
  (forall x, Js.ToNumber quantity = Js.Fin x ->
             bind_numeric quantity = Some (Sql.Num x)) ->
  exists x, Js.ToNumber quantity = Js.Fin x
            /\ bind_numeric quantity = Some (Sql.Num x) /\ (0 < x)%Q.
Proof.
  intros Hval Hsame. apply orb_false_iff in Hval. destruct Hval as [Hnan Hle].
  unfold Js.isNaN in Hnan. unfold Js.le0 in Hle.
  destruct (Js.ToNumber quantity) as [|x] eqn:Hx; [discriminate|].
  exists x. split; [reflexivity|]. split; [now apply Hsame|].
  apply Qnot_le_lt. intros H. apply Qle_bool_iff in H. congruence.
Qed.

(** X13: createOrder and updateOrder keep every stored quantity a number
    above 0 for a request whose quantity SQLite binds as the number the
    guards tested (every JSON number; a string only when SQLite reads it as
    the number JavaScript reads it as); the deletions remove rows and the
    product handlers leave the Orders alone, for every request. *)
Theorem positive_quantities_kept :
  forall db : DB,
    positive_quantities db ->
    (forall now js_now product_id quantity,
        (forall x, Js.ToNumber quantity = Js.Fin x ->
                   bind_numeric quantity = Some (Sql.Num x)) ->
        positive_quantities
          (fst (createOrder db now js_now product_id quantity)))
    /\ (forall id quantity,
           (forall x, Js.ToNumber quantity = Js.Fin x ->
                      bind_numeric quantity = Some (Sql.Num x)) ->
           positive_quantities (fst (updateOrder db id quantity)))
    /\ (forall id, positive_quantities (fst (deleteOrder db id)))
    /\ positive_quantities (fst (deleteAllOrders db))
    /\ (forall now name price,
           positive_quantities (fst (createProduct db now name price)))
    /\ (forall id name price,
           positive_quantities (fst (updateProduct db id name price)))
    /\ (forall id, positive_quantities (fst (deleteProduct db id))).
Proof.
  intros db Hdb. unfold positive_quantities in *.
  split; [|split; [|split; [|split; [|split; [|split]]]]].
  - intros now js_now product_id quantity Hsame. unfold createOrder.
    destruct (Js.not product_id || Js.not quantity) eqn:Hreq; [assumption|].
    destruct (Js.isNaN quantity || Js.le0 quantity) eqn:Hval; [assumption|].
    destruct (select_product db product_id); [|assumption].
    destruct (valid_quantity_bound quantity Hval Hsame) as (x & -> & Hb & Hx).
    unfold insert_order. rewrite Hb.
    destruct (bind_numeric product_id); [|assumption]. simpl.
    apply Forall_app. split; [assumption|].
    constructor; [|constructor]. exists x. now split.
  - intros id quantity Hsame. unfold updateOrder.
    destruct (Js.not quantity) eqn:Hq; [assumption|].
    destruct (Js.isNaN quantity || Js.le0 quantity) eqn:Hval; [assumption|].
    destruct (select_order_joined db id) as [[o p]|]; [|assumption].
    destruct (valid_quantity_bound quantity Hval Hsame) as (x & -> & Hb & Hx).
    unfold update_order. rewrite Hb. simpl.
    destruct (filter _ (orders db)); [assumption|]. simpl.
    apply Forall_map. eapply Forall_impl; [|exact Hdb].
    intros row Hrow. destruct (Orders.order_id row =? id); [|assumption].
    exists x. now split.
  - intros id. unfold deleteOrder.
    destruct (existsb _ (orders db)); [|assumption]. simpl.
    apply Forall_forall. intros o Ho. apply filter_In in Ho.
    rewrite Forall_forall in Hdb. now apply Hdb.
  - constructor.
  - intros now name price. unfold createProduct.
    destruct (Js.not name || Js.not price); [assumption|].
    destruct (Js.isNaN price || Js.le0 price); [assumption|].
    unfold insert_product.
    destruct (bind_text name); [|assumption].
    now destruct (bind_number (Js.parseFloat price)).
  - intros id name price. unfold updateProduct.
    destruct (Js.not name || Js.not price); [assumption|].
    destruct (Js.isNaN price || Js.le0 price); [assumption|].
    unfold update_product.
    destruct (filter _ (products db)); [assumption|].
    destruct (bind_text name); [|assumption].
    now destruct (bind_number (Js.parseFloat price)).
  - intros id. unfold deleteProduct.
    now destruct (existsb _ (products db)).
Qed.

(** X14: createProduct and updateProduct keep every stored price above 0
    for a request whose price reads the same through [parseFloat], which is
    what they store, as through the conversion their guards test; the
    deletions and the order handlers keep it for every request. *)
Theorem positive_prices_kept :
  forall db : DB,
    positive_prices db ->
    (forall now name price,
        Js.parseFloat price = Js.ToNumber price ->
        positive_prices (fst (createProduct db now name price)))
    /\ (forall id name price,
           Js.parseFloat price = Js.ToNumber price ->
           positive_prices (fst (updateProduct db id name price)))
    /\ (forall id, positive_prices (fst (deleteProduct db id)))
    /\ (forall now js_now product_id quantity,
           positive_prices
             (fst (createOrder db now js_now product_id quantity)))
    /\ (forall id quantity, positive_prices (fst (updateOrder db id quantity)))
    /\ (forall id, positive_prices (fst (deleteOrder db id)))
    /\ positive_prices (fst (deleteAllOrders db)).
Proof.
  intros db Hdb. unfold positive_prices in *.
  assert (forall price q,
             Js.parseFloat price = Js.ToNumber price ->
             Js.isNaN price || Js.le0 price = false ->
             bind_number (Js.parseFloat price) = Some q -> (0 < q)%Q) as Hpos.
  { intros price q Hsame Hval Hb. rewrite Hsame in Hb.
    apply orb_false_iff in Hval. destruct Hval as [_ Hle].
    unfold Js.le0 in Hle.
    destruct (Js.ToNumber price) as [|x]; [discriminate|].
    inversion Hb; subst. apply Qnot_le_lt. intros H.
    apply Qle_bool_iff in H. congruence. }
  split; [|split; [|split; [|split; [|split; [|split]]]]].
  - intros now name price Hsame. unfold createProduct.
    destruct (Js.not name || Js.not price); [assumption|].
    destruct (Js.isNaN price || Js.le0 price) eqn:Hval; [assumption|].
    unfold insert_product.
    destruct (bind_text name); [|assumption].
    destruct (bind_number (Js.parseFloat price)) as [q|] eqn:Hb; [|assumption].
    simpl. apply Forall_app. split; [assumption|].
    repeat constructor. simpl. now apply (Hpos price).
  - intros id name price Hsame. unfold updateProduct.
    destruct (Js.not name || Js.not price); [assumption|].
    destruct (Js.isNaN price || Js.le0 price) eqn:Hval; [assumption|].
    unfold update_product.
    destruct (filter _ (products db)); [assumption|].
    destruct (bind_text name); [|assumption].
    destruct (bind_number (Js.parseFloat price)) as [q|] eqn:Hb; [|assumption].
    simpl. apply Forall_map. eapply Forall_impl; [|exact Hdb].
    intros row Hrow. destruct (Products.id row =? id); [|assumption].
    simpl. now apply (Hpos price).
  - intros id. unfold deleteProduct.
    destruct (existsb _ (products db)); [|assumption]. simpl.
    apply Forall_forall. intros p Hp. apply filter_In in Hp.
    rewrite Forall_forall in Hdb. now apply Hdb.
  - intros now js_now product_id quantity. unfold createOrder.
    destruct (Js.not product_id || Js.not quantity); [assumption|].
    destruct (Js.isNaN quantity || Js.le0 quantity); [assumption|].
    destruct (select_product db product_id); [|assumption].
    unfold insert_order.
    destruct (bind_numeric product_id); [|assumption].
    destruct (bind_numeric quantity); [|assumption].
    now destruct (bind_number _).
  - intros id quantity. unfold updateOrder.
    destruct (Js.not quantity); [assumption|].
    destruct (Js.isNaN quantity || Js.le0 quantity); [assumption|].
    destruct (select_order_joined db id) as [[o p]|]; [|assumption].
    unfold update_order.
    destruct (filter _ (orders db)); [assumption|].
    destruct (bind_numeric quantity); [|assumption].
    now destruct (bind_number _).
  - intros id. unfold deleteOrder.
    now destruct (existsb _ (orders db)).
  - assumption.
Qed.

(** X15: the write handlers keep the primary keys: no two Product rows share
    an id and no two Order rows share an order_id, whatever the request. *)
Theorem primary_keys_kept :
  forall db : DB,
    primary_keys db ->
    (forall now name price, primary_keys (fst (createProduct db now name price)))
    /\ (forall id name price, primary_keys (fst (updateProduct db id name price)))
    /\ (forall id, primary_keys (fst (deleteProduct db id)))
    /\ (forall now js_now product_id quantity,
           primary_keys (fst (createOrder db now js_now product_id quantity)))
    /\ (forall id quantity, primary_keys (fst (updateOrder db id quantity)))
    /\ (forall id, primary_keys (fst (deleteOrder db id)))
    /\ primary_keys (fst (deleteAllOrders db)).
Proof.
  intros db Hdb.
  split; [|split; [|split; [|split; [|split; [|split]]]]]; intros.
  - now apply createProduct_primary_keys.
  - now apply updateProduct_primary_keys.
  - now apply deleteProduct_primary_keys.
  - now apply createOrder_primary_keys.
  - now apply updateOrder_primary_keys.
  - now apply deleteOrder_primary_keys.
  - destruct Hdb as [Hp _]. split; [exact Hp | constructor].
Qed.
End Kept.

Lemma positive_quantities_kept_witness :
  positive_quantities
    (fst (createOrder (rt := DecimalRuntime.runtime) Sample.ledger 103 203
            (Js.num 1) (Js.str "2"))).
Proof.
  apply (proj1 (positive_quantities_kept (rt := DecimalRuntime.runtime)
                  Sample.ledger
                  ltac:(repeat constructor; exists 3%Q; now split))
           103 203 (Js.num 1) (Js.str "2")).
  intros x H. injection H as <-. reflexivity.
Defined.

(** The order that request appends: two Widgets, stored as the number 2. *)
Example createOrder_string_quantity :
  map Orders.quantity
    (orders (fst (createOrder (rt := DecimalRuntime.runtime) Sample.ledger
                    103 203 (Js.num 1) (Js.str "2"))))
  = [Sql.Num 3; Sql.Num 2].
Proof. reflexivity. Qed.

Lemma positive_prices_kept_witness :
  positive_prices
    (fst (createProduct (rt := DecimalRuntime.runtime) Sample.ledger 102
            (Js.str "Gadget") (Js.str "2.50"))).
Proof.
  apply (proj1 (positive_prices_kept (rt := DecimalRuntime.runtime)
                  Sample.ledger
                  ltac:(repeat constructor))
           102 (Js.str "Gadget") (Js.str "2.50")).
  reflexivity.
Defined.

Lemma primary_keys_kept_witness :
  primary_keys
    (fst (createOrder (rt := DecimalRuntime.runtime) Sample.ledger 103 203
            (Js.num 1) (Js.num 2))).
Proof.
  apply (proj1 (proj2 (proj2 (proj2
           (primary_keys_kept (rt := DecimalRuntime.runtime) Sample.ledger
              ltac:(split; repeat constructor; simpl; tauto)))))
           103 203 (Js.num 1) (Js.num 2)).
Defined.

(* ================================================================= *)
(** ** Ids are not handed out twice *)

Section Fresh.
Context {rt : Js.Runtime}.

Lemma createOrder_assigns (db db' : DB) (now js_now : Z)
    (product_id quantity : Js.value)
    (status : Z) (message : option string) (data : OrderCreated.t) :
  createOrder db now js_now product_id quantity
  = (db', Json status message data) ->
  OrderCreated.order_id data
  = next_rowid (orders_seq db) (map Orders.order_id (orders db))
  /\ orders_seq db' = OrderCreated.order_id data.
Proof.
  unfold createOrder.
  destruct (Js.not product_id || Js.not quantity); [discriminate|].
  destruct (Js.isNaN quantity || Js.le0 quantity); [discriminate|].
  destruct (select_product db product_id); [|discriminate].
  unfold insert_order.
  destruct (bind_numeric product_id); [|discriminate].
  destruct (bind_numeric quantity); [|discriminate].
  destruct (bind_number _); [|discriminate].
  intros H. inversion H; subst. now split.
Qed.

Lemma createProduct_assigns (db db' : DB) (now : Z) (name price : Js.value)
    (status : Z) (message : option string) (data : ProductData.t) :
  createProduct db now name price = (db', Json status message data) ->
  ProductData.id data
  = next_rowid (products_seq db) (map Products.id (products db))
  /\ products_seq db' = ProductData.id data.
Proof.
  unfold createProduct.
  destruct (Js.not name || Js.not price); [discriminate|].
  destruct (Js.isNaN price || Js.le0 price); [discriminate|].
  unfold insert_product.
  destruct (bind_text name); [|discriminate].
  destruct (bind_number _); [|discriminate].
  intros H. inversion H; subst. now split.
Qed.

Lemma deleteOrder_orders_seq (db : DB) (id : Z) :
  orders_seq (fst (deleteOrder db id)) = orders_seq db.
Proof. unfold deleteOrder. now destruct (existsb _ (orders db)). Qed.

Lemma deleteProduct_products_seq (db : DB) (id : Z) :
  products_seq (fst (deleteProduct db id)) = products_seq db.
Proof. unfold deleteProduct. now destruct (existsb _ (products db)). Qed.

(** X16: an order id is not handed out twice: after a createOrder answered
    with an id, a createOrder that follows a deleteOrder of any id, or a
    deleteAllOrders, answers with a larger id. *)
Theorem order_ids_not_reused :
  forall db now js_now product_id quantity db1 status message data1,
    createOrder db now js_now product_id quantity
    = (db1, Json status message data1) ->
    (forall id now' js_now' product_id' quantity' db3 status' message' data3,
        createOrder (fst (deleteOrder db1 id)) now' js_now' product_id' quantity'
        = (db3, Json status' message' data3) ->
        OrderCreated.order_id data1 < OrderCreated.order_id data3)
    /\ (forall now' js_now' product_id' quantity' db3 status' message' data3,
           createOrder (fst (deleteAllOrders db1)) now' js_now'
             product_id' quantity'
           = (db3, Json status' message' data3) ->
           OrderCreated.order_id data1 < OrderCreated.order_id data3).
Proof.
  intros db now js_now product_id quantity db1 status message data1 H1.
  apply createOrder_assigns in H1. destruct H1 as [_ Hseq]. split.
  - intros id now' js_now' product_id' quantity' db3 status' message' data3 H3.
    apply createOrder_assigns in H3. destruct H3 as [-> _].
    rewrite deleteOrder_orders_seq, Hseq.
    apply (proj1 (next_rowid_above _ _)).
  - intros now' js_now' product_id' quantity' db3 status' message' data3 H3.
    apply createOrder_assigns in H3. destruct H3 as [-> _].
    simpl. rewrite Hseq. apply (proj1 (next_rowid_above _ _)).
Qed.

(** X17: a product id is not handed out twice: after a createProduct
    answered with an id, a createProduct that follows a deleteProduct of any
    id answers with a larger id. *)
Theorem product_ids_not_reused :
  forall db now name price db1 status message data1,
    createProduct db now name price = (db1, Json status message data1) ->
    forall id now' name' price' db3 status' message' data3,
      createProduct (fst (deleteProduct db1 id)) now' name' price'
      = (db3, Json status' message' data3) ->
      ProductData.id data1 < ProductData.id data3.
Proof.
  intros db now name price db1 status message data1 H1.
  apply createProduct_assigns in H1. destruct H1 as [_ Hseq].
  intros id now' name' price' db3 status' message' data3 H3.
  apply createProduct_assigns in H3. destruct H3 as [-> _].
  rewrite deleteProduct_products_seq, Hseq.
  apply (proj1 (next_rowid_above _ _)).
Qed.
End Fresh.

Lemma order_ids_not_reused_witness : 1 < 2.
Proof.
  apply (proj1 (order_ids_not_reused (rt := DecimalRuntime.runtime)
                  Sample.catalog 101 201 (Js.num 1) (Js.num 3)
                  Sample.ledger 201
                  (Some "Order created successfully"%string)
                  {| OrderCreated.order_id := 1;
                     OrderCreated.product_id := Js.num 1;
                     OrderCreated.product_name := "Widget";
                     OrderCreated.quantity := Js.num 3;
                     OrderCreated.total_price := Js.Fin 1;
                     OrderCreated.order_date := 201 |}
                  eq_refl)
           1 104 204 (Js.num 1) (Js.num 2)
           (fst (createOrder (rt := DecimalRuntime.runtime)
                   (fst (deleteOrder Sample.ledger 1)) 104 204
                   (Js.num 1) (Js.num 2)))
           201 (Some "Order created successfully"%string)
           {| OrderCreated.order_id := 2;
              OrderCreated.product_id := Js.num 1;
              OrderCreated.product_name := "Widget";
              OrderCreated.quantity := Js.num 2;
              OrderCreated.total_price := Js.Fin (67 # 100);
              OrderCreated.order_date := 204 |}).
  reflexivity.
Defined.

Lemma product_ids_not_reused_witness : 1 < 2.
Proof.
  apply (product_ids_not_reused (rt := DecimalRuntime.runtime)
           empty_db 100 (Js.str "Widget") (Js.num (333 # 1000)) Sample.catalog
           201 (Some "Product created successfully"%string)
           {| ProductData.id := 1; ProductData.name := Js.str "Widget";
              ProductData.price := Js.Fin (333 # 1000) |}
           eq_refl
           1 105 (Js.str "Gadget") (Js.num 2)
           (fst (createProduct (rt := DecimalRuntime.runtime)
                   (fst (deleteProduct Sample.catalog 1)) 105
                   (Js.str "Gadget") (Js.num 2)))
           201 (Some "Product created successfully"%string)
           {| ProductData.id := 2; ProductData.name := Js.str "Gadget";
              ProductData.price := Js.Fin 2 |}).
  reflexivity.
Defined.

(* ================================================================= *)
(** ** A price change and the orders placed before it *)

(** X18: changing a Product's price does not touch the Orders placed before:
    right after updateProduct, getOrder shows the new unit price and name
    beside the old quantity and the old total_price; only an updateOrder
    recomputes the total, from the new price, and answers with parseInt of
    the new quantity and the rounded new total. *)
Theorem price_change_not_retroactive {rt : Js.Runtime} :
  forall (db : DB) (o : Orders.row) (p : Products.row) (s : string)
         (price q2 : Q),
    primary_keys db ->
    In o (orders db) ->
    In p (products db) ->
    on_product o p = true ->
    s <> ""%string ->
    (0 < price)%Q ->
    (0 < q2)%Q ->
    exists db1 db2,
      updateProduct db (Products.id p) (Js.str s) (Js.num price)
      = (db1, Json 200 (Some "Product updated successfully"%string)
                {| ProductData.id := Products.id p;
                   ProductData.name := Js.str s;
                   ProductData.price := Js.Fin price |})
      /\ orders db1 = orders db
      /\ getOrder db1 (Orders.order_id o)
         = (db1, Json 200 None
                   {| OrderDetail.order_id := Orders.order_id o;
                      OrderDetail.product_id := Orders.product_id o;
                      OrderDetail.product_name := s;
                      OrderDetail.unit_price := price;
                      OrderDetail.quantity := Orders.quantity o;
                      OrderDetail.total_price := Orders.total_price o;
                      OrderDetail.order_date := Orders.order_date o |})
      /\ updateOrder db1 (Orders.order_id o) (Js.num q2)
         = (db2, Json 200 (Some "Order updated successfully"%string)
                   {| OrderUpdated.order_id := Orders.order_id o;
                      OrderUpdated.product_id := Orders.product_id o;
                      OrderUpdated.quantity :=
                        Js.parseIntString (Js.NumberToString q2);
                      OrderUpdated.total_price :=
                        Js.Fin (Js.toFixed2 (price * q2)) |})
      /\ In {| Orders.order_id := Orders.order_id o;
               Orders.product_id := Orders.product_id o;
               Orders.quantity := Sql.Num q2;
               Orders.total_price := (price * q2)%Q;
               Orders.order_date := Orders.order_date o |} (orders db2).
Proof.
  intros db o p s price q2 Hpk Ho Hp Hon Hs Hprice Hq2.
  set (p' := {| Products.id := Products.id p; Products.name := s;
                Products.price := price;
                Products.created_at := Products.created_at p |}).
  assert (Js.not (Js.str s) = false) as Hname.
  { unfold Js.not, Js.truthy.
    destruct (String.eqb s "") eqn:E; [|reflexivity].
    now apply String.eqb_eq in E. }
  destruct (update_product_hit db (Products.id p) s price p Hp eq_refl)
    as [changes Hupd].
  match type of Hupd with _ = Sql.Ok (?d, _) => set (db1 := d) in * end.
  assert (updateProduct db (Products.id p) (Js.str s) (Js.num price)
          = (db1, Json 200 (Some "Product updated successfully"%string)
                    {| ProductData.id := Products.id p;
                       ProductData.name := Js.str s;
                       ProductData.price := Js.Fin price |})) as Hup.
  { unfold updateProduct.
    rewrite Hname, (not_positive price Hprice), isNaN_num,
      (le0_positive price Hprice).
    simpl. now rewrite Hupd. }
  pose proof (updateProduct_primary_keys db (Products.id p) (Js.str s)
                (Js.num price) Hpk) as Hpk1.
  rewrite Hup in Hpk1. simpl fst in Hpk1.
  assert (In p' (products db1)) as Hp'.
  { simpl. apply in_map_iff. exists p. now rewrite Z.eqb_refl. }
  assert (on_product o p' = true) as Hon' by exact Hon.
  pose proof (select_order_joined_found db1 o p' Hpk1 Ho Hp' Hon') as Hsel.
  eexists db1, _. split; [exact Hup|]. split; [reflexivity|]. split.
  { unfold getOrder. now rewrite Hsel. }
  unfold updateOrder.
  rewrite (not_positive q2 Hq2), isNaN_num, (le0_positive q2 Hq2), Hsel.
  simpl. rewrite (update_order_hit db1 o _ _ Ho).
  split; [reflexivity|]. simpl.
  apply in_map_iff. exists o. now rewrite Z.eqb_refl.
Qed.

Lemma price_change_not_retroactive_witness :
  exists db1 db2,
    updateProduct (rt := DecimalRuntime.runtime) Sample.ledger 1
      (Js.str "Widget") (Js.num 2)
    = (db1, Json 200 (Some "Product updated successfully"%string)
              {| ProductData.id := 1;
                 ProductData.name := Js.str "Widget";
                 ProductData.price := Js.Fin 2 |})
    /\ orders db1 = orders Sample.ledger
    /\ getOrder db1 1
       = (db1, Json 200 None
                 {| OrderDetail.order_id := 1;
                    OrderDetail.product_id := Sql.Num 1;
                    OrderDetail.product_name := "Widget";
                    OrderDetail.unit_price := 2%Q;
                    OrderDetail.quantity := Sql.Num 3;
                    OrderDetail.total_price := (999 # 1000)%Q;
                    OrderDetail.order_date := 101 |})
    /\ updateOrder (rt := DecimalRuntime.runtime) db1 1 (Js.num 5)
       = (db2, Json 200 (Some "Order updated successfully"%string)
                 {| OrderUpdated.order_id := 1;
                    OrderUpdated.product_id := Sql.Num 1;
                    OrderUpdated.quantity :=
                      DecimalRuntime.parse_int (DecimalRuntime.to_string 5);
                    OrderUpdated.total_price := Js.Fin (Js.toFixed2 (2 * 5)) |})
    /\ In {| Orders.order_id := 1;
             Orders.product_id := Sql.Num 1;
             Orders.quantity := Sql.Num 5;
             Orders.total_price := (2 * 5)%Q;
             Orders.order_date := 101 |} (orders db2).
Proof.
  apply (price_change_not_retroactive (rt := DecimalRuntime.runtime)
           Sample.ledger
           {| Orders.order_id := 1; Orders.product_id := Sql.Num 1;
              Orders.quantity := Sql.Num 3;
              Orders.total_price := (999 # 1000)%Q;
              Orders.order_date := 101 |}
           {| Products.id := 1; Products.name := "Widget";
              Products.price := (333 # 1000)%Q; Products.created_at := 100 |}
           "Widget" 2 5).
  - split; repeat constructor; simpl; tauto.
  - left. reflexivity.
  - left. reflexivity.
  - reflexivity.
  - discriminate.
  - reflexivity.
  - reflexivity.
Defined.

(* ================================================================= *)
(** ** The newest order heads the listing *)

Lemma order_by_desc_snoc_greatest {A : Type} (geb : A -> A -> bool)
    (l : list A) (x : A) :
  (forall y, In y l -> geb y x = false) ->
  order_by_desc geb (l ++ [x]) = x :: order_by_desc geb l.
Proof.
  induction l as [|a l IH]; simpl; intros H; [reflexivity|].
  rewrite IH by (intros y Hy; apply H; now right).
  simpl. now rewrite (H a) by now left.
Qed.

Lemma singleton_of_length {A : Type} (l : list A) (x : A) :
  List.length l = 1%nat -> In x l -> l = [x].
Proof.
  destruct l as [|y [|z l]]; simpl; try discriminate.
  intros _ [->|[]]. reflexivity.
Qed.

Lemma filter_on_product_single (db : DB) (o : Orders.row) (p : Products.row) :
  NoDup (map Products.id (products db)) ->
  In p (products db) -> on_product o p = true ->
  filter (on_product o) (products db) = [p].
Proof.
  intros Hnd Hp Hon. apply singleton_of_length.
  - rewrite (filter_on_product_unique o (products db) Hnd).
    assert (existsb (on_product o) (products db) = true) as ->
      by (apply existsb_exists; eauto).
    reflexivity.
  - apply filter_In. now split.
Qed.

(** X19: after a createOrder whose product_id is bound as the id of a
    product of the catalog and whose quantity passes both guards,
    listOrders lists the new order first, with what SQLite bound for its
    product_id and quantity, the exact total, the time of the INSERT and
    the name of its product, followed by the rows that were listed before,
    and its count is one more. *)
Theorem createOrder_listed_first {rt : Js.Runtime} :
  forall (db : DB) (now js_now : Z) (product_id quantity : Js.value)
         (k : Q) (p : Products.row),
    primary_keys db ->
    Js.not product_id || Js.not quantity = false ->
    Js.isNaN quantity || Js.le0 quantity = false ->
    bind_numeric product_id = Some (Sql.Num k) ->
    In p (products db) ->
    (k == inject_Z (Products.id p))%Q ->
    exists db' id c x before,
      createOrder db now js_now product_id quantity
      = (db', Json 201 (Some "Order created successfully"%string)
                {| OrderCreated.order_id := id;
                   OrderCreated.product_id := product_id;
                   OrderCreated.product_name := Products.name p;
                   OrderCreated.quantity := quantity;
                   OrderCreated.total_price :=
                     Js.Fin (Js.toFixed2 (Products.price p * x));
                   OrderCreated.order_date := js_now |})
      /\ bind_numeric quantity = Some c
      /\ Js.ToNumber quantity = Js.Fin x
      /\ listOrders db
         = (db, Json 200 None
                  {| rows := before; count := List.length before |})
      /\ listOrders db'
         = (db', Json 200 None
                   {| rows :=
                        {| OrderListed.order_id := id;
                           OrderListed.product_id := Sql.Num k;
                           OrderListed.product_name := Products.name p;
                           OrderListed.quantity := c;
                           OrderListed.total_price := (Products.price p * x)%Q;
                           OrderListed.order_date := now |} :: before;
                      count := S (List.length before) |}).
Proof.
  intros db now js_now product_id quantity k p Hpk Hreq Hval Hk Hp Hid.
  pose proof (select_product_by_id db product_id k p (proj1 Hpk) Hk Hp Hid)
    as Hsel.
  pose proof Hreq as Hreq'.
  apply orb_false_iff in Hreq'. destruct Hreq' as [_ Hq].
  pose proof Hval as Hval'.
  apply orb_false_iff in Hval'. destruct Hval' as [Hnan _].
  unfold Js.isNaN in Hnan.
  destruct (Js.ToNumber quantity) as [|x] eqn:Hx; [discriminate|].
  destruct (bind_numeric_truthy quantity Hq) as (c & Hc).
  destruct (next_rowid_above (orders_seq db) (map Orders.order_id (orders db)))
    as [_ Hids].
  set (o := {| Orders.order_id := next_rowid (orders_seq db)
                                    (map Orders.order_id (orders db));
               Orders.product_id := Sql.Num k; Orders.quantity := c;
               Orders.total_price := (Products.price p * x)%Q;
               Orders.order_date := now |}).
  set (db' := {| products := products db; orders := orders db ++ [o];
                 products_seq := products_seq db;
                 orders_seq := Orders.order_id o |}).
  exists db', (Orders.order_id o), c, x,
    (map listed (order_by_desc joined_geb (orders_join_products db))).
  split.
  { unfold createOrder. rewrite Hreq, Hval, Hsel, Hx. unfold insert_order.
    rewrite Hk, Hc. reflexivity. }
  split; [exact Hc|]. split; [reflexivity|]. split; [reflexivity|].
  unfold listOrders, listing.
  assert (orders_join_products db' = orders_join_products db ++ [(o, p)]) as ->.
  { unfold orders_join_products. simpl. rewrite flat_map_app. simpl.
    rewrite app_nil_r. f_equal.
    now rewrite (filter_on_product_single db o p (proj1 Hpk) Hp
                   (on_product_bound o p k eq_refl Hid)). }
  rewrite order_by_desc_snoc_greatest; [reflexivity|].
  intros [o' p'] Hin. apply in_orders_join_products in Hin.
  destruct Hin as (Ho' & _ & _). unfold joined_geb. simpl.
  apply Z.leb_gt. apply Hids. now apply in_map.
Qed.

Lemma createOrder_listed_first_witness :
  exists db' id c x before,
    createOrder (rt := DecimalRuntime.runtime) Sample.ledger 103 203
      (Js.num 1) (Js.str "2")
    = (db', Json 201 (Some "Order created successfully"%string)
              {| OrderCreated.order_id := id;
                 OrderCreated.product_id := Js.num 1;
                 OrderCreated.product_name := "Widget";
                 OrderCreated.quantity := Js.str "2";
                 OrderCreated.total_price :=
                   Js.Fin (Js.toFixed2 ((333 # 1000) * x));
                 OrderCreated.order_date := 203 |})
    /\ bind_numeric (rt := DecimalRuntime.runtime) (Js.str "2") = Some c
    /\ Js.ToNumber (rt := DecimalRuntime.runtime) (Js.str "2") = Js.Fin x
    /\ listOrders Sample.ledger
       = (Sample.ledger,
          Json 200 None {| rows := before; count := List.length before |})
    /\ listOrders db'
       = (db', Json 200 None
                 {| rows :=
                      {| OrderListed.order_id := id;
                         OrderListed.product_id := Sql.Num 1;
                         OrderListed.product_name := "Widget";
                         OrderListed.quantity := c;
                         OrderListed.total_price := ((333 # 1000) * x)%Q;
                         OrderListed.order_date := 103 |} :: before;
                    count := S (List.length before) |}).
Proof.
  apply (createOrder_listed_first (rt := DecimalRuntime.runtime)
           Sample.ledger 103 203 (Js.num 1) (Js.str "2") 1
           {| Products.id := 1; Products.name := "Widget";
              Products.price := (333 # 1000)%Q; Products.created_at := 100 |}).
  - split; repeat constructor; simpl; tauto.
  - reflexivity.
  - reflexivity.
  - reflexivity.
  - left. reflexivity.
  - reflexivity.
Defined.

(** The listing after that request: the new order of two Widgets, then the
    order of three. *)
Example listOrders_after_createOrder :
  map (fun r => (OrderListed.order_id r, OrderListed.quantity r,
                 OrderListed.order_date r))
      (rows
         (match snd (listOrders
                       (fst (createOrder (rt := DecimalRuntime.runtime)
                               Sample.ledger 103 203 (Js.num 1) (Js.str "2"))))
          with
          | Json _ _ data => data
          | _ => listing []
          end))
  = [(2, Sql.Num 2, 103); (1, Sql.Num 3, 101)].
Proof. reflexivity. Qed.

(* ================================================================= *)
(** ** The reports add up *)

Lemma total_app (l l' : list Q) : (total (l ++ l') == total l + total l')%Q.
Proof.
  unfold total. induction l as [|x l IH]; simpl; [lra|]. rewrite IH. lra.
Qed.










